(** * fraud-detector: the aggregation pass of [generateReport] (main.go)

    A shallow embedding of [generateReport] and of the records it fills,
    followed by the properties of the report that the specification states.

    Conventions of the embedding.
    - Go's [int] and [int64] are [Z] with two's-complement wrap-around
      written out ([wrap64]); [int] is taken to be 64 bits wide.
    - [GameData.Timestamp] is a [float64] decoded from JSON, hence finite;
      the loop only compares timestamps and truncates them, and on finite
      floats Go's [<] and [>] are the order of the rationals they denote, so
      a timestamp is a canonical rational [Qc].
    - The RTP is computed in [float64]; it is modelled bit-exactly with the
      IEEE-754 binary64 operations of [SpecFloat].
    - Go maps are [gmap]s.  Ranging over a Go map visits the keys in an
      unspecified order; [map_to_list] stands for that order and no theorem
      depends on it.
    - [time.Unix(..).Hour()], [time.Format], [fmt.Sprintf] of a float and
      [sort.Slice] belong to the Go runtime; they are the fields of the
      classes [GoTime], [GoFmt] and [GoSort].  [sort.Slice] is documented as
      not stable, so [GoSort] only carries what the documentation promises;
      the routine the Go library runs behind it is embedded further down
      ([pdqsort_func]) and shows what the program does with equal amounts.
    - The lines printed on standard output are not modelled, except for the
      two duplicate counters they report, which stay in the loop state. *)

From Stdlib Require Import ZArith QArith Qcanon Ascii.
From Stdlib Require Import Floats.SpecFloat.
From stdpp Require Import gmap strings list fin_maps sorting numbers pretty.

Open Scope Z_scope.

(** ** Machine integers and floats *)

Definition wrap64 (z : Z) : Z := (z + 2 ^ 63) mod 2 ^ 64 - 2 ^ 63.
Definition add64 (a b : Z) : Z := wrap64 (a + b).
Definition sub64 (a b : Z) : Z := wrap64 (a - b).
Definition incr (n : Z) : Z := add64 n 1.

(** The sum of a list of [int64] as a Go loop [acc += x] computes it. *)
Definition sum64 (l : list Z) : Z := fold_left add64 l 0.

Definition in_int64 (z : Z) : Prop := - 2 ^ 63 <= z < 2 ^ 63.

Definition float64 := spec_float.
Definition f64_prec : Z := 53.
Definition f64_emax : Z := 1024.
Definition f64_zero : float64 := S754_zero false.
(** [float64(n)] for an integer [n]: round to nearest, ties to even. *)
Definition float64_of_int (n : Z) : float64 :=
  binary_normalize f64_prec f64_emax n 0 false.
Definition f64_div : float64 → float64 → float64 := SFdiv f64_prec f64_emax.
Definition f64_mul : float64 → float64 → float64 := SFmul f64_prec f64_emax.
Definition f64_gt (a b : float64) : bool := SFltb b a.

(** [float64(win) / float64(bet) * 100] *)
Definition rtp_of (win bet : Z) : float64 :=
  f64_mul (f64_div (float64_of_int win) (float64_of_int bet)) (float64_of_int 100).

(** [int64(f)] for a finite float: the fraction is discarded.  (Go leaves
    the result open when [f] is outside the range of [int64]; the value is
    only handed to the clock, never compared or added.) *)
Definition int64_of_float (q : Qc) : Z := Z.quot (Qnum q) (Zpos (Qden q)).

(** ** The runtime the function calls into *)

Class GoTime := {
  (** [time.Unix(sec, 0).Hour()], in the local time zone *)
  unix_hour : Z → Z;
  (** [time.Unix(sec, 0).Format("2006-01-02 15:04:05")] *)
  unix_format : Z → string;
}.

Class GoFmt := {
  (** [fmt.Sprintf("RTP: %.2f%%, Bets: %d", rtp, bets)] *)
  sprintf_details : float64 → Z → string;
}.

(** What a [less] function has to be for [sort.Slice] to sort. *)
Record StrictWeakOrder {A} (less : A → A → bool) : Prop := {
  swo_irrefl : ∀ x, less x x = false;
  swo_trans : ∀ x y z, less x y = true → less y z = true → less x z = true;
  swo_incomp : ∀ x y z, less x y = false → less y z = false → less x z = false;
}.

(** [sort.Slice(s, less)]: the result is a rearrangement of [s] in which no
    later element is [less] than an earlier one.  Nothing is promised about
    the order of elements neither of which is [less] than the other. *)
Class GoSort := {
  sort_Slice : ∀ {A : Type}, (A → A → bool) → list A → list A;
}.

Class GoSortLaws `{GoSort} : Prop := {
  sort_Slice_perm : ∀ {A} (less : A → A → bool) l, sort_Slice less l ≡ₚ l;
  sort_Slice_sorted : ∀ {A} (less : A → A → bool) l,
    StrictWeakOrder less →
    StronglySorted (λ x y, less y x = false) (sort_Slice less l);
}.

(** ** Records *)

Module GameData.
(** The fields [generateReport] reads; the other fields of the Go struct
    (Level, Logger, Caller, ...) are never inspected by it. *)
Record t := mk {
  Message : string;
  GameID : string;
  Currency : string;
  PlayerID : string;
  RoundID : string;
  Timestamp : Qc;
  BetID : string;
  WinID : string;
  Bet : Z;
  Win : Z;
  Balance : Z;
}.
End GameData.

Module TopBet.
Record t := mk { Amount : Z; RoundID : string; Time : string }.
End TopBet.

Module TopWin.
Record t := mk { Amount : Z; RoundID : string; Time : string }.
End TopWin.

Module PlayerStat.
Record t := mk {
  PlayerID : string;
  RTP : float64;
  TotalBetAmount : Z;
  TotalWinAmount : Z;
  NetResult : Z;
  LastBalance : Z;
  TotalBets : Z;
  TotalWins : Z;
  TopBets : list TopBet.t;
  TopWins : list TopWin.t;
}.
(** The zero value, which a Go map lookup yields for an absent key. *)
Definition zero : t := mk "" f64_zero 0 0 0 0 0 0 [] [].
End PlayerStat.

Module GameStat.
Record t := mk {
  GameID : string;
  RTP : float64;
  TotalBetAmount : Z;
  TotalWinAmount : Z;
  TotalBets : Z;
  TotalWins : Z;
  Players : Z;
}.
Definition zero : t := mk "" f64_zero 0 0 0 0 0.
End GameStat.

Module TimeStat.
Record t := mk {
  Hour : Z;
  TotalBets : Z;
  TotalWins : Z;
  TotalBetAmount : Z;
  TotalWinAmount : Z;
}.
Definition zero : t := mk 0 0 0 0 0.
End TimeStat.

Module SuspiciousEvent.
Record t := mk {
  Type_ : string;
  Description : string;
  PlayerID : string;
  Timestamp : string;
  Details : string;
}.
End SuspiciousEvent.

Module Summary.
Record t := mk {
  TotalBets : Z;
  TotalWins : Z;
  TotalBetAmount : Z;
  TotalWinAmount : Z;
  NetResult : Z;
  RTP : float64;
  UniquePlayers : Z;
  UniqueGames : Z;
  TimeSpan : string;
}.
End Summary.

Module Report.
Record t := mk {
  Summary : Summary.t;
  PlayerStats : gmap string PlayerStat.t;
  GameStats : gmap string GameStat.t;
  TimeStats : list TimeStat.t;
  SuspiciousEvents : list SuspiciousEvent.t;
}.
End Report.

(** ** The loop state: the local variables of [generateReport] *)

Module Agg.
Record t := mk {
  PlayerStats : gmap string PlayerStat.t;
  GameStats : gmap string GameStat.t;
  totalBets : Z;
  totalWins : Z;
  totalBetAmount : Z;
  totalWinAmount : Z;
  uniquePlayers : gmap string bool;
  uniqueGames : gmap string bool;
  uniqueBetIDs : gmap string bool;
  uniqueWinIDs : gmap string bool;
  timeStats : gmap Z TimeStat.t;
  minTime : Qc;
  maxTime : Qc;
  playerBalances : gmap string (list Z);
  duplicateBets : Z;
  duplicateWins : Z;
}.

Definition init : t :=
  mk ∅ ∅ 0 0 0 0 ∅ ∅ ∅ ∅ ∅ (Q2Qc (-1)) (Q2Qc 0) ∅ 0 0.
End Agg.

(** [m[k]] on a Go map: the zero value when [k] is absent. *)
Definition get_bool (m : gmap string bool) (k : string) : bool :=
  default false (m !! k).
Definition get_player (m : gmap string PlayerStat.t) (k : string) : PlayerStat.t :=
  default PlayerStat.zero (m !! k).
Definition get_game (m : gmap string GameStat.t) (k : string) : GameStat.t :=
  default GameStat.zero (m !! k).
Definition get_time (m : gmap Z TimeStat.t) (k : Z) : TimeStat.t :=
  default TimeStat.zero (m !! k).
Definition get_balances (m : gmap string (list Z)) (k : string) : list Z :=
  default [] (m !! k).

(** ** The loop body (main.go, lines 271-385) *)

Section Aggregation.
Context `{GoTime}.

Import GameData.

Definition hour_of (data : GameData.t) : Z :=
  unix_hour (int64_of_float (Timestamp data)).
Definition time_of (data : GameData.t) : string :=
  unix_format (int64_of_float (Timestamp data)).

(** Lines 272-293: what every entry does, whatever its message. *)
Definition observe (s : Agg.t) (data : GameData.t) : Agg.t :=
  let hour := hour_of data in
  {| Agg.PlayerStats := Agg.PlayerStats s;
     Agg.GameStats := Agg.GameStats s;
     Agg.totalBets := Agg.totalBets s;
     Agg.totalWins := Agg.totalWins s;
     Agg.totalBetAmount := Agg.totalBetAmount s;
     Agg.totalWinAmount := Agg.totalWinAmount s;
     Agg.uniquePlayers := <[PlayerID data := true]> (Agg.uniquePlayers s);
     Agg.uniqueGames := <[GameID data := true]> (Agg.uniqueGames s);
     Agg.uniqueBetIDs := Agg.uniqueBetIDs s;
     Agg.uniqueWinIDs := Agg.uniqueWinIDs s;
     Agg.timeStats :=
       match Agg.timeStats s !! hour with
       | Some _ => Agg.timeStats s
       | None => <[hour := TimeStat.mk hour 0 0 0 0]> (Agg.timeStats s)
       end;
     Agg.minTime :=
       if bool_decide (Agg.minTime s < 0)%Qc
          || bool_decide (Timestamp data < Agg.minTime s)%Qc
       then Timestamp data else Agg.minTime s;
     Agg.maxTime :=
       if bool_decide (Agg.maxTime s < Timestamp data)%Qc
       then Timestamp data else Agg.maxTime s;
     Agg.playerBalances :=
       <[PlayerID data :=
           get_balances (Agg.playerBalances s) (PlayerID data) ++ [Balance data]]>
         (Agg.playerBalances s);
     Agg.duplicateBets := Agg.duplicateBets s;
     Agg.duplicateWins := Agg.duplicateWins s |}.

(** Lines 311-325. *)
Definition bet_player (pStat : PlayerStat.t) (data : GameData.t) : PlayerStat.t :=
  {| PlayerStat.PlayerID := PlayerID data;
     PlayerStat.RTP := PlayerStat.RTP pStat;
     PlayerStat.TotalBetAmount := add64 (PlayerStat.TotalBetAmount pStat) (Bet data);
     PlayerStat.TotalWinAmount := PlayerStat.TotalWinAmount pStat;
     PlayerStat.NetResult := PlayerStat.NetResult pStat;
     PlayerStat.LastBalance := Balance data;
     PlayerStat.TotalBets := incr (PlayerStat.TotalBets pStat);
     PlayerStat.TotalWins := PlayerStat.TotalWins pStat;
     PlayerStat.TopBets :=
       PlayerStat.TopBets pStat
         ++ [TopBet.mk (Bet data) (RoundID data) (time_of data)];
     PlayerStat.TopWins := PlayerStat.TopWins pStat |}.

(** Lines 328-335.  [found] is the result of looking the game up in
    [report.GameStats], which the code does twice on the same key. *)
Definition bet_game (found : option GameStat.t) (data : GameData.t) : GameStat.t :=
  let gStat := default GameStat.zero found in
  {| GameStat.GameID := GameID data;
     GameStat.RTP := GameStat.RTP gStat;
     GameStat.TotalBetAmount := add64 (GameStat.TotalBetAmount gStat) (Bet data);
     GameStat.TotalWinAmount := GameStat.TotalWinAmount gStat;
     GameStat.TotalBets := incr (GameStat.TotalBets gStat);
     GameStat.TotalWins := GameStat.TotalWins gStat;
     GameStat.Players :=
       match found with
       | Some _ => GameStat.Players gStat
       | None => 0
       end |}.

(** Lines 338-341. *)
Definition bet_time (tStat : TimeStat.t) (data : GameData.t) : TimeStat.t :=
  {| TimeStat.Hour := TimeStat.Hour tStat;
     TimeStat.TotalBets := incr (TimeStat.TotalBets tStat);
     TimeStat.TotalWins := TimeStat.TotalWins tStat;
     TimeStat.TotalBetAmount := add64 (TimeStat.TotalBetAmount tStat) (Bet data);
     TimeStat.TotalWinAmount := TimeStat.TotalWinAmount tStat |}.

(** Lines 304-341: a bet that is counted.  [ids] is the bet ledger after
    the identifier, if any, has been recorded. *)
Definition count_bet (ids : gmap string bool) (s : Agg.t) (data : GameData.t) : Agg.t :=
  let hour := hour_of data in
  {| Agg.PlayerStats :=
       <[PlayerID data := bet_player (get_player (Agg.PlayerStats s) (PlayerID data)) data]>
         (Agg.PlayerStats s);
     Agg.GameStats :=
       <[GameID data := bet_game (Agg.GameStats s !! GameID data) data]> (Agg.GameStats s);
     Agg.totalBets := incr (Agg.totalBets s);
     Agg.totalWins := Agg.totalWins s;
     Agg.totalBetAmount := add64 (Agg.totalBetAmount s) (Bet data);
     Agg.totalWinAmount := Agg.totalWinAmount s;
     Agg.uniquePlayers := Agg.uniquePlayers s;
     Agg.uniqueGames := Agg.uniqueGames s;
     Agg.uniqueBetIDs := ids;
     Agg.uniqueWinIDs := Agg.uniqueWinIDs s;
     Agg.timeStats :=
       <[hour := bet_time (get_time (Agg.timeStats s) hour) data]> (Agg.timeStats s);
     Agg.minTime := Agg.minTime s;
     Agg.maxTime := Agg.maxTime s;
     Agg.playerBalances := Agg.playerBalances s;
     Agg.duplicateBets := Agg.duplicateBets s;
     Agg.duplicateWins := Agg.duplicateWins s |}.

(** Lines 358-371: [PlayerID] is not assigned here. *)
Definition win_player (pStat : PlayerStat.t) (data : GameData.t) : PlayerStat.t :=
  {| PlayerStat.PlayerID := PlayerStat.PlayerID pStat;
     PlayerStat.RTP := PlayerStat.RTP pStat;
     PlayerStat.TotalBetAmount := PlayerStat.TotalBetAmount pStat;
     PlayerStat.TotalWinAmount := add64 (PlayerStat.TotalWinAmount pStat) (Win data);
     PlayerStat.NetResult := PlayerStat.NetResult pStat;
     PlayerStat.LastBalance := Balance data;
     PlayerStat.TotalBets := PlayerStat.TotalBets pStat;
     PlayerStat.TotalWins := incr (PlayerStat.TotalWins pStat);
     PlayerStat.TopBets := PlayerStat.TopBets pStat;
     PlayerStat.TopWins :=
       PlayerStat.TopWins pStat
         ++ [TopWin.mk (Win data) (RoundID data) (time_of data)] |}.

(** Lines 374-377: [GameID] is not assigned here. *)
Definition win_game (gStat : GameStat.t) (data : GameData.t) : GameStat.t :=
  {| GameStat.GameID := GameStat.GameID gStat;
     GameStat.RTP := GameStat.RTP gStat;
     GameStat.TotalBetAmount := GameStat.TotalBetAmount gStat;
     GameStat.TotalWinAmount := add64 (GameStat.TotalWinAmount gStat) (Win data);
     GameStat.TotalBets := GameStat.TotalBets gStat;
     GameStat.TotalWins := incr (GameStat.TotalWins gStat);
     GameStat.Players := GameStat.Players gStat |}.

(** Lines 380-383. *)
Definition win_time (tStat : TimeStat.t) (data : GameData.t) : TimeStat.t :=
  {| TimeStat.Hour := TimeStat.Hour tStat;
     TimeStat.TotalBets := TimeStat.TotalBets tStat;
     TimeStat.TotalWins := incr (TimeStat.TotalWins tStat);
     TimeStat.TotalBetAmount := TimeStat.TotalBetAmount tStat;
     TimeStat.TotalWinAmount := add64 (TimeStat.TotalWinAmount tStat) (Win data) |}.

(** Lines 351-383: a win that is counted. *)
Definition count_win (ids : gmap string bool) (s : Agg.t) (data : GameData.t) : Agg.t :=
  let hour := hour_of data in
  {| Agg.PlayerStats :=
       <[PlayerID data := win_player (get_player (Agg.PlayerStats s) (PlayerID data)) data]>
         (Agg.PlayerStats s);
     Agg.GameStats :=
       <[GameID data := win_game (get_game (Agg.GameStats s) (GameID data)) data]>
         (Agg.GameStats s);
     Agg.totalBets := Agg.totalBets s;
     Agg.totalWins := incr (Agg.totalWins s);
     Agg.totalBetAmount := Agg.totalBetAmount s;
     Agg.totalWinAmount := add64 (Agg.totalWinAmount s) (Win data);
     Agg.uniquePlayers := Agg.uniquePlayers s;
     Agg.uniqueGames := Agg.uniqueGames s;
     Agg.uniqueBetIDs := Agg.uniqueBetIDs s;
     Agg.uniqueWinIDs := ids;
     Agg.timeStats :=
       <[hour := win_time (get_time (Agg.timeStats s) hour) data]> (Agg.timeStats s);
     Agg.minTime := Agg.minTime s;
     Agg.maxTime := Agg.maxTime s;
     Agg.playerBalances := Agg.playerBalances s;
     Agg.duplicateBets := Agg.duplicateBets s;
     Agg.duplicateWins := Agg.duplicateWins s |}.

(** Lines 300-302 and 347-349: [duplicateBets++; continue]. *)
Definition skip_duplicate_bet (s : Agg.t) : Agg.t :=
  {| Agg.PlayerStats := Agg.PlayerStats s; Agg.GameStats := Agg.GameStats s;
     Agg.totalBets := Agg.totalBets s; Agg.totalWins := Agg.totalWins s;
     Agg.totalBetAmount := Agg.totalBetAmount s;
     Agg.totalWinAmount := Agg.totalWinAmount s;
     Agg.uniquePlayers := Agg.uniquePlayers s; Agg.uniqueGames := Agg.uniqueGames s;
     Agg.uniqueBetIDs := Agg.uniqueBetIDs s; Agg.uniqueWinIDs := Agg.uniqueWinIDs s;
     Agg.timeStats := Agg.timeStats s;
     Agg.minTime := Agg.minTime s; Agg.maxTime := Agg.maxTime s;
     Agg.playerBalances := Agg.playerBalances s;
     Agg.duplicateBets := incr (Agg.duplicateBets s);
     Agg.duplicateWins := Agg.duplicateWins s |}.

Definition skip_duplicate_win (s : Agg.t) : Agg.t :=
  {| Agg.PlayerStats := Agg.PlayerStats s; Agg.GameStats := Agg.GameStats s;
     Agg.totalBets := Agg.totalBets s; Agg.totalWins := Agg.totalWins s;
     Agg.totalBetAmount := Agg.totalBetAmount s;
     Agg.totalWinAmount := Agg.totalWinAmount s;
     Agg.uniquePlayers := Agg.uniquePlayers s; Agg.uniqueGames := Agg.uniqueGames s;
     Agg.uniqueBetIDs := Agg.uniqueBetIDs s; Agg.uniqueWinIDs := Agg.uniqueWinIDs s;
     Agg.timeStats := Agg.timeStats s;
     Agg.minTime := Agg.minTime s; Agg.maxTime := Agg.maxTime s;
     Agg.playerBalances := Agg.playerBalances s;
     Agg.duplicateBets := Agg.duplicateBets s;
     Agg.duplicateWins := incr (Agg.duplicateWins s) |}.

(** One iteration of [for _, data := range gameData]. *)
Definition step (s0 : Agg.t) (data : GameData.t) : Agg.t :=
  let s := observe s0 data in
  if bool_decide (Message data = "SendBet") && (0 <? Bet data) then
    if bool_decide (BetID data ≠ "") then
      if get_bool (Agg.uniqueBetIDs s) (BetID data)
      then skip_duplicate_bet s
      else count_bet (<[BetID data := true]> (Agg.uniqueBetIDs s)) s data
    else count_bet (Agg.uniqueBetIDs s) s data
  else if bool_decide (Message data = "SendWin") && (0 <? Win data) then
    if bool_decide (WinID data ≠ "") then
      if get_bool (Agg.uniqueWinIDs s) (WinID data)
      then skip_duplicate_win s
      else count_win (<[WinID data := true]> (Agg.uniqueWinIDs s)) s data
    else count_win (Agg.uniqueWinIDs s) s data
  else s.

(** The state when the loop over [gameData] ends. *)
Definition aggregate (gameData : list GameData.t) : Agg.t :=
  fold_left step gameData Agg.init.

End Aggregation.

(** ** Derived statistics and the report (main.go, lines 387-483) *)

Section Finalization.
Context `{GoTime, GoFmt, GoSort}.

(** [if len(s) > 5 { s = s[:5] }] *)
Definition top5 {A} (s : list A) : list A :=
  if 5 <? Z.of_nat (length s) then take 5 s else s.

(** The closures handed to [sort.Slice]: [s[i].Amount > s[j].Amount]. *)
Definition bet_less (a b : TopBet.t) : bool := TopBet.Amount b <? TopBet.Amount a.
Definition win_less (a b : TopWin.t) : bool := TopWin.Amount b <? TopWin.Amount a.
Definition hour_less (a b : TimeStat.t) : bool := TimeStat.Hour a <? TimeStat.Hour b.

(** Lines 389-408. *)
Definition finalize_player (pStat : PlayerStat.t) : PlayerStat.t :=
  {| PlayerStat.PlayerID := PlayerStat.PlayerID pStat;
     PlayerStat.RTP :=
       if 0 <? PlayerStat.TotalBetAmount pStat
       then rtp_of (PlayerStat.TotalWinAmount pStat) (PlayerStat.TotalBetAmount pStat)
       else PlayerStat.RTP pStat;
     PlayerStat.TotalBetAmount := PlayerStat.TotalBetAmount pStat;
     PlayerStat.TotalWinAmount := PlayerStat.TotalWinAmount pStat;
     PlayerStat.NetResult :=
       sub64 (PlayerStat.TotalWinAmount pStat) (PlayerStat.TotalBetAmount pStat);
     PlayerStat.LastBalance := PlayerStat.LastBalance pStat;
     PlayerStat.TotalBets := PlayerStat.TotalBets pStat;
     PlayerStat.TotalWins := PlayerStat.TotalWins pStat;
     PlayerStat.TopBets := top5 (sort_Slice bet_less (PlayerStat.TopBets pStat));
     PlayerStat.TopWins := top5 (sort_Slice win_less (PlayerStat.TopWins pStat)) |}.

(** Lines 413-420, on the record just finalized; [playerID] is the map key. *)
Definition detect (playerID : string) (pStat : PlayerStat.t) : list SuspiciousEvent.t :=
  if (100 <? PlayerStat.TotalBets pStat)
     && f64_gt (PlayerStat.RTP pStat) (float64_of_int 150)
  then [ {| SuspiciousEvent.Type_ := "High RTP";
            SuspiciousEvent.Description := "Player has suspiciously high RTP";
            SuspiciousEvent.PlayerID := playerID;
            SuspiciousEvent.Timestamp := "";
            SuspiciousEvent.Details :=
              sprintf_details (PlayerStat.RTP pStat) (PlayerStat.TotalBets pStat) |} ]
  else [].

(** Lines 428-434: the second pass over the entries. *)
Definition playersInGame (gameData : list GameData.t) (gameID : string)
  : gmap string bool :=
  fold_left
    (λ m data,
       if bool_decide (GameData.GameID data = gameID)
       then <[GameData.PlayerID data := true]> m else m)
    gameData ∅.

(** Lines 424-435. *)
Definition finalize_game (gameData : list GameData.t)
    (gameID : string) (gStat : GameStat.t) : GameStat.t :=
  {| GameStat.GameID := GameStat.GameID gStat;
     GameStat.RTP :=
       if 0 <? GameStat.TotalBetAmount gStat
       then rtp_of (GameStat.TotalWinAmount gStat) (GameStat.TotalBetAmount gStat)
       else GameStat.RTP gStat;
     GameStat.TotalBetAmount := GameStat.TotalBetAmount gStat;
     GameStat.TotalWinAmount := GameStat.TotalWinAmount gStat;
     GameStat.TotalBets := GameStat.TotalBets gStat;
     GameStat.TotalWins := GameStat.TotalWins gStat;
     GameStat.Players := Z.of_nat (size (playersInGame gameData gameID)) |}.

(** Lines 462-466. *)
Definition time_span (s : Agg.t) : string :=
  if bool_decide (0 ≤ Agg.minTime s)%Qc
     && bool_decide (Agg.minTime s < Agg.maxTime s)%Qc
  then unix_format (int64_of_float (Agg.minTime s))
         +:+ " - " +:+ unix_format (int64_of_float (Agg.maxTime s))
  else "".

(** Lines 447-460. *)
Definition summarize (s : Agg.t) : Summary.t :=
  {| Summary.TotalBets := Agg.totalBets s;
     Summary.TotalWins := Agg.totalWins s;
     Summary.TotalBetAmount := Agg.totalBetAmount s;
     Summary.TotalWinAmount := Agg.totalWinAmount s;
     Summary.NetResult := sub64 (Agg.totalWinAmount s) (Agg.totalBetAmount s);
     Summary.RTP :=
       if 0 <? Agg.totalBetAmount s
       then rtp_of (Agg.totalWinAmount s) (Agg.totalBetAmount s)
       else f64_zero;
     Summary.UniquePlayers := Z.of_nat (size (Agg.uniquePlayers s));
     Summary.UniqueGames := Z.of_nat (size (Agg.uniqueGames s));
     Summary.TimeSpan := time_span s |}.

(** [generateReport]; the [currency] argument is not used by the body. *)
Definition generateReport (gameData : list GameData.t) (currency : string) : Report.t :=
  let s := aggregate gameData in
  let players := finalize_player <$> Agg.PlayerStats s in
  {| Report.Summary := summarize s;
     Report.PlayerStats := players;
     Report.GameStats :=
       map_imap (λ gameID gStat, Some (finalize_game gameData gameID gStat))
         (Agg.GameStats s);
     Report.TimeStats := sort_Slice hour_less (snd <$> map_to_list (Agg.timeStats s));
     Report.SuspiciousEvents :=
       flat_map (λ kv, detect kv.1 kv.2) (map_to_list players) |}.

End Finalization.

(** ** A sort routine that meets the contract of [sort.Slice]

    Merge sort, for evaluating the report on concrete streams.  Like
    [sort.Slice] it promises nothing about the order of elements that compare
    equal (see [merge_sorter_laws]). *)

Definition may_precede {A} (less : A → A → bool) (x y : A) : Prop :=
  less y x = false.

Definition may_precede_dec {A} (less : A → A → bool) :
  RelDecision (may_precede less) := λ x y, decide (less y x = false).

Definition merge_slice {A} (less : A → A → bool) (l : list A) : list A :=
  @merge_sort A (may_precede less) (may_precede_dec less) l.

Definition merge_sorter : GoSort := {| sort_Slice := @merge_slice |}.

(** ** The routine behind [sort.Slice] in the Go library

    [sort.Slice] is not part of main.go: it runs the pattern-defeating
    quicksort of the standard library's [sort] package (zsortfunc.go, since
    Go 1.19), transcribed here function by function.  The slice is a list,
    [data.Less] and [data.Swap] act on positions, and each loop is a
    [Fixpoint] over a bound on its number of rounds.  [pdqsort_func] calls
    itself, so it takes fuel and returns [None] when that runs out.  The
    generator step used by [breakPatterns_func] is a parameter: that pass
    only runs after a badly balanced partition, and what is proved below
    about sorted lists does not depend on it. *)

Inductive sortedHint := unknownHint | increasingHint | decreasingHint.

(** [bits.Len(uint(n))] for a length [n]. *)
Definition bits_Len (n : Z) : Z := if n <=? 0 then 0 else Z.log2 n + 1.

Section Pdqsort.
Context {A : Type} (less : A → A → bool).
(** [random.Next()] of [breakPatterns]: the step of the xorshift generator
    on its 64-bit state. *)
Context (xorshift_Next : Z → Z).

Definition slice_at (s : list A) (i : Z) : option A :=
  if i <? 0 then None else s !! Z.to_nat i.

(** [data.Less(i, j)] and [data.Swap(i, j)]. *)
Definition Less (s : list A) (i j : Z) : bool :=
  match slice_at s i, slice_at s j with
  | Some x, Some y => less x y
  | _, _ => false
  end.
Definition Swap (s : list A) (i j : Z) : list A :=
  match slice_at s i, slice_at s j with
  | Some x, Some y => <[Z.to_nat j := x]> (<[Z.to_nat i := y]> s)
  | _, _ => s
  end.

(** [for j := i; j > a && data.Less(j, j-1); j-- { data.Swap(j, j-1) }] *)
Fixpoint insert_down (n : nat) (s : list A) (a j : Z) : list A :=
  match n with
  | O => s
  | S n' =>
      if (a <? j) && Less s j (j - 1)
      then insert_down n' (Swap s j (j - 1)) a (j - 1)
      else s
  end.

Fixpoint insertion_loop (n : nat) (s : list A) (a b i : Z) : list A :=
  match n with
  | O => s
  | S n' =>
      if i <? b
      then insertion_loop n' (insert_down (Z.to_nat (i - a)) s a i) a b (i + 1)
      else s
  end.

Definition insertionSort_func (s : list A) (a b : Z) : list A :=
  insertion_loop (Z.to_nat (b - a)) s a b (a + 1).

Fixpoint siftDown_loop (n : nat) (s : list A) (root hi first : Z) : list A :=
  match n with
  | O => s
  | S n' =>
      let child := 2 * root + 1 in
      if hi <=? child then s
      else
        let child :=
          if (child + 1 <? hi) && Less s (first + child) (first + child + 1)
          then child + 1 else child in
        if negb (Less s (first + root) (first + child)) then s
        else siftDown_loop n' (Swap s (first + root) (first + child)) child hi first
  end.

Definition siftDown_func (s : list A) (lo hi first : Z) : list A :=
  siftDown_loop (Z.to_nat hi) s lo hi first.

Fixpoint heap_build (n : nat) (s : list A) (i hi first : Z) : list A :=
  match n with
  | O => s
  | S n' =>
      if 0 <=? i then heap_build n' (siftDown_func s i hi first) (i - 1) hi first
      else s
  end.

Fixpoint heap_pop (n : nat) (s : list A) (i lo first : Z) : list A :=
  match n with
  | O => s
  | S n' =>
      if 0 <=? i
      then heap_pop n' (siftDown_func (Swap s first (first + i)) lo i first)
             (i - 1) lo first
      else s
  end.

Definition heapSort_func (s : list A) (a b : Z) : list A :=
  let first := a in
  let lo := 0 in
  let hi := b - a in
  let s := heap_build (Z.to_nat hi) s (Z.quot (hi - 1) 2) hi first in
  heap_pop (Z.to_nat hi) s (hi - 1) lo first.

(** [for i <= j && p(i) { i++ }] and [for i <= j && p(j) { j-- }] *)
Fixpoint scan_up (n : nat) (p : Z → bool) (i j : Z) : Z :=
  match n with
  | O => i
  | S n' => if (i <=? j) && p i then scan_up n' p (i + 1) j else i
  end.
Fixpoint scan_down (n : nat) (p : Z → bool) (i j : Z) : Z :=
  match n with
  | O => j
  | S n' => if (i <=? j) && p j then scan_down n' p i (j - 1) else j
  end.

Definition span (i j : Z) : nat := Z.to_nat (j - i + 1).

Fixpoint partition_loop (n : nat) (s : list A) (a i j : Z) : list A * Z :=
  match n with
  | O => (s, j)
  | S n' =>
      let i := scan_up (span i j) (λ i, Less s i a) i j in
      let j := scan_down (span i j) (λ j, negb (Less s j a)) i j in
      if j <? i then (s, j)
      else partition_loop n' (Swap s i j) a (i + 1) (j - 1)
  end.

Definition partition_func (s : list A) (a b pivot : Z) : list A * Z * bool :=
  let s := Swap s a pivot in
  let i := a + 1 in
  let j := b - 1 in
  let i := scan_up (span i j) (λ i, Less s i a) i j in
  let j := scan_down (span i j) (λ j, negb (Less s j a)) i j in
  if j <? i then (Swap s j a, j, true)
  else
    let s := Swap s i j in
    let '(s, j) := partition_loop (Z.to_nat (b - a)) s a (i + 1) (j - 1) in
    (Swap s j a, j, false).

Fixpoint partitionEqual_loop (n : nat) (s : list A) (a i j : Z) : list A * Z :=
  match n with
  | O => (s, i)
  | S n' =>
      let i := scan_up (span i j) (λ i, negb (Less s a i)) i j in
      let j := scan_down (span i j) (λ j, Less s a j) i j in
      if j <? i then (s, i)
      else partitionEqual_loop n' (Swap s i j) a (i + 1) (j - 1)
  end.

Definition partitionEqual_func (s : list A) (a b pivot : Z) : list A * Z :=
  let s := Swap s a pivot in
  partitionEqual_loop (Z.to_nat (b - a) + 1) s a (a + 1) (b - 1).

(** [for i < b && !data.Less(i, i-1) { i++ }] *)
Fixpoint skip_ordered (n : nat) (s : list A) (i b : Z) : Z :=
  match n with
  | O => i
  | S n' =>
      if (i <? b) && negb (Less s i (i - 1)) then skip_ordered n' s (i + 1) b else i
  end.

Fixpoint shift_left (n : nat) (s : list A) (j : Z) : list A :=
  match n with
  | O => s
  | S n' =>
      if 1 <=? j
      then if negb (Less s j (j - 1)) then s
           else shift_left n' (Swap s j (j - 1)) (j - 1)
      else s
  end.

Fixpoint shift_right (n : nat) (s : list A) (j b : Z) : list A :=
  match n with
  | O => s
  | S n' =>
      if j <? b
      then if negb (Less s j (j - 1)) then s
           else shift_right n' (Swap s j (j - 1)) (j + 1) b
      else s
  end.

Fixpoint partial_steps (steps : nat) (s : list A) (a b i : Z) : list A * bool :=
  match steps with
  | O => (s, false)
  | S steps' =>
      let i := skip_ordered (Z.to_nat (b - i)) s i b in
      if i =? b then (s, true)
      else if b - a <? 50 then (s, false)
      else
        let s := Swap s i (i - 1) in
        let s := if 2 <=? i - a then shift_left (Z.to_nat i) s (i - 1) else s in
        let s := if 2 <=? b - i then shift_right (Z.to_nat (b - i)) s (i + 1) b else s in
        partial_steps steps' s a b i
  end.

Definition partialInsertionSort_func (s : list A) (a b : Z) : list A * bool :=
  partial_steps 5 s a b (a + 1).

Fixpoint breakPatterns_loop (n : nat) (s : list A) (a length modulus idx i random : Z)
  : list A :=
  match n with
  | O => s
  | S n' =>
      let random := xorshift_Next random in
      let other := Z.land random (modulus - 1) in
      let other := if length <=? other then other - length else other in
      breakPatterns_loop n' (Swap s (idx - 1 + i) (a + other))
        a length modulus idx (i + 1) random
  end.

Definition breakPatterns_func (s : list A) (a b : Z) : list A :=
  let length := b - a in
  if 8 <=? length then
    let random := length in
    let modulus := 2 ^ bits_Len length in
    let idx := a + Z.quot length 4 * 2 - 1 in
    breakPatterns_loop 3 s a length modulus idx 0 random
  else s.

Definition order2_func (s : list A) (a b swaps : Z) : Z * Z * Z :=
  if Less s b a then (b, a, swaps + 1) else (a, b, swaps).

Definition median_func (s : list A) (a b c swaps : Z) : Z * Z :=
  let '(a, b, swaps) := order2_func s a b swaps in
  let '(b, c, swaps) := order2_func s b c swaps in
  let '(a, b, swaps) := order2_func s a b swaps in
  (b, swaps).

Definition medianAdjacent_func (s : list A) (a swaps : Z) : Z * Z :=
  median_func s (a - 1) a (a + 1) swaps.

Definition choosePivot_func (s : list A) (a b : Z) : Z * sortedHint :=
  let l := b - a in
  let swaps := 0 in
  let i := a + Z.quot l 4 * 1 in
  let j := a + Z.quot l 4 * 2 in
  let k := a + Z.quot l 4 * 3 in
  let '(j, swaps) :=
    if 8 <=? l then
      let '(i, j, k, swaps) :=
        if 50 <=? l then
          let '(i, swaps) := medianAdjacent_func s i swaps in
          let '(j, swaps) := medianAdjacent_func s j swaps in
          let '(k, swaps) := medianAdjacent_func s k swaps in
          (i, j, k, swaps)
        else (i, j, k, swaps) in
      median_func s i j k swaps
    else (j, swaps) in
  if swaps =? 0 then (j, increasingHint)
  else if swaps =? 12 then (j, decreasingHint)
  else (j, unknownHint).

Fixpoint reverse_loop (n : nat) (s : list A) (i j : Z) : list A :=
  match n with
  | O => s
  | S n' => if i <? j then reverse_loop n' (Swap s i j) (i + 1) (j - 1) else s
  end.

Definition reverseRange_func (s : list A) (a b : Z) : list A :=
  reverse_loop (Z.to_nat (b - a)) s a (b - 1).

Fixpoint pdqsort_func (fuel : nat) (s : list A) (a b limit : Z)
    (wasBalanced wasPartitioned : bool) : option (list A) :=
  match fuel with
  | O => None
  | S fuel' =>
      let length := b - a in
      if length <=? 12 then Some (insertionSort_func s a b)
      else if limit =? 0 then Some (heapSort_func s a b)
      else
        let '(s, limit) :=
          if negb wasBalanced then (breakPatterns_func s a b, limit - 1)
          else (s, limit) in
        let '(pivot, hint) := choosePivot_func s a b in
        let '(s, pivot, hint) :=
          match hint with
          | decreasingHint =>
              (reverseRange_func s a b, (b - 1) - (pivot - a), increasingHint)
          | _ => (s, pivot, hint)
          end in
        let partition (s : list A) : option (list A) :=
          if (0 <? a) && negb (Less s (a - 1) pivot) then
            let '(s, mid) := partitionEqual_func s a b pivot in
            pdqsort_func fuel' s mid b limit wasBalanced wasPartitioned
          else
            let '(s, mid, alreadyPartitioned) := partition_func s a b pivot in
            let leftLen := mid - a in
            let rightLen := b - mid in
            let balanceThreshold := Z.quot length 8 in
            if leftLen <? rightLen then
              match pdqsort_func fuel' s a mid limit true true with
              | None => None
              | Some s =>
                  pdqsort_func fuel' s (mid + 1) b limit
                    (balanceThreshold <=? leftLen) alreadyPartitioned
              end
            else
              match pdqsort_func fuel' s (mid + 1) b limit true true with
              | None => None
              | Some s =>
                  pdqsort_func fuel' s a mid limit
                    (balanceThreshold <=? rightLen) alreadyPartitioned
              end in
        if wasBalanced && wasPartitioned
           && match hint with increasingHint => true | _ => false end
        then
          let '(s', sorted) := partialInsertionSort_func s a b in
          if sorted then Some s' else partition s'
        else partition s
  end.

(** [sort.Slice]: [limit := bits.Len(uint(length))], then
    [pdqsort_func(.., 0, length, limit)]. *)
Definition Slice (s : list A) : option (list A) :=
  let length := Z.of_nat (List.length s) in
  let limit := bits_Len length in
  pdqsort_func (2 * List.length s + 1) s 0 length limit true true.

End Pdqsort.


(** [sort.Slice] as the library runs it; the input is returned as it is
    should the fuel run out. *)
Definition pdq_sorter (xorshift_Next : Z → Z) : GoSort :=
  {| sort_Slice := λ A less l, default l (Slice less xorshift_Next l) |}.

(** A generator to run [pdq_sorter] with: xorshift on 64 bits with the
    shifts 13, 7 and 17. *)
Definition xorshift64 (r : Z) : Z :=
  let r := Z.lxor r (Z.shiftl r 13 mod 2 ^ 64) in
  let r := Z.lxor r (Z.shiftr r 7) in
  Z.lxor r (Z.shiftl r 17 mod 2 ^ 64).

(** ** A concrete clock and formatter: the UTC time zone *)

Module UTC.
Definition digit (n : Z) : string :=
  String (Ascii.ascii_of_nat (48 + Z.to_nat (n mod 10))) "".
Definition pad2 (n : Z) : string := digit (n / 10) +:+ digit n.
Definition pad4 (n : Z) : string := pad2 (n / 100) +:+ pad2 n.

Definition hour (sec : Z) : Z := (sec / 3600) mod 24.

(** Year, month and day of the proleptic Gregorian calendar for a day
    count since 1970-01-01. *)
Definition civil (days : Z) : Z * Z * Z :=
  let z := days + 719468 in
  let era := z / 146097 in
  let doe := z - era * 146097 in
  let yoe := (doe - doe / 1460 + doe / 36524 - doe / 146096) / 365 in
  let doy := doe - (365 * yoe + yoe / 4 - yoe / 100) in
  let mp := (5 * doy + 2) / 153 in
  let d := doy - (153 * mp + 2) / 5 + 1 in
  let m := if mp <? 10 then mp + 3 else mp - 9 in
  let y := yoe + era * 400 + (if m <=? 2 then 1 else 0) in
  (y, m, d).

Definition format (sec : Z) : string :=
  let '(y, m, d) := civil (sec / 86400) in
  pad4 y +:+ "-" +:+ pad2 m +:+ "-" +:+ pad2 d +:+ " "
    +:+ pad2 (hour sec) +:+ ":" +:+ pad2 ((sec / 60) mod 60)
    +:+ ":" +:+ pad2 (sec mod 60).

Definition clock : GoTime := {| unix_hour := hour; unix_format := format |}.

(** [%.2f] of a float: the exact value rounded to two decimals, ties to
    even. *)
Definition fixed2 (f : float64) : string :=
  match f with
  | S754_zero s => (if s then "-" else "") +:+ "0.00"
  | S754_infinity s => if s then "-Inf" else "+Inf"
  | S754_nan => "NaN"
  | S754_finite s m e =>
      let num := Zpos m * 100 * (if 0 <=? e then 2 ^ e else 1) in
      let den := if 0 <=? e then 1 else 2 ^ (- e) in
      let q := num / den in
      let r := num mod den in
      let up := (den <? 2 * r) || ((2 * r =? den) && Z.odd q) in
      let c := if up then q + 1 else q in
      (if s then "-" else "") +:+ pretty (c / 100) +:+ "." +:+ pad2 (c mod 100)
  end.

Definition fmt : GoFmt :=
  {| sprintf_details rtp bets :=
       "RTP: " +:+ fixed2 rtp +:+ "%, Bets: " +:+ pretty bets |}.
End UTC.

(** ** The stream seen from outside: which entries count

    These definitions do not mention the loop state.  They say, for an entry
    [d] and the entries [pre] processed before it, what the specification
    calls a Bet or Win event, and the verdict of the identifier ledger. *)

Section Stream.
Import GameData.

(** A Bet event that is not inert: message [SendBet], positive amount. *)
Definition is_bet (d : GameData.t) : bool :=
  bool_decide (Message d = "SendBet") && (0 <? Bet d).

(** A Win event that is not inert: message [SendWin], positive amount. *)
Definition is_win (d : GameData.t) : bool :=
  bool_decide (Message d = "SendWin") && (0 <? Win d).

(** Some earlier non-inert Bet event carried the identifier [id]. *)
Definition seen_bet (pre : list GameData.t) (id : string) : bool :=
  existsb (λ d0, is_bet d0 && bool_decide (BetID d0 = id)) pre.

Definition seen_win (pre : list GameData.t) (id : string) : bool :=
  existsb (λ d0, is_win d0 && bool_decide (WinID d0 = id)) pre.

Inductive Fate := CountedBet | DuplicateBet | CountedWin | DuplicateWin | Inert.

#[global] Instance Fate_eq_dec : EqDecision Fate.
Proof. solve_decision. Defined.

(** The empty identifier is never a duplicate. *)
Definition fate (pre : list GameData.t) (d : GameData.t) : Fate :=
  if is_bet d then
    if bool_decide (BetID d ≠ "") && seen_bet pre (BetID d)
    then DuplicateBet else CountedBet
  else if is_win d then
    if bool_decide (WinID d ≠ "") && seen_win pre (WinID d)
    then DuplicateWin else CountedWin
  else Inert.

(** The entries of [l] that satisfy [keep], each judged against the
    entries before it; [pre] is what precedes [l]. *)
Fixpoint select (keep : list GameData.t → GameData.t → bool)
    (pre l : list GameData.t) : list GameData.t :=
  match l with
  | [] => []
  | d :: l' =>
      (if keep pre d then [d] else []) ++ select keep (pre ++ [d]) l'
  end.

Definition counted (pre : list GameData.t) (d : GameData.t) : bool :=
  bool_decide (fate pre d = CountedBet) || bool_decide (fate pre d = CountedWin).

(** The counted entries of a stream, in stream order. *)
Definition accepted (l : list GameData.t) : list GameData.t := select counted [] l.
Definition accepted_bets (l : list GameData.t) : list GameData.t :=
  filter (λ d, is_bet d = true) (accepted l).
Definition accepted_wins (l : list GameData.t) : list GameData.t :=
  filter (λ d, is_win d = true) (accepted l).

Definition of_player (p : string) (l : list GameData.t) : list GameData.t :=
  filter (λ d, PlayerID d = p) l.
Definition of_game (g : string) (l : list GameData.t) : list GameData.t :=
  filter (λ d, GameID d = g) l.

Definition Zsum (l : list Z) : Z := foldr Z.add 0 l.
End Stream.

(** The distinct players with any entry at all on game [g]. *)
Definition players_on_game (l : list GameData.t) (g : string) : gset string :=
  list_to_set (GameData.PlayerID <$> of_game g l).

(** The specification's reading of the per-game player count: the distinct
    players with an entry of kind Bet or Win on game [g]. *)
Definition transacting_players (l : list GameData.t) (g : string) : gset string :=
  list_to_set
    (GameData.PlayerID <$>
       filter (λ d, GameData.Message d = "SendBet" ∨ GameData.Message d = "SendWin")
         (of_game g l)).

(** The smallest and the largest timestamp of a stream, if it has entries. *)
Definition Qc_min (a b : Qc) : Qc := if bool_decide (a < b)%Qc then a else b.
Definition Qc_max (a b : Qc) : Qc := if bool_decide (a < b)%Qc then b else a.

Definition min_ts (l : list GameData.t) : option Qc :=
  match l with
  | [] => None
  | d :: l' => Some (fold_left (λ m e, Qc_min m (GameData.Timestamp e)) l' (GameData.Timestamp d))
  end.

Definition max_ts (l : list GameData.t) : option Qc :=
  match l with
  | [] => None
  | d :: l' => Some (fold_left (λ m e, Qc_max m (GameData.Timestamp e)) l' (GameData.Timestamp d))
  end.

(** The candidate entries recorded for an accepted bet or win. *)
Definition top_bet_of `{GoTime} (d : GameData.t) : TopBet.t :=
  TopBet.mk (GameData.Bet d) (GameData.RoundID d) (time_of d).
Definition top_win_of `{GoTime} (d : GameData.t) : TopWin.t :=
  TopWin.mk (GameData.Win d) (GameData.RoundID d) (time_of d).

(** The bet ledger once a counted bet with identifier [id] went through. *)
Definition record_id (ids : gmap string bool) (id : string) : gmap string bool :=
  if bool_decide (id ≠ "") then <[id := true]> ids else ids.

(** What the counted entries of one player, in stream order, make of that
    player's record. *)
Definition player_entry `{GoTime} (pStat : PlayerStat.t) (d : GameData.t) : PlayerStat.t :=
  if is_bet d then bet_player pStat d else win_player pStat d.
Definition player_record `{GoTime} (evs : list GameData.t) : option PlayerStat.t :=
  match evs with
  | [] => None
  | _ => Some (fold_left player_entry evs PlayerStat.zero)
  end.

(** The same for the record of one game. *)
Definition game_entry (gStat : option GameStat.t) (d : GameData.t) : option GameStat.t :=
  Some (if is_bet d then bet_game gStat d
        else win_game (default GameStat.zero gStat) d).
Definition game_record (evs : list GameData.t) : option GameStat.t :=
  fold_left game_entry evs None.

(** The ledger holds exactly the non-empty identifiers of the non-inert
    entries seen so far. *)
Definition ledger_ok (pre : list GameData.t) (s : Agg.t) : Prop :=
  (∀ id, get_bool (Agg.uniqueBetIDs s) id = bool_decide (id ≠ "") && seen_bet pre id)
  ∧ (∀ id, get_bool (Agg.uniqueWinIDs s) id = bool_decide (id ≠ "") && seen_win pre id).

(** The specification's formula [win / bet * 100], read in IEEE-754
    binary64 with the operations of the Standard Library: each total is
    converted to the nearest float, the quotient is rounded to nearest, and
    so is its product with 100. *)
Definition percent_of (win bet : Z) : spec_float :=
  SFmul 53 1024
    (SFdiv 53 1024 (binary_normalize 53 1024 win 0 false)
       (binary_normalize 53 1024 bet 0 false))
    (binary_normalize 53 1024 100 0 false).

(** The rational number a float stands for, unless it is infinite or not a
    number. *)
Definition float_value (f : spec_float) : option Q :=
  match f with
  | S754_zero _ => Some 0%Q
  | S754_finite sign m e =>
      Some (Qred ((if sign then -1 else 1) * inject_Z (Zpos m) * 2 ^ e)%Q)
  | _ => None
  end.

(** The RTP convention of the report: the specification's percentage when
    the bet amount is positive, zero otherwise. *)
Definition rtp_rule (win bet : Z) (rtp : float64) : Prop :=
  (0 < bet → rtp = percent_of win bet) ∧ (bet ≤ 0 → rtp = S754_zero false).

(** The identifier field of a record stored under [key], given the counted
    entries [evs] that built the record: it is [key] once a bet is among
    them, and empty when they are all wins. *)
Definition id_rule (key field : string) (evs : list GameData.t) : Prop :=
  ((∃ d, d ∈ evs ∧ is_bet d = true) → field = key)
  ∧ ((∀ d, d ∈ evs → is_win d = true) → field = "").

(** Descending by amount. *)
Definition bets_descending : list TopBet.t → Prop :=
  StronglySorted (λ a b, TopBet.Amount b ≤ TopBet.Amount a).
Definition wins_descending : list TopWin.t → Prop :=
  StronglySorted (λ a b, TopWin.Amount b ≤ TopWin.Amount a).

(** The four counters of hour bucket [h]; zeros when the bucket does not
    exist. *)
Definition bucket_counts (m : gmap Z TimeStat.t) (h : Z) : Z * Z * Z * Z :=
  let t := get_time m h in
  (TimeStat.TotalBets t, TimeStat.TotalBetAmount t,
   TimeStat.TotalWins t, TimeStat.TotalWinAmount t).

(** Between [s] and [s'] no bet or win statistic moved: the global totals,
    the player map (with its candidate lists), the game map and the counters
    of every hour bucket are the same. *)
Definition same_statistics (s s' : Agg.t) : Prop :=
  Agg.totalBets s' = Agg.totalBets s
  ∧ Agg.totalBetAmount s' = Agg.totalBetAmount s
  ∧ Agg.totalWins s' = Agg.totalWins s
  ∧ Agg.totalWinAmount s' = Agg.totalWinAmount s
  ∧ Agg.PlayerStats s' = Agg.PlayerStats s
  ∧ Agg.GameStats s' = Agg.GameStats s
  ∧ ∀ h, bucket_counts (Agg.timeStats s') h = bucket_counts (Agg.timeStats s) h.

(** Between [s] and [s'] the bet [d] was counted once, globally, for its
    player, for its game and for its hour, and became a top-bet candidate. *)
Definition bet_counted `{GoTime} (s s' : Agg.t) (d : GameData.t) : Prop :=
  let p := GameData.PlayerID d in
  let g := GameData.GameID d in
  let h := hour_of d in
  let amount := GameData.Bet d in
  Agg.totalBets s' = incr (Agg.totalBets s)
  ∧ Agg.totalBetAmount s' = add64 (Agg.totalBetAmount s) amount
  ∧ PlayerStat.TotalBets (get_player (Agg.PlayerStats s') p)
    = incr (PlayerStat.TotalBets (get_player (Agg.PlayerStats s) p))
  ∧ PlayerStat.TotalBetAmount (get_player (Agg.PlayerStats s') p)
    = add64 (PlayerStat.TotalBetAmount (get_player (Agg.PlayerStats s) p)) amount
  ∧ PlayerStat.TopBets (get_player (Agg.PlayerStats s') p)
    = PlayerStat.TopBets (get_player (Agg.PlayerStats s) p) ++ [top_bet_of d]
  ∧ GameStat.TotalBets (get_game (Agg.GameStats s') g)
    = incr (GameStat.TotalBets (get_game (Agg.GameStats s) g))
  ∧ GameStat.TotalBetAmount (get_game (Agg.GameStats s') g)
    = add64 (GameStat.TotalBetAmount (get_game (Agg.GameStats s) g)) amount
  ∧ TimeStat.TotalBets (get_time (Agg.timeStats s') h)
    = incr (TimeStat.TotalBets (get_time (Agg.timeStats s) h))
  ∧ TimeStat.TotalBetAmount (get_time (Agg.timeStats s') h)
    = add64 (TimeStat.TotalBetAmount (get_time (Agg.timeStats s) h)) amount.

Definition win_counted `{GoTime} (s s' : Agg.t) (d : GameData.t) : Prop :=
  let p := GameData.PlayerID d in
  let g := GameData.GameID d in
  let h := hour_of d in
  let amount := GameData.Win d in
  Agg.totalWins s' = incr (Agg.totalWins s)
  ∧ Agg.totalWinAmount s' = add64 (Agg.totalWinAmount s) amount
  ∧ PlayerStat.TotalWins (get_player (Agg.PlayerStats s') p)
    = incr (PlayerStat.TotalWins (get_player (Agg.PlayerStats s) p))
  ∧ PlayerStat.TotalWinAmount (get_player (Agg.PlayerStats s') p)
    = add64 (PlayerStat.TotalWinAmount (get_player (Agg.PlayerStats s) p)) amount
  ∧ PlayerStat.TopWins (get_player (Agg.PlayerStats s') p)
    = PlayerStat.TopWins (get_player (Agg.PlayerStats s) p) ++ [top_win_of d]
  ∧ GameStat.TotalWins (get_game (Agg.GameStats s') g)
    = incr (GameStat.TotalWins (get_game (Agg.GameStats s) g))
  ∧ GameStat.TotalWinAmount (get_game (Agg.GameStats s') g)
    = add64 (GameStat.TotalWinAmount (get_game (Agg.GameStats s) g)) amount
  ∧ TimeStat.TotalWins (get_time (Agg.timeStats s') h)
    = incr (TimeStat.TotalWins (get_time (Agg.timeStats s) h))
  ∧ TimeStat.TotalWinAmount (get_time (Agg.timeStats s') h)
    = add64 (TimeStat.TotalWinAmount (get_time (Agg.timeStats s) h)) amount.

(** ** Sample entries and streams *)

Definition send_bet (player game round : string) (ts : Z) (id : string)
    (amount balance : Z) : GameData.t :=
  GameData.mk "SendBet" game "USD" player round (Q2Qc (inject_Z ts)) id "" amount 0 balance.
Definition send_win (player game round : string) (ts : Z) (id : string)
    (amount balance : Z) : GameData.t :=
  GameData.mk "SendWin" game "USD" player round (Q2Qc (inject_Z ts)) "" id 0 amount balance.
(** An entry of another kind, such as a session message. *)
Definition other_entry (msg player game : string) (ts balance : Z) : GameData.t :=
  GameData.mk msg game "USD" player "" (Q2Qc (inject_Z ts)) "" "" 0 0 balance.

(** The stream of the specification's duplicate scenario. *)
Definition duplicate_scenario : list GameData.t :=
  [ send_bet "A" "g" "r1" 10 "b1" 100 900;
    send_bet "A" "g" "r1" 10 "b1" 100 900;
    send_win "A" "g" "r1" 20 "w1" 50 950 ].

(** A zero-amount bet that carries the identifier of a later, or of an
    earlier, positive bet. *)
Definition inert_then_bet : list GameData.t :=
  [ send_bet "A" "g" "r1" 10 "b1" 0 1000;
    send_bet "A" "g" "r2" 20 "b1" 100 900 ].
Definition bet_then_inert : list GameData.t :=
  [ send_bet "A" "g" "r1" 10 "b1" 100 900;
    send_bet "A" "g" "r2" 20 "b1" 0 900 ].

(** A duplicate that arrives from another player, on another game, later. *)
Definition first_bet : GameData.t := send_bet "A" "g1" "r1" 10 "b1" 100 900.
Definition replayed_bet : GameData.t := send_bet "B" "g2" "r2" 20 "b1" 100 500.

(** Two bets of the same amount by one player. *)
Definition tied_bets : list GameData.t :=
  [ send_bet "A" "g" "r1" 10 "" 100 900;
    send_bet "A" "g" "r2" 20 "" 100 800 ].

(** A player who only logs in on a game another player bets on. *)
Definition bystander_stream : list GameData.t :=
  [ send_bet "A" "g1" "r1" 10 "b1" 100 900;
    other_entry "Login" "B" "g1" 20 500 ].

(** Two entries, the first one five seconds before the epoch. *)
Definition pre_epoch_stream : list GameData.t :=
  [ other_entry "Login" "A" "g" (-5) 0;
    other_entry "Login" "A" "g" 10 0 ].

(** A bet followed by an entry of the same player that is not counted. *)
Definition trailing_entry_stream : list GameData.t :=
  [ send_bet "A" "g" "r1" 10 "b1" 100 900;
    other_entry "Login" "A" "g" 20 500 ].

(** 100 bets of 10 and one win of 1500: exactly 100 bets, RTP exactly 150. *)
Definition boundary_stream : list GameData.t :=
  replicate 100 (send_bet "B" "g" "r" 10 "" 10 0)
    ++ [ send_win "B" "g" "r" 20 "" 1500 0 ].

(** 150 bets that total 1000 and one win of 2000: RTP 200. *)
Definition high_rtp_stream : list GameData.t :=
  replicate 100 (send_bet "P" "g" "r" 10 "" 5 0)
    ++ replicate 50 (send_bet "P" "g" "r" 10 "" 10 0)
    ++ [ send_win "P" "g" "r" 20 "" 2000 0 ].

(** Thirteen bets of one player, in this order: two of 100, then 1, 2, and
    so on up to 11. *)
Definition thirteen_bets : list GameData.t :=
  [ send_bet "A" "g" "r1" 10 "" 100 0;
    send_bet "A" "g" "r2" 20 "" 100 0;
    send_bet "A" "g" "r3" 30 "" 1 0;
    send_bet "A" "g" "r4" 40 "" 2 0;
    send_bet "A" "g" "r5" 50 "" 3 0;
    send_bet "A" "g" "r6" 60 "" 4 0;
    send_bet "A" "g" "r7" 70 "" 5 0;
    send_bet "A" "g" "r8" 80 "" 6 0;
    send_bet "A" "g" "r9" 90 "" 7 0;
    send_bet "A" "g" "r10" 100 "" 8 0;
    send_bet "A" "g" "r11" 110 "" 9 0;
    send_bet "A" "g" "r12" 120 "" 10 0;
    send_bet "A" "g" "r13" 130 "" 11 0 ].

(** Two bets whose amounts add up to 2^63. *)
Definition overflow_stream : list GameData.t :=
  [ send_bet "A" "g" "r1" 10 "" (2 ^ 63 - 1) 0;
    send_bet "A" "g" "r2" 20 "" 1 0 ].

(** Player A bets on game g1; player W only wins, on game g2. *)
Definition win_only_stream : list GameData.t :=
  [ send_bet "A" "g1" "r1" 10 "b1" 100 900;
    send_win "W" "g2" "r2" 20 "w1" 50 50 ].

(** ** Printing amounts (main.go, lines 695-710) *)

(** [strconv.FormatInt(n, 10)]: the decimal numeral, with a minus sign for
    negative numbers. *)
Definition FormatInt (n : Z) : string := pretty n.

(** Lines 703-708: the loop [for i, digit := range str] from index [i] on,
    for a string of [n] bytes.  The numeral is ASCII, so the loop visits one
    byte per iteration and the index grows by one. *)
Fixpoint commas_from (n i : Z) (str : string) : string :=
  match str with
  | EmptyString => EmptyString
  | String digit rest =>
      if (0 <? i) && ((n - i) mod 3 =? 0)
      then String ","%char (String digit (commas_from n (i + 1) rest))
      else String digit (commas_from n (i + 1) rest)
  end.

Definition formatCurrency (amount : Z) : string :=
  let str := FormatInt amount in
  let n := Z.of_nat (String.length str) in
  if n <=? 3 then str else commas_from n 0 str.

(** A string without its commas. *)
Fixpoint strip_commas (s : string) : string :=
  match s with
  | EmptyString => EmptyString
  | String c rest =>
      if Ascii.eqb c ","%char then strip_commas rest
      else String c (strip_commas rest)
  end.

(** The three decimal digits of a number below 1000. *)
Definition digits3 (r : Z) : string :=
  String (pretty_N_char (Z.to_N (r / 100)))
    (String (pretty_N_char (Z.to_N ((r / 10) mod 10)))
       (String (pretty_N_char (Z.to_N (r mod 10))) "")).

(** ** Reading and decoding the logs, and [run] (main.go, lines 129-244)

    Errors are values: an error of the runtime (file system, JSON decoder),
    or one made by [fmt.Errorf], with or without a wrapped cause.  The file
    system and the decoders are the fields of [GoIO]; the file system is
    taken not to change while [run] executes.  The progress lines printed on
    standard output are left out. *)

Inductive Error (E : Type) : Type :=
  | Cause (e : E)
  | Wrap (msg : string) (e : Error E)
  | Errorf (msg : string).
Arguments Cause {E} e.
Arguments Wrap {E} msg e.
Arguments Errorf {E} msg.

Inductive Result (E A : Type) : Type :=
  | Ok (a : A)
  | Err (e : Error E).
Arguments Ok {E A} a.
Arguments Err {E A} e.

Module LogEntry.
Record t (Any : Type) := mk {
  Line : string;
  Timestamp : string;
  Fields : gmap string Any;
}.
Arguments mk {Any} Line Timestamp Fields.
Arguments Line {Any} t.
Arguments Timestamp {Any} t.
Arguments Fields {Any} t.
End LogEntry.

Class GoIO (Any E : Type) := {
  (** [filepath.Glob(pattern)] *)
  Glob : string → Result E (list string);
  (** [os.ReadFile(name)] *)
  ReadFile : string → Result E string;
  (** [json.Unmarshal(data, &logs)] into a nil [[]LogEntry] *)
  Unmarshal_logs : string → Result E (list (LogEntry.t Any));
  (** [json.Unmarshal([]byte(line), &data)] into a zero [GameData] *)
  Unmarshal_GameData : string → Result E GameData.t;
}.

Section Reading.
Context {Any E : Type} `{GoIO Any E}.

(** Lines 184-193. *)
Definition findJSONFiles : Result E (list string) :=
  match Glob "*.json" with
  | Err err => Err (Wrap "globbing files" err)
  | Ok files => Ok files
  end.

(** Lines 195-207. *)
Definition readLogsEntry (fileName : string) : Result E (list (LogEntry.t Any)) :=
  match ReadFile fileName with
  | Err err => Err (Wrap "reading file" err)
  | Ok data =>
      match Unmarshal_logs data with
      | Err err => Err (Wrap "unmarshaling" err)
      | Ok logs => Ok logs
      end
  end.

(** Lines 209-225: a file that cannot be read is reported and skipped. *)
Definition readMultipleLogFiles (fileNames : list string)
  : Result E (list (LogEntry.t Any)) :=
  Ok (fold_left
        (λ allLogs fileName,
           match readLogsEntry fileName with
           | Err _ => allLogs
           | Ok logs => allLogs ++ logs
           end)
        fileNames []).

(** Lines 230-241: the loop, with [gameData] as collected so far. *)
Fixpoint parse_from (gameData : list GameData.t) (logs : list (LogEntry.t Any))
  : Result E (list GameData.t) :=
  match logs with
  | [] => Ok gameData
  | logEntry :: rest =>
      if bool_decide (LogEntry.Line logEntry = "") then parse_from gameData rest
      else
        match Unmarshal_GameData (LogEntry.Line logEntry) with
        | Err err => Err (Wrap "unmarshaling" err)
        | Ok data => parse_from (gameData ++ [data]) rest
        end
  end.

(** Lines 227-244. *)
Definition parseGameData (logs : list (LogEntry.t Any)) : Result E (list GameData.t) :=
  parse_from [] logs.

(** Lines 157-163: the currency of the first entry that has one. *)
Fixpoint detect_currency (gameData : list GameData.t) : string :=
  match gameData with
  | [] => ""
  | data :: rest =>
      if bool_decide (GameData.Currency data ≠ "") then GameData.Currency data
      else detect_currency rest
  end.

Definition no_files_message : string := "no JSON files found in current directory".
Definition no_currency_message : string :=
  "❌ ERROR: No currency information found in logs. Please ensure your logs contain currency field".

(** Lines 129-176.  The result is the error [run] returns, or the report
    and the currency it hands to [printReport]. *)
Definition run `{GoTime, GoFmt, GoSort} : Result E (Report.t * string) :=
  match findJSONFiles with
  | Err err => Err (Wrap "finding JSON files" err)
  | Ok files =>
      if bool_decide (length files = 0%nat) then Err (Errorf no_files_message)
      else
        match readMultipleLogFiles files with
        | Err err => Err (Wrap "reading logs" err)
        | Ok logs =>
            match parseGameData logs with
            | Err err => Err err
            | Ok gameData =>
                let detectedCurrency := detect_currency gameData in
                if bool_decide (detectedCurrency = "")
                then Err (Errorf no_currency_message)
                else Ok (generateReport gameData detectedCurrency, detectedCurrency)
            end
        end
  end.

End Reading.

(** The log entries of the files that can be read, file by file. *)
Definition readable_logs {Any E} `{GoIO Any E} (fileNames : list string)
  : list (LogEntry.t Any) :=
  concat (omap (λ f, match readLogsEntry f with Ok logs => Some logs | Err _ => None end)
            fileNames).

(** ** A directory held in memory

    The runtime of [run] over tables: the files of the directory with their
    contents ([None] for a file that cannot be opened), what the decoder
    makes of the contents of a file, and what it makes of a line. *)

Fixpoint assoc {A} (k : string) (tbl : list (string * A)) : option A :=
  match tbl with
  | [] => None
  | (k', a) :: rest => if bool_decide (k' = k) then Some a else assoc k rest
  end.

Definition table_io (dir : list (string * option string))
    (files : list (string * list (LogEntry.t unit)))
    (lines : list (string * GameData.t)) : GoIO unit string :=
  {| Glob _ := Ok (fst <$> dir);
     ReadFile name :=
       match assoc name dir with
       | Some (Some data) => Ok data
       | _ => Err (Cause "open failed")
       end;
     Unmarshal_logs data :=
       match assoc data files with
       | Some logs => Ok logs
       | None => Err (Cause "invalid character")
       end;
     Unmarshal_GameData line :=
       match assoc line lines with
       | Some data => Ok data
       | None => Err (Cause "invalid character")
       end |}.

Definition log_line (line : string) : LogEntry.t unit := LogEntry.mk line "" ∅.

(** A session message without a currency. *)
Definition login_entry : GameData.t :=
  GameData.mk "Login" "g" "" "A" "" (Q2Qc (inject_Z 5)) "" "" 0 0 1000.

Definition sample_lines : list (string * GameData.t) :=
  [ ("login", login_entry);
    ("bet", send_bet "A" "g" "r1" 10 "b1" 100 900);
    ("win", send_win "A" "g" "r1" 20 "w1" 50 950) ].

Definition sample_files : list (string * list (LogEntry.t unit)) :=
  [ ("day1", [log_line "login"; log_line ""; log_line "bet"]);
    ("day2", [log_line "win"]);
    ("idle", [log_line "login"; log_line ""]) ].

(** Two days of logs and a file that cannot be opened between them. *)
Definition sample_dir : GoIO unit string :=
  table_io [("day1.json", Some "day1"); ("locked.json", None); ("day2.json", Some "day2")]
    sample_files sample_lines.

(** A directory whose only file holds a session message and an empty line. *)
Definition idle_dir : GoIO unit string :=
  table_io [("idle.json", Some "idle")] sample_files sample_lines.

(** One bet of 10 and one win of 1000: an RTP of 10000 on a single bet. *)
Definition lucky_stream : list GameData.t :=
  [ send_bet "L" "g" "r1" 10 "b1" 10 0;
    send_win "L" "g" "r1" 20 "w1" 1000 1000 ].

(** A bet at 23:00 and its win at 01:01 of the same day (UTC). *)
Definition two_hours_stream : list GameData.t :=
  [ send_bet "A" "g" "r1" 82800 "b1" 100 900;
    send_win "A" "g" "r1" 3660 "w1" 50 950 ].

(** ** Dates in file names (main.go, lines 536-546) *)

(** [filepath.Base]. *)
Class GoPath := {
  filepath_Base : string → string;
}.

(** [strings.Contains(s, ".")] *)
Fixpoint contains_dot (s : string) : bool :=
  match s with
  | EmptyString => false
  | String c rest => Ascii.eqb c "."%char || contains_dot rest
  end.

(** [strings.Split(s, ".")]: the pieces of [s] between its dots; for a
    string without a dot the string itself, also when it is empty. *)
Fixpoint split_dots (s : string) : list string :=
  match s with
  | EmptyString => [""]
  | String c rest =>
      if Ascii.eqb c "."%char then "" :: split_dots rest
      else
        match split_dots rest with
        | [] => [String c ""]
        | piece :: pieces => String c piece :: pieces
        end
  end.

Definition extractDateFromFilename `{GoPath} (filename : string) : string :=
  let base := filepath_Base filename in
  if contains_dot base then
    let parts := split_dots base in
    match parts with
    | p0 :: p1 :: p2 :: _ => p0 +:+ "." +:+ p1 +:+ "." +:+ p2
    | _ => base
    end
  else base.

(** The number of dots of a string. *)
Fixpoint count_dots (s : string) : nat :=
  match s with
  | EmptyString => 0
  | String c rest => (if Ascii.eqb c "."%char then 1 else 0) + count_dots rest
  end.

(** [strings.Join(parts, ".")] *)
Fixpoint join_dots (parts : list string) : string :=
  match parts with
  | [] => ""
  | [p] => p
  | p :: rest => p +:+ "." +:+ join_dots rest
  end.

(** A base name that is its own last element. *)
Definition plain_base : GoPath := {| filepath_Base := λ s, s |}.

(** ** The hourly section of [printReport] (main.go, lines 663-670)

    One record for each call of [fmt.Printf] in the loop, holding the
    arguments of the call, in the order of the calls. *)

Module HourLine.
Record t := mk {
  Hour : Z;
  Bets : Z;
  Wins : Z;
  Volume : string;
  Currency : string;
}.
End HourLine.

Definition hourly_activity (report : Report.t) (currency : string) : list HourLine.t :=
  flat_map
    (λ tStat,
       if 0 <? TimeStat.TotalBets tStat
       then [ HourLine.mk (TimeStat.Hour tStat) (TimeStat.TotalBets tStat)
                (TimeStat.TotalWins tStat)
                (formatCurrency (TimeStat.TotalBetAmount tStat)) currency ]
       else [])
    (Report.TimeStats report).

(** ** Further stream-level notions *)

(** The Bet and Win entries that are judged duplicates, in stream order. *)
Definition duplicate_bets (l : list GameData.t) : list GameData.t :=
  select (λ pre d, bool_decide (fate pre d = DuplicateBet)) [] l.
Definition duplicate_wins (l : list GameData.t) : list GameData.t :=
  select (λ pre d, bool_decide (fate pre d = DuplicateWin)) [] l.

(** The player and game identifiers that occur in a stream at all. *)
Definition all_players (l : list GameData.t) : gset string :=
  list_to_set (GameData.PlayerID <$> l).
Definition all_games (l : list GameData.t) : gset string :=
  list_to_set (GameData.GameID <$> l).

(** The entries that fall into hour bucket [h]. *)
Definition in_hour `{GoTime} (h : Z) (l : list GameData.t) : list GameData.t :=
  filter (λ d, hour_of d = h) l.

(** A counter that was incremented [n] times from 0. *)
Definition count64 (n : nat) : Z := wrap64 (Z.of_nat n).

(** What an entry with fate [f] does to the bucket of its own hour. *)
Definition touch (f : Fate) (d : GameData.t) (t : TimeStat.t) : TimeStat.t :=
  match f with
  | CountedBet => bet_time t d
  | CountedWin => win_time t d
  | _ => t
  end.

(** The record [t] is the bucket of hour [h] for the stream [l]: it carries
    [h], and its counters are those of the accepted entries of that hour. *)
Definition bucket_ok `{GoTime} (l : list GameData.t) (h : Z) (t : TimeStat.t) : Prop :=
  TimeStat.Hour t = h
  ∧ TimeStat.TotalBets t = count64 (length (in_hour h (accepted_bets l)))
  ∧ TimeStat.TotalBetAmount t = sum64 (GameData.Bet <$> in_hour h (accepted_bets l))
  ∧ TimeStat.TotalWins t = count64 (length (in_hour h (accepted_wins l)))
  ∧ TimeStat.TotalWinAmount t = sum64 (GameData.Win <$> in_hour h (accepted_wins l)).

(** * Properties *)

(** ** Wrap-around arithmetic *)

Lemma wrap64_small z : in_int64 z → wrap64 z = z.
Proof.
  unfold in_int64, wrap64. intros Hz.
  rewrite Z.mod_small by lia. lia.
Qed.

Lemma wrap64_range z : in_int64 (wrap64 z).
Proof.
  unfold in_int64, wrap64.
  pose proof (Z.mod_pos_bound (z + 2 ^ 63) (2 ^ 64) ltac:(lia)). lia.
Qed.

Lemma wrap64_add_l a b : wrap64 (wrap64 a + b) = wrap64 (a + b).
Proof.
  unfold wrap64. f_equal.
  replace ((a + 2 ^ 63) mod 2 ^ 64 - 2 ^ 63 + b + 2 ^ 63)
    with ((a + 2 ^ 63) mod 2 ^ 64 + b) by lia.
  rewrite Zplus_mod_idemp_l. f_equal. lia.
Qed.

Lemma fold_add64 l a : fold_left add64 l (wrap64 a) = wrap64 (a + Zsum l).
Proof.
  revert a. induction l as [|x l IH]; intros a; simpl.
  - f_equal. lia.
  - unfold add64 at 2. rewrite wrap64_add_l, IH. f_equal. lia.
Qed.

Lemma sum64_Zsum l : sum64 l = wrap64 (Zsum l).
Proof.
  unfold sum64. change 0 with (wrap64 0) at 1. by rewrite fold_add64.
Qed.

Lemma sum64_snoc l x : sum64 (l ++ [x]) = add64 (sum64 l) x.
Proof. unfold sum64. by rewrite fold_left_app. Qed.

(** ** The stream-level definitions, one entry at a time *)

Lemma select_snoc keep pre l d :
  select keep pre (l ++ [d])
  = select keep pre l ++ (if keep (pre ++ l) d then [d] else []).
Proof.
  revert pre. induction l as [|x l IH]; intros pre; simpl.
  - by rewrite !app_nil_r.
  - rewrite IH, <- !app_assoc. done.
Qed.

Lemma accepted_snoc l d :
  accepted (l ++ [d]) = accepted l ++ (if counted l d then [d] else []).
Proof. unfold accepted. by rewrite select_snoc. Qed.

Lemma select_sublist keep pre l : select keep pre l `sublist_of` l.
Proof.
  revert pre. induction l as [|x l IH]; intros pre; simpl; [done|].
  destruct (keep pre x); simpl.
  - by apply sublist_skip.
  - by apply sublist_cons.
Qed.

Lemma seen_bet_snoc l d id :
  seen_bet (l ++ [d]) id
  = seen_bet l id || (is_bet d && bool_decide (GameData.BetID d = id)).
Proof. unfold seen_bet. rewrite existsb_app. simpl. by rewrite orb_false_r. Qed.

Lemma seen_win_snoc l d id :
  seen_win (l ++ [d]) id
  = seen_win l id || (is_win d && bool_decide (GameData.WinID d = id)).
Proof. unfold seen_win. rewrite existsb_app. simpl. by rewrite orb_false_r. Qed.

Lemma seen_bet_spec l id :
  seen_bet l id = true
  ↔ ∃ d0, d0 ∈ l ∧ is_bet d0 = true ∧ GameData.BetID d0 = id.
Proof.
  unfold seen_bet. rewrite existsb_exists. split.
  - intros (d0 & Hin & Hd). apply andb_prop in Hd as [Hb He].
    apply bool_decide_eq_true in He.
    exists d0. by rewrite list_elem_of_In.
  - intros (d0 & Hin & Hb & He). exists d0. rewrite <- list_elem_of_In.
    split; [done|]. rewrite Hb. simpl. by apply bool_decide_eq_true.
Qed.

Lemma seen_win_spec l id :
  seen_win l id = true
  ↔ ∃ d0, d0 ∈ l ∧ is_win d0 = true ∧ GameData.WinID d0 = id.
Proof.
  unfold seen_win. rewrite existsb_exists. split.
  - intros (d0 & Hin & Hd). apply andb_prop in Hd as [Hb He].
    apply bool_decide_eq_true in He.
    exists d0. by rewrite list_elem_of_In.
  - intros (d0 & Hin & Hb & He). exists d0. rewrite <- list_elem_of_In.
    split; [done|]. rewrite Hb. simpl. by apply bool_decide_eq_true.
Qed.

(** A single entry is never both a bet and a win: the message is one string. *)
Lemma is_bet_not_win d : is_bet d = true → is_win d = false.
Proof.
  unfold is_bet, is_win. intros Hb. apply andb_prop in Hb as [Hm _].
  apply bool_decide_eq_true in Hm. rewrite Hm. done.
Qed.

Lemma fate_counted_bet pre d : fate pre d = CountedBet → is_bet d = true.
Proof. unfold fate. repeat case_match; done. Qed.

Lemma fate_counted_win pre d :
  fate pre d = CountedWin → is_win d = true ∧ is_bet d = false.
Proof. unfold fate. repeat case_match; done. Qed.

Lemma counted_cases pre d :
  counted pre d = true ↔ fate pre d = CountedBet ∨ fate pre d = CountedWin.
Proof.
  unfold counted. rewrite orb_true_iff, !bool_decide_eq_true. done.
Qed.

(** ** One iteration, in terms of the stream *)

Section StepFacts.
Context `{GoTime}.

Lemma aggregate_snoc l d : aggregate (l ++ [d]) = step (aggregate l) d.
Proof. unfold aggregate. by rewrite fold_left_app. Qed.

Lemma step_fate pre s d :
  ledger_ok pre s →
  step s d =
    match fate pre d with
    | CountedBet =>
        count_bet (record_id (Agg.uniqueBetIDs s) (GameData.BetID d)) (observe s d) d
    | DuplicateBet => skip_duplicate_bet (observe s d)
    | CountedWin =>
        count_win (record_id (Agg.uniqueWinIDs s) (GameData.WinID d)) (observe s d) d
    | DuplicateWin => skip_duplicate_win (observe s d)
    | Inert => observe s d
    end.
Proof.
  intros [Hb Hw]. unfold step, fate, record_id.
  change (is_bet d) with
    (bool_decide (GameData.Message d = "SendBet") && (0 <? GameData.Bet d)).
  change (is_win d) with
    (bool_decide (GameData.Message d = "SendWin") && (0 <? GameData.Win d)).
  cbn [observe Agg.uniqueBetIDs Agg.uniqueWinIDs].
  destruct (bool_decide (GameData.Message d = "SendBet") && (0 <? GameData.Bet d)).
  - rewrite Hb. destruct (bool_decide (GameData.BetID d ≠ "")); simpl; [|done].
    by destruct (seen_bet pre (GameData.BetID d)).
  - destruct (bool_decide (GameData.Message d = "SendWin") && (0 <? GameData.Win d));
      [|done].
    rewrite Hw. destruct (bool_decide (GameData.WinID d ≠ "")); simpl; [|done].
    by destruct (seen_win pre (GameData.WinID d)).
Qed.

Lemma get_bool_record_id ids id id' :
  get_bool (record_id ids id) id'
  = (bool_decide (id ≠ "") && bool_decide (id = id')) || get_bool ids id'.
Proof.
  unfold record_id, get_bool. case_bool_decide as Hne; simpl; [|done].
  rewrite lookup_insert. case_decide as He; simpl.
  - by rewrite bool_decide_eq_true_2.
  - by rewrite bool_decide_eq_false_2.
Qed.

Lemma ledger_ok_step pre s d : ledger_ok pre s → ledger_ok (pre ++ [d]) (step s d).
Proof.
  intros Hok. rewrite (step_fate pre) by done.
  destruct Hok as [Hb Hw]. split; intros id.
  - rewrite seen_bet_snoc.
    unfold fate.
    destruct (is_bet d) eqn:Hib.
    + destruct (bool_decide (GameData.BetID d ≠ "")) eqn:Hne; simpl.
      * apply bool_decide_eq_true in Hne.
        destruct (seen_bet pre (GameData.BetID d)) eqn:Hs; simpl.
        -- rewrite Hb. destruct (decide (GameData.BetID d = id)) as [<-|Hd].
           ++ rewrite Hs. by rewrite !bool_decide_eq_true_2.
           ++ rewrite (bool_decide_eq_false_2 _ Hd). by rewrite orb_false_r.
        -- rewrite get_bool_record_id, Hb.
           destruct (decide (GameData.BetID d = id)) as [<-|Hd].
           ++ rewrite Hs. by rewrite !bool_decide_eq_true_2.
           ++ rewrite (bool_decide_eq_false_2 _ Hd).
              by rewrite andb_false_r, orb_false_r.
      * apply bool_decide_eq_false in Hne.
        rewrite get_bool_record_id, Hb.
        destruct (decide (GameData.BetID d = id)) as [<-|Hd].
        -- rewrite (bool_decide_eq_false_2 _ Hne). done.
        -- rewrite (bool_decide_eq_false_2 _ Hd).
           by rewrite andb_false_r, orb_false_r.
    + simpl. rewrite orb_false_r.
      destruct (is_win d); [|apply Hb].
      destruct (bool_decide (GameData.WinID d ≠ "") && seen_win pre (GameData.WinID d));
        apply Hb.
  - rewrite seen_win_snoc.
    unfold fate.
    destruct (is_bet d) eqn:Hib.
    + rewrite (is_bet_not_win _ Hib). simpl. rewrite orb_false_r.
      destruct (bool_decide (GameData.BetID d ≠ "") && seen_bet pre (GameData.BetID d));
        apply Hw.
    + destruct (is_win d) eqn:Hiw; [|simpl; rewrite orb_false_r; apply Hw].
      destruct (bool_decide (GameData.WinID d ≠ "")) eqn:Hne; simpl.
      * apply bool_decide_eq_true in Hne.
        destruct (seen_win pre (GameData.WinID d)) eqn:Hs; simpl.
        -- rewrite Hw. destruct (decide (GameData.WinID d = id)) as [<-|Hd].
           ++ rewrite Hs. by rewrite !bool_decide_eq_true_2.
           ++ rewrite (bool_decide_eq_false_2 _ Hd). by rewrite orb_false_r.
        -- rewrite get_bool_record_id, Hw.
           destruct (decide (GameData.WinID d = id)) as [<-|Hd].
           ++ rewrite Hs. by rewrite !bool_decide_eq_true_2.
           ++ rewrite (bool_decide_eq_false_2 _ Hd).
              by rewrite andb_false_r, orb_false_r.
      * apply bool_decide_eq_false in Hne.
        rewrite get_bool_record_id, Hw.
        destruct (decide (GameData.WinID d = id)) as [<-|Hd].
        -- rewrite (bool_decide_eq_false_2 _ Hne). done.
        -- rewrite (bool_decide_eq_false_2 _ Hd).
           by rewrite andb_false_r, orb_false_r.
Qed.

Lemma ledger_ok_aggregate l : ledger_ok l (aggregate l).
Proof.
  induction l as [|d l IH] using rev_ind.
  - split; intros id; unfold get_bool; simpl; rewrite lookup_empty; simpl;
      by rewrite andb_false_r.
  - rewrite aggregate_snoc. by apply ledger_ok_step.
Qed.

(** The effect of the last entry of a stream, by its fate. *)
Lemma aggregate_snoc_fate l d :
  aggregate (l ++ [d]) =
    let s := aggregate l in
    match fate l d with
    | CountedBet =>
        count_bet (record_id (Agg.uniqueBetIDs s) (GameData.BetID d)) (observe s d) d
    | DuplicateBet => skip_duplicate_bet (observe s d)
    | CountedWin =>
        count_win (record_id (Agg.uniqueWinIDs s) (GameData.WinID d)) (observe s d) d
    | DuplicateWin => skip_duplicate_win (observe s d)
    | Inert => observe s d
    end.
Proof. rewrite aggregate_snoc. apply step_fate, ledger_ok_aggregate. Qed.

End StepFacts.

(** ** The maps and totals of the loop state, in closed form *)

Lemma counted_bet_true pre d : fate pre d = CountedBet → counted pre d = true.
Proof. intros Hf. apply counted_cases. by left. Qed.

Lemma counted_win_true pre d : fate pre d = CountedWin → counted pre d = true.
Proof. intros Hf. apply counted_cases. by right. Qed.

Lemma counted_false pre d :
  fate pre d ≠ CountedBet → fate pre d ≠ CountedWin → counted pre d = false.
Proof.
  intros Hb Hw. destruct (counted pre d) eqn:Hc; [|done].
  apply counted_cases in Hc as [?|?]; done.
Qed.

Lemma accepted_kind l d :
  d ∈ accepted l → is_bet d = true ∨ (is_bet d = false ∧ is_win d = true).
Proof.
  induction l as [|x l IH] using rev_ind; [by intros ?%elem_of_nil|].
  rewrite accepted_snoc, elem_of_app. intros [Hin|Hin]; [by apply IH|].
  destruct (counted l x) eqn:Hc; [|by apply elem_of_nil in Hin].
  apply list_elem_of_singleton in Hin as ->.
  apply counted_cases in Hc as [Hf|Hf].
  - left. by eapply fate_counted_bet.
  - right. by destruct (fate_counted_win _ _ Hf).
Qed.

Lemma accepted_bets_snoc l d :
  accepted_bets (l ++ [d])
  = accepted_bets l ++ (if bool_decide (fate l d = CountedBet) then [d] else []).
Proof.
  unfold accepted_bets. rewrite accepted_snoc, filter_app. f_equal.
  case_bool_decide as Hf.
  - rewrite (counted_bet_true _ _ Hf).
    rewrite filter_cons_True by (by eapply fate_counted_bet). done.
  - destruct (counted l d) eqn:Hc; [|done].
    apply counted_cases in Hc as [?|Hw]; [done|].
    destruct (fate_counted_win _ _ Hw) as [_ Hnb].
    rewrite filter_cons_False by (by rewrite Hnb). done.
Qed.

Lemma accepted_wins_snoc l d :
  accepted_wins (l ++ [d])
  = accepted_wins l ++ (if bool_decide (fate l d = CountedWin) then [d] else []).
Proof.
  unfold accepted_wins. rewrite accepted_snoc, filter_app. f_equal.
  case_bool_decide as Hf.
  - rewrite (counted_win_true _ _ Hf).
    rewrite filter_cons_True by (by destruct (fate_counted_win _ _ Hf)). done.
  - destruct (counted l d) eqn:Hc; [|done].
    apply counted_cases in Hc as [Hb|?]; [|done].
    rewrite filter_cons_False
      by (by rewrite (is_bet_not_win _ (fate_counted_bet _ _ Hb))).
    done.
Qed.

Section ClosedForms.
Context `{GoTime}.

Lemma player_record_default evs :
  default PlayerStat.zero (player_record evs)
  = fold_left player_entry evs PlayerStat.zero.
Proof. by destruct evs. Qed.

Lemma player_record_snoc evs d :
  player_record (evs ++ [d])
  = Some (player_entry (default PlayerStat.zero (player_record evs)) d).
Proof.
  rewrite player_record_default. unfold player_record.
  rewrite fold_left_app. simpl. by destruct evs.
Qed.

Lemma game_record_snoc evs d :
  game_record (evs ++ [d]) = game_entry (game_record evs) d.
Proof. unfold game_record. by rewrite fold_left_app. Qed.

(** The record of player [p] is built from the counted entries of [p], in
    stream order, and from nothing else. *)
Lemma players_closed l p :
  Agg.PlayerStats (aggregate l) !! p = player_record (of_player p (accepted l)).
Proof.
  induction l as [|d l IH] using rev_ind; [done|].
  rewrite aggregate_snoc_fate, accepted_snoc. unfold of_player in *.
  rewrite filter_app. cbn zeta.
  destruct (fate l d) eqn:Hf.
  - rewrite (counted_bet_true _ _ Hf). cbn [count_bet observe Agg.PlayerStats].
    destruct (decide (GameData.PlayerID d = p)) as [<-|Hp].
    + rewrite lookup_insert_eq, filter_cons_True, filter_nil by done.
      rewrite player_record_snoc, <- IH. unfold player_entry.
      by rewrite (fate_counted_bet _ _ Hf).
    + rewrite lookup_insert_ne, filter_cons_False, filter_nil, app_nil_r by done.
      apply IH.
  - rewrite counted_false by congruence.
    rewrite filter_nil, app_nil_r. apply IH.
  - rewrite (counted_win_true _ _ Hf). cbn [count_win observe Agg.PlayerStats].
    destruct (decide (GameData.PlayerID d = p)) as [<-|Hp].
    + rewrite lookup_insert_eq, filter_cons_True, filter_nil by done.
      rewrite player_record_snoc, <- IH. unfold player_entry.
      by destruct (fate_counted_win _ _ Hf) as [_ ->].
    + rewrite lookup_insert_ne, filter_cons_False, filter_nil, app_nil_r by done.
      apply IH.
  - rewrite counted_false by congruence.
    rewrite filter_nil, app_nil_r. apply IH.
  - rewrite counted_false by congruence.
    rewrite filter_nil, app_nil_r. apply IH.
Qed.

Lemma games_closed l g :
  Agg.GameStats (aggregate l) !! g = game_record (of_game g (accepted l)).
Proof.
  induction l as [|d l IH] using rev_ind; [done|].
  rewrite aggregate_snoc_fate, accepted_snoc. unfold of_game in *.
  rewrite filter_app. cbn zeta.
  destruct (fate l d) eqn:Hf.
  - rewrite (counted_bet_true _ _ Hf). cbn [count_bet observe Agg.GameStats].
    destruct (decide (GameData.GameID d = g)) as [<-|Hp].
    + rewrite lookup_insert_eq, filter_cons_True, filter_nil by done.
      rewrite game_record_snoc, <- IH. unfold game_entry.
      by rewrite (fate_counted_bet _ _ Hf).
    + rewrite lookup_insert_ne, filter_cons_False, filter_nil, app_nil_r by done.
      apply IH.
  - rewrite counted_false by congruence.
    rewrite filter_nil, app_nil_r. apply IH.
  - rewrite (counted_win_true _ _ Hf). cbn [count_win observe Agg.GameStats].
    destruct (decide (GameData.GameID d = g)) as [<-|Hp].
    + rewrite lookup_insert_eq, filter_cons_True, filter_nil by done.
      rewrite game_record_snoc, <- IH. unfold game_entry, get_game.
      by destruct (fate_counted_win _ _ Hf) as [_ ->].
    + rewrite lookup_insert_ne, filter_cons_False, filter_nil, app_nil_r by done.
      apply IH.
  - rewrite counted_false by congruence.
    rewrite filter_nil, app_nil_r. apply IH.
  - rewrite counted_false by congruence.
    rewrite filter_nil, app_nil_r. apply IH.
Qed.

(** The global amounts are the [int64] sums over the accepted entries. *)
Lemma totals_closed l :
  Agg.totalBetAmount (aggregate l) = sum64 (GameData.Bet <$> accepted_bets l)
  ∧ Agg.totalWinAmount (aggregate l) = sum64 (GameData.Win <$> accepted_wins l).
Proof.
  induction l as [|d l [IHb IHw]] using rev_ind; [done|].
  rewrite aggregate_snoc_fate, accepted_bets_snoc, accepted_wins_snoc.
  rewrite !fmap_app. cbn zeta.
  destruct (fate l d) eqn:Hf;
    cbn [count_bet count_win skip_duplicate_bet skip_duplicate_win observe
         Agg.totalBetAmount Agg.totalWinAmount];
    repeat (case_bool_decide; try done);
    cbn [fmap list_fmap]; rewrite ?sum64_snoc, ?app_nil_r, ?IHb, ?IHw; done.
Qed.

End ClosedForms.

(** ** Fields of the records before finalization *)

Section RecordFields.
Context `{GoTime}.

Lemma player_fold_derived evs ps0 :
  PlayerStat.RTP (fold_left player_entry evs ps0) = PlayerStat.RTP ps0
  ∧ PlayerStat.NetResult (fold_left player_entry evs ps0) = PlayerStat.NetResult ps0.
Proof.
  revert ps0. induction evs as [|d evs IH]; intros ps0; [done|].
  simpl. destruct (IH (player_entry ps0 d)) as [-> ->].
  unfold player_entry. by destruct (is_bet d).
Qed.

Lemma player_fold_id p evs ps0 :
  Forall (λ d, GameData.PlayerID d = p) evs →
  PlayerStat.PlayerID (fold_left player_entry evs ps0)
  = if existsb is_bet evs then p else PlayerStat.PlayerID ps0.
Proof.
  revert ps0. induction evs as [|d evs IH]; intros ps0 Hall; [done|].
  apply Forall_cons in Hall as [Hd Hall]. simpl. rewrite IH by done.
  unfold player_entry. destruct (is_bet d); simpl.
  - rewrite Hd. by destruct (existsb is_bet evs).
  - done.
Qed.

Lemma player_fold_tops evs ps0 :
  PlayerStat.TopBets (fold_left player_entry evs ps0)
  = PlayerStat.TopBets ps0 ++ (top_bet_of <$> filter (λ d, is_bet d = true) evs)
  ∧ PlayerStat.TopWins (fold_left player_entry evs ps0)
    = PlayerStat.TopWins ps0 ++ (top_win_of <$> filter (λ d, is_bet d ≠ true) evs).
Proof.
  revert ps0. induction evs as [|d evs IH]; intros ps0.
  - simpl. by rewrite !app_nil_r.
  - simpl. destruct (IH (player_entry ps0 d)) as [-> ->].
    unfold player_entry. destruct (is_bet d) eqn:Hb; simpl.
    + rewrite filter_cons_True, filter_cons_False by (by rewrite ?Hb; auto).
      rewrite fmap_cons, <- app_assoc. done.
    + rewrite filter_cons_False, filter_cons_True by (by rewrite ?Hb; auto).
      rewrite fmap_cons, <- app_assoc. done.
Qed.

Lemma player_entry_balance ps d :
  PlayerStat.LastBalance (player_entry ps d) = GameData.Balance d.
Proof. unfold player_entry. by destruct (is_bet d). Qed.

Lemma game_fold_rtp evs o :
  GameStat.RTP (default GameStat.zero (fold_left game_entry evs o))
  = GameStat.RTP (default GameStat.zero o).
Proof.
  revert o. induction evs as [|d evs IH]; intros o; [done|].
  simpl. rewrite IH. unfold game_entry. by destruct (is_bet d).
Qed.

Lemma game_fold_id g evs o :
  Forall (λ d, GameData.GameID d = g) evs →
  GameStat.GameID (default GameStat.zero (fold_left game_entry evs o))
  = if existsb is_bet evs then g else GameStat.GameID (default GameStat.zero o).
Proof.
  revert o. induction evs as [|d evs IH]; intros o Hall; [done|].
  apply Forall_cons in Hall as [Hd Hall]. simpl. rewrite IH by done.
  unfold game_entry. destruct (is_bet d); simpl.
  - rewrite Hd. by destruct (existsb is_bet evs).
  - done.
Qed.

(** No record of the loop state carries an RTP or a net result yet. *)
Lemma player_rtp_unset l p ps :
  Agg.PlayerStats (aggregate l) !! p = Some ps →
  PlayerStat.RTP ps = f64_zero ∧ PlayerStat.NetResult ps = 0.
Proof.
  rewrite players_closed. unfold player_record.
  destruct (of_player p (accepted l)) as [|d evs]; [done|].
  intros [= <-]. apply (player_fold_derived (d :: evs) PlayerStat.zero).
Qed.

Lemma game_rtp_unset l g gs :
  Agg.GameStats (aggregate l) !! g = Some gs → GameStat.RTP gs = f64_zero.
Proof.
  rewrite games_closed. unfold game_record. intros Hg.
  pose proof (game_fold_rtp (of_game g (accepted l)) None) as Hr.
  by rewrite Hg in Hr.
Qed.

Lemma of_player_Forall p l : Forall (λ d, GameData.PlayerID d = p) (of_player p l).
Proof. apply Forall_forall. intros d Hd. by apply list_elem_of_filter in Hd as [? _]. Qed.

Lemma of_game_Forall g l : Forall (λ d, GameData.GameID d = g) (of_game g l).
Proof. apply Forall_forall. intros d Hd. by apply list_elem_of_filter in Hd as [? _]. Qed.

Lemma player_id_closed l p ps :
  Agg.PlayerStats (aggregate l) !! p = Some ps →
  PlayerStat.PlayerID ps = if existsb is_bet (of_player p (accepted l)) then p else "".
Proof.
  rewrite players_closed. unfold player_record.
  destruct (of_player p (accepted l)) as [|d evs] eqn:He; [done|].
  intros [= <-].
  apply (player_fold_id p (d :: evs) PlayerStat.zero).
  rewrite <- He. apply of_player_Forall.
Qed.

Lemma game_id_closed l g gs :
  Agg.GameStats (aggregate l) !! g = Some gs →
  GameStat.GameID gs = if existsb is_bet (of_game g (accepted l)) then g else "".
Proof.
  rewrite games_closed. unfold game_record. intros Hg.
  pose proof (game_fold_id g (of_game g (accepted l)) None (of_game_Forall g _)) as Hr.
  by rewrite Hg in Hr.
Qed.

Lemma existsb_is_bet_true evs :
  existsb is_bet evs = true ↔ ∃ d, d ∈ evs ∧ is_bet d = true.
Proof.
  rewrite existsb_exists. split; intros (d & Hin & Hb); exists d;
    [by rewrite list_elem_of_In | by rewrite <- list_elem_of_In].
Qed.

End RecordFields.

(** ** The report, record by record *)

Section ReportFacts.
Context `{GoTime, GoFmt, GoSort}.

Lemma report_player l c p ps' :
  Report.PlayerStats (generateReport l c) !! p = Some ps'
  ↔ ∃ ps, Agg.PlayerStats (aggregate l) !! p = Some ps ∧ ps' = finalize_player ps.
Proof.
  cbn [generateReport Report.PlayerStats]. rewrite lookup_fmap.
  destruct (Agg.PlayerStats (aggregate l) !! p) as [ps|]; simpl; split.
  - intros [= <-]. by exists ps.
  - intros (ps0 & [= <-] & ->). done.
  - done.
  - by intros (ps0 & ? & _).
Qed.

Lemma report_game l c g gs' :
  Report.GameStats (generateReport l c) !! g = Some gs'
  ↔ ∃ gs, Agg.GameStats (aggregate l) !! g = Some gs ∧ gs' = finalize_game l g gs.
Proof.
  cbn [generateReport Report.GameStats]. rewrite map_lookup_imap.
  destruct (Agg.GameStats (aggregate l) !! g) as [gs|]; simpl; split.
  - intros [= <-]. by exists gs.
  - intros (gs0 & [= <-] & ->). done.
  - done.
  - by intros (gs0 & ? & _).
Qed.

Lemma top5_take {A} (s : list A) : top5 s = take 5 s.
Proof.
  unfold top5. destruct (5 <? Z.of_nat (length s)) eqn:Hlen; [done|].
  apply Z.ltb_ge in Hlen. rewrite take_ge; [done|lia].
Qed.

Lemma of_player_accepted_bets p l :
  filter (λ d, is_bet d = true) (of_player p (accepted l))
  = of_player p (accepted_bets l).
Proof.
  unfold of_player, accepted_bets.
  induction (accepted l) as [|d evs IH]; [done|].
  destruct (decide (GameData.PlayerID d = p)) as [Hp|Hp];
    destruct (is_bet d) eqn:Hb.
  - rewrite (filter_cons_True (λ d, GameData.PlayerID d = p)) by done.
    rewrite !(filter_cons_True (λ d, is_bet d = true)) by done.
    rewrite (filter_cons_True (λ d, GameData.PlayerID d = p)) by done.
    by rewrite IH.
  - rewrite (filter_cons_True (λ d, GameData.PlayerID d = p)) by done.
    rewrite !(filter_cons_False (λ d, is_bet d = true)) by (by rewrite Hb).
    done.
  - rewrite (filter_cons_False (λ d, GameData.PlayerID d = p)) by done.
    rewrite (filter_cons_True (λ d, is_bet d = true)) by done.
    rewrite (filter_cons_False (λ d, GameData.PlayerID d = p)) by done.
    done.
  - rewrite (filter_cons_False (λ d, GameData.PlayerID d = p)) by done.
    rewrite (filter_cons_False (λ d, is_bet d = true)) by (by rewrite Hb).
    done.
Qed.

Lemma of_player_accepted_wins p l :
  filter (λ d, is_bet d ≠ true) (of_player p (accepted l))
  = of_player p (accepted_wins l).
Proof.
  unfold of_player, accepted_wins.
  assert (Forall (λ d, is_bet d = true ∨ (is_bet d = false ∧ is_win d = true))
            (accepted l)) as Hk
    by (apply Forall_forall; intros d; apply accepted_kind).
  induction Hk as [|d evs Hd _ IH]; [done|].
  assert (is_bet d ≠ true ↔ is_win d = true) as Hiff.
  { destruct Hd as [Hb|[Hb Hw]].
    - rewrite (is_bet_not_win _ Hb), Hb. split; [done|discriminate].
    - rewrite Hb, Hw. done. }
  destruct (decide (GameData.PlayerID d = p)) as [Hp|Hp];
    destruct (decide (is_win d = true)) as [Hw|Hw].
  - rewrite (filter_cons_True (λ d, GameData.PlayerID d = p)) by done.
    rewrite (filter_cons_True (λ d, is_bet d ≠ true)) by (by apply Hiff).
    rewrite (filter_cons_True (λ d, is_win d = true)) by done.
    rewrite (filter_cons_True (λ d, GameData.PlayerID d = p)) by done.
    by rewrite IH.
  - rewrite (filter_cons_True (λ d, GameData.PlayerID d = p)) by done.
    rewrite (filter_cons_False (λ d, is_bet d ≠ true)) by (by rewrite Hiff).
    rewrite (filter_cons_False (λ d, is_win d = true)) by done.
    done.
  - rewrite (filter_cons_False (λ d, GameData.PlayerID d = p)) by done.
    rewrite (filter_cons_True (λ d, is_win d = true)) by done.
    rewrite (filter_cons_False (λ d, GameData.PlayerID d = p)) by done.
    done.
  - rewrite (filter_cons_False (λ d, GameData.PlayerID d = p)) by done.
    rewrite (filter_cons_False (λ d, is_win d = true)) by done.
    done.
Qed.

End ReportFacts.

Lemma id_rule_closed key evs :
  id_rule key (if existsb is_bet evs then key else "") evs.
Proof.
  split.
  - intros Hex. apply existsb_is_bet_true in Hex. by rewrite Hex.
  - intros Hall. destruct (existsb is_bet evs) eqn:Hex; [|done].
    apply existsb_is_bet_true in Hex as (d & Hin & Hb).
    specialize (Hall d Hin). by rewrite (is_bet_not_win _ Hb) in Hall.
Qed.

Lemma bet_less_swo : StrictWeakOrder bet_less.
Proof. unfold bet_less. split; intros; rewrite ?Z.ltb_lt, ?Z.ltb_ge in *; lia. Qed.

Lemma win_less_swo : StrictWeakOrder win_less.
Proof. unfold win_less. split; intros; rewrite ?Z.ltb_lt, ?Z.ltb_ge in *; lia. Qed.

Lemma StronglySorted_take {A} (R : relation A) n l :
  StronglySorted R l → StronglySorted R (take n l).
Proof.
  intros Hs. rewrite <- (take_drop n l) in Hs. by apply StronglySorted_app_1_l in Hs.
Qed.

Lemma StronglySorted_impl {A} (R S : relation A) l :
  (∀ x y, R x y → S x y) → StronglySorted R l → StronglySorted S l.
Proof.
  intros HRS. induction 1 as [|x l Hl IH Hx]; constructor; [done|].
  eapply Forall_impl; [exact Hx|]. auto.
Qed.

Lemma game_record_is_Some evs : evs ≠ [] → is_Some (game_record evs).
Proof.
  destruct evs as [|d evs _] using rev_ind; [done|]. intros _.
  rewrite game_record_snoc. unfold game_entry. eauto.
Qed.

Section PlayerClaims.
Context `{GoTime, GoFmt, GoSort}.

(** C4.  In the report, the RTP of every player record, of every game
    record and of the summary is the specification's [win / bet * 100] in
    binary64 ([percent_of], written with the Standard Library's operations
    and not with the code's) when the record's total bet amount is positive,
    and zero when it is not (in particular when it is 0); computing it never
    fails. *)
Theorem rtp_convention (l : list GameData.t) (c : string) :
  (∀ p ps, Report.PlayerStats (generateReport l c) !! p = Some ps →
     rtp_rule (PlayerStat.TotalWinAmount ps) (PlayerStat.TotalBetAmount ps)
       (PlayerStat.RTP ps))
  ∧ (∀ g gs, Report.GameStats (generateReport l c) !! g = Some gs →
       rtp_rule (GameStat.TotalWinAmount gs) (GameStat.TotalBetAmount gs)
         (GameStat.RTP gs))
  ∧ rtp_rule
      (Summary.TotalWinAmount (Report.Summary (generateReport l c)))
      (Summary.TotalBetAmount (Report.Summary (generateReport l c)))
      (Summary.RTP (Report.Summary (generateReport l c))).
Proof.
  split; [|split].
  - intros p ps' (ps & Hps & ->)%report_player.
    destruct (player_rtp_unset _ _ _ Hps) as [Hrtp _].
    unfold rtp_rule. cbn [finalize_player PlayerStat.RTP PlayerStat.TotalBetAmount
      PlayerStat.TotalWinAmount].
    split; intros Hbet.
    + apply Z.ltb_lt in Hbet. by rewrite Hbet.
    + apply Z.ltb_ge in Hbet. by rewrite Hbet.
  - intros g gs' (gs & Hgs & ->)%report_game.
    pose proof (game_rtp_unset _ _ _ Hgs) as Hrtp.
    unfold rtp_rule. cbn [finalize_game GameStat.RTP GameStat.TotalBetAmount
      GameStat.TotalWinAmount].
    split; intros Hbet.
    + apply Z.ltb_lt in Hbet. by rewrite Hbet.
    + apply Z.ltb_ge in Hbet. by rewrite Hbet.
  - unfold rtp_rule. cbn [generateReport Report.Summary summarize Summary.RTP
      Summary.TotalBetAmount Summary.TotalWinAmount].
    split; intros Hbet.
    + apply Z.ltb_lt in Hbet. by rewrite Hbet.
    + apply Z.ltb_ge in Hbet. by rewrite Hbet.
Qed.

(** C10.  In every state the loop reaches, and in the report made from
    it, the record stored under player key [p] carries [p] in its PlayerID
    field once one of the player's counted entries is a bet, and the empty
    string when all of them are wins; likewise for the GameID field of the
    record stored under a game key.  A player or game with a counted entry
    does have a record under its key, so a win-only player or game is keyed
    by its identifier while the record in the report carries an empty
    identifier field. *)
Theorem identifier_fields (l : list GameData.t) (c : string) :
  (∀ p ps, Agg.PlayerStats (aggregate l) !! p = Some ps →
     id_rule p (PlayerStat.PlayerID ps) (of_player p (accepted l)))
  ∧ (∀ g gs, Agg.GameStats (aggregate l) !! g = Some gs →
       id_rule g (GameStat.GameID gs) (of_game g (accepted l)))
  ∧ (∀ p ps, Report.PlayerStats (generateReport l c) !! p = Some ps →
       id_rule p (PlayerStat.PlayerID ps) (of_player p (accepted l)))
  ∧ (∀ g gs, Report.GameStats (generateReport l c) !! g = Some gs →
       id_rule g (GameStat.GameID gs) (of_game g (accepted l)))
  ∧ (∀ p, of_player p (accepted l) ≠ [] →
       is_Some (Agg.PlayerStats (aggregate l) !! p)
       ∧ is_Some (Report.PlayerStats (generateReport l c) !! p))
  ∧ (∀ g, of_game g (accepted l) ≠ [] →
       is_Some (Agg.GameStats (aggregate l) !! g)
       ∧ is_Some (Report.GameStats (generateReport l c) !! g))
  ∧ (∀ p, of_player p (accepted l) ≠ [] →
       (∀ d, d ∈ of_player p (accepted l) → is_win d = true) →
       ∃ ps, Report.PlayerStats (generateReport l c) !! p = Some ps
             ∧ PlayerStat.PlayerID ps = "")
  ∧ (∀ g, of_game g (accepted l) ≠ [] →
       (∀ d, d ∈ of_game g (accepted l) → is_win d = true) →
       ∃ gs, Report.GameStats (generateReport l c) !! g = Some gs
             ∧ GameStat.GameID gs = "").
Proof.
  assert (∀ p, of_player p (accepted l) ≠ [] →
            ∃ ps, Agg.PlayerStats (aggregate l) !! p = Some ps) as Hplayer.
  { intros p Hne. rewrite players_closed. unfold player_record.
    destruct (of_player p (accepted l)); [done|eauto]. }
  assert (∀ g, of_game g (accepted l) ≠ [] →
            ∃ gs, Agg.GameStats (aggregate l) !! g = Some gs) as Hgame.
  { intros g Hne. rewrite games_closed. by apply game_record_is_Some. }
  split; [|split; [|split; [|split; [|split; [|split; [|split]]]]]].
  - intros p ps Hps. rewrite (player_id_closed _ _ _ Hps). apply id_rule_closed.
  - intros g gs Hgs. rewrite (game_id_closed _ _ _ Hgs). apply id_rule_closed.
  - intros p ps' (ps & Hps & ->)%report_player. cbn [finalize_player PlayerStat.PlayerID].
    rewrite (player_id_closed _ _ _ Hps). apply id_rule_closed.
  - intros g gs' (gs & Hgs & ->)%report_game. cbn [finalize_game GameStat.GameID].
    rewrite (game_id_closed _ _ _ Hgs). apply id_rule_closed.
  - intros p Hne. destruct (Hplayer p Hne) as [ps Hps]. split; [by eauto|].
    exists (finalize_player ps). apply report_player. eauto.
  - intros g Hne. destruct (Hgame g Hne) as [gs Hgs]. split; [by eauto|].
    exists (finalize_game l g gs). apply report_game. eauto.
  - intros p Hne Hwins. destruct (Hplayer p Hne) as [ps Hps].
    exists (finalize_player ps). split; [apply report_player; by eauto|].
    cbn [finalize_player PlayerStat.PlayerID]. rewrite (player_id_closed _ _ _ Hps).
    by apply (id_rule_closed p).
  - intros g Hne Hwins. destruct (Hgame g Hne) as [gs Hgs].
    exists (finalize_game l g gs). split; [apply report_game; by eauto|].
    cbn [finalize_game GameStat.GameID]. rewrite (game_id_closed _ _ _ Hgs).
    by apply (id_rule_closed g).
Qed.

End PlayerClaims.

Lemma detect_sound `{GoFmt} p ps e :
  e ∈ detect p ps →
  SuspiciousEvent.PlayerID e = p ∧ SuspiciousEvent.Type_ e = "High RTP".
Proof.
  unfold detect. case_match; [|by intros ?%elem_of_nil].
  by intros ->%list_elem_of_singleton.
Qed.

Lemma filter_detect `{GoFmt} k p ps :
  filter (λ e, SuspiciousEvent.PlayerID e = p) (detect k ps)
  = if decide (k = p) then detect k ps else [].
Proof.
  unfold detect. case_match; [|by case_decide].
  case_decide as Hk.
  - by rewrite filter_cons_True.
  - by rewrite filter_cons_False.
Qed.

Lemma events_of_list `{GoFmt} (L : list (string * PlayerStat.t)) p :
  NoDup L.*1 →
  filter (λ e, SuspiciousEvent.PlayerID e = p) (flat_map (λ kv, detect kv.1 kv.2) L)
  = from_option (detect p) [] ((list_to_map L : gmap string PlayerStat.t) !! p).
Proof.
  induction L as [|[k v] L IH]; intros Hnd; [done|].
  apply NoDup_cons in Hnd as [Hk Hnd]. cbn [flat_map list_to_map foldr fst snd].
  rewrite filter_app, filter_detect, IH by done. cbn [curry].
  rewrite lookup_insert. case_decide as Hkp; simpl.
  - subst k. rewrite (not_elem_of_list_to_map_1 _ _ Hk). simpl. by rewrite app_nil_r.
  - done.
Qed.

Lemma events_of_player `{GoFmt} (m : gmap string PlayerStat.t) p :
  filter (λ e, SuspiciousEvent.PlayerID e = p)
    (flat_map (λ kv, detect kv.1 kv.2) (map_to_list m))
  = from_option (detect p) [] (m !! p).
Proof.
  rewrite events_of_list by apply NoDup_fst_map_to_list.
  by rewrite list_to_map_to_list.
Qed.

Section RankingClaims.
Context `{GoTime, GoFmt, GoSort}.

(** C9, as the code has it.  The LastBalance of every player record of
    the report is the balance of the last counted entry of that player in
    stream order: the last of the player's bets and wins that are neither
    inert nor duplicates.  Entries of the player that are not counted leave
    it alone, and timestamps play no part. *)
Theorem last_balance_is_last_counted (l : list GameData.t) (c p : string)
    (ps : PlayerStat.t) :
  Report.PlayerStats (generateReport l c) !! p = Some ps →
  ∃ d, last (of_player p (accepted l)) = Some d
       ∧ PlayerStat.LastBalance ps = GameData.Balance d.
Proof.
  intros (ps0 & Hps & ->)%report_player. rewrite players_closed in Hps.
  destruct (of_player p (accepted l)) as [|d evs _] using rev_ind; [done|].
  rewrite player_record_snoc in Hps. injection Hps as <-.
  exists d. split; [apply last_snoc|].
  cbn [finalize_player PlayerStat.LastBalance]. apply player_entry_balance.
Qed.

(** C6.  A player record of the report gives rise to a "High RTP" event
    exactly when its TotalBets exceed 100 and its RTP exceeds 150, both
    strictly; a flagged player gets exactly one event, under the key of the
    record, and any other player gets none.  A player with exactly 100 bets
    and an RTP of exactly 150 is not flagged; a player with 150 bets that
    total 1000 and wins that total 2000 gets exactly one event. *)
Theorem high_rtp_flag :
  (∀ (l : list GameData.t) (c p : string) (ps : PlayerStat.t),
     Report.PlayerStats (generateReport l c) !! p = Some ps →
     let events :=
       filter (λ e, SuspiciousEvent.PlayerID e = p)
         (Report.SuspiciousEvents (generateReport l c)) in
     let flagged :=
       100 < PlayerStat.TotalBets ps
       ∧ f64_gt (PlayerStat.RTP ps) (float64_of_int 150) = true in
     (flagged → ∃ e, events = [e] ∧ SuspiciousEvent.Type_ e = "High RTP")
     ∧ (¬ flagged → events = [])
     ∧ ((∃ e, e ∈ Report.SuspiciousEvents (generateReport l c)
              ∧ SuspiciousEvent.PlayerID e = p) ↔ flagged))
  ∧ (let r := generateReport boundary_stream "USD" in
     PlayerStat.TotalBets <$> Report.PlayerStats r !! "B" = Some 100
     ∧ PlayerStat.RTP <$> Report.PlayerStats r !! "B" = Some (float64_of_int 150)
     ∧ Report.SuspiciousEvents r = [])
  ∧ (let r := generateReport high_rtp_stream "USD" in
     PlayerStat.TotalBets <$> Report.PlayerStats r !! "P" = Some 150
     ∧ PlayerStat.TotalBetAmount <$> Report.PlayerStats r !! "P" = Some 1000
     ∧ PlayerStat.TotalWinAmount <$> Report.PlayerStats r !! "P" = Some 2000
     ∧ PlayerStat.RTP <$> Report.PlayerStats r !! "P" = Some (float64_of_int 200)
     ∧ Report.SuspiciousEvents r
       = [ {| SuspiciousEvent.Type_ := "High RTP";
              SuspiciousEvent.Description := "Player has suspiciously high RTP";
              SuspiciousEvent.PlayerID := "P";
              SuspiciousEvent.Timestamp := "";
              SuspiciousEvent.Details := sprintf_details (float64_of_int 200) 150 |} ]).
Proof.
  split; [|split; [vm_compute; by repeat split | vm_compute; by repeat split]].
  intros l c p ps Hps events flagged.
  assert (events = detect p ps) as Hev.
  { unfold events. cbn [generateReport Report.SuspiciousEvents].
    rewrite events_of_player.
    cbn [generateReport Report.PlayerStats] in Hps. by rewrite Hps. }
  assert (flagged → ∃ e, events = [e] ∧ SuspiciousEvent.Type_ e = "High RTP") as Hyes.
  { intros [Hbets Hrtp]. rewrite Hev. unfold detect.
    apply Z.ltb_lt in Hbets. rewrite Hbets, Hrtp. simpl. eauto. }
  assert (¬ flagged → events = []) as Hno.
  { intros Hnot. rewrite Hev. unfold detect.
    destruct (100 <? PlayerStat.TotalBets ps) eqn:Hbets; [|done].
    destruct (f64_gt (PlayerStat.RTP ps) (float64_of_int 150)) eqn:Hrtp; [|done].
    destruct Hnot. split; [by apply Z.ltb_lt|done]. }
  split; [done|]. split; [done|]. split.
  - intros (e & Hin & Hp).
    assert (e ∈ events) as He by (by apply list_elem_of_filter).
    destruct (decide (100 < PlayerStat.TotalBets ps)) as [Hbets|Hbets];
      destruct (f64_gt (PlayerStat.RTP ps) (float64_of_int 150)) eqn:Hrtp;
      try (by split);
      rewrite Hno in He by (by intros [? ?]); by apply elem_of_nil in He.
  - intros (e & He & _)%Hyes. exists e.
    assert (e ∈ events) as Hin by (rewrite He; apply list_elem_of_here).
    by apply list_elem_of_filter in Hin as [? ?].
Qed.

End RankingClaims.

Section SortedClaims.
Context `{GoTime, GoFmt, GoSort}.
Context {laws : GoSortLaws}.

(** C5, as the code has it.  For every player record of the report,
    TopBets is the first five entries of the player's accepted bets (taken
    in stream order) after [sort.Slice] has sorted them by descending
    amount; it has at most five entries and is in descending order of
    amount.  The same holds for TopWins.  The sorted list is a rearrangement
    of the candidates; the order of entries of equal amount is whatever
    [sort.Slice] leaves. *)
Theorem top_lists_sorted_prefix (l : list GameData.t) (c p : string)
    (ps : PlayerStat.t) :
  Report.PlayerStats (generateReport l c) !! p = Some ps →
  let bets := sort_Slice bet_less (top_bet_of <$> of_player p (accepted_bets l)) in
  let wins := sort_Slice win_less (top_win_of <$> of_player p (accepted_wins l)) in
  (PlayerStat.TopBets ps = take 5 bets
   ∧ bets ≡ₚ top_bet_of <$> of_player p (accepted_bets l)
   ∧ bets_descending bets
   ∧ (length (PlayerStat.TopBets ps) ≤ 5)%nat
   ∧ bets_descending (PlayerStat.TopBets ps))
  ∧ (PlayerStat.TopWins ps = take 5 wins
     ∧ wins ≡ₚ top_win_of <$> of_player p (accepted_wins l)
     ∧ wins_descending wins
     ∧ (length (PlayerStat.TopWins ps) ≤ 5)%nat
     ∧ wins_descending (PlayerStat.TopWins ps)).
Proof.
  intros (ps0 & Hps & ->)%report_player bets wins.
  rewrite players_closed in Hps. unfold player_record in Hps.
  assert (ps0 = fold_left player_entry (of_player p (accepted l)) PlayerStat.zero)
    as -> by (destruct (of_player p (accepted l)); [done|by injection Hps]).
  destruct (player_fold_tops (of_player p (accepted l)) PlayerStat.zero) as [Hb Hw].
  cbn [PlayerStat.zero PlayerStat.TopBets PlayerStat.TopWins app] in Hb, Hw.
  rewrite of_player_accepted_bets in Hb. rewrite of_player_accepted_wins in Hw.
  cbn [finalize_player PlayerStat.TopBets PlayerStat.TopWins].
  rewrite Hb, Hw, !top5_take. fold bets wins.
  assert (bets_descending bets) as Hbd.
  { eapply StronglySorted_impl; [|apply (sort_Slice_sorted bet_less), bet_less_swo].
    unfold bet_less. intros x y Hxy. apply Z.ltb_ge in Hxy. done. }
  assert (wins_descending wins) as Hwd.
  { eapply StronglySorted_impl; [|apply (sort_Slice_sorted win_less), win_less_swo].
    unfold win_less. intros x y Hxy. apply Z.ltb_ge in Hxy. done. }
  split.
  - split; [done|]. split; [apply sort_Slice_perm|]. split; [done|].
    split; [rewrite length_take; lia | by apply StronglySorted_take].
  - split; [done|]. split; [apply sort_Slice_perm|]. split; [done|].
    split; [rewrite length_take; lia | by apply StronglySorted_take].
Qed.

End SortedClaims.

(** ** The per-game player count *)

Lemma playersInGame_dom l g (m0 : gmap string bool) :
  dom (fold_left
         (λ m data,
            if bool_decide (GameData.GameID data = g)
            then <[GameData.PlayerID data := true]> m else m) l m0)
  = dom m0 ∪ players_on_game l g.
Proof.
  revert m0. unfold players_on_game, of_game.
  induction l as [|d l IH]; intros m0.
  - simpl. by rewrite (right_id_L ∅ (∪)).
  - cbn [fold_left]. rewrite IH. case_bool_decide as Hg.
    + rewrite filter_cons_True by done. rewrite fmap_cons, list_to_set_cons.
      rewrite dom_insert_L.
      rewrite (comm_L (∪) {[GameData.PlayerID d]} (dom m0)).
      by rewrite (assoc_L (∪)).
    + rewrite filter_cons_False by done. done.
Qed.

Section GameClaims.
Context `{GoTime, GoFmt, GoSort}.

(** C7, as the code has it.  The Players field of every game record of
    the report is the number of distinct player identifiers among all the
    entries of the stream that carry the game's identifier, whatever their
    message, amount or ledger verdict; it is computed by a second pass over
    the whole stream, and a player is counted once however many entries it
    has. *)
Theorem game_players_all_entries (l : list GameData.t) (c g : string)
    (gs : GameStat.t) :
  Report.GameStats (generateReport l c) !! g = Some gs →
  GameStat.Players gs = Z.of_nat (size (players_on_game l g)).
Proof.
  intros (gs0 & _ & ->)%report_game.
  cbn [finalize_game GameStat.Players]. f_equal.
  rewrite <- size_dom. unfold playersInGame.
  rewrite playersInGame_dom, dom_empty_L. by rewrite (left_id_L ∅ (∪)).
Qed.

End GameClaims.

(** ** The time span *)

Lemma min_update (m t : Qc) :
  (if bool_decide (m < 0)%Qc || bool_decide (t < m)%Qc then t else m)
  = if bool_decide (0 ≤ m)%Qc then Qc_min m t else t.
Proof.
  unfold Qc_min.
  destruct (Qclt_le_dec m 0) as [Hneg|Hpos].
  - rewrite (bool_decide_eq_true_2 _ Hneg). simpl.
    by rewrite (bool_decide_eq_false_2 _ (Qclt_not_le _ _ Hneg)).
  - rewrite (bool_decide_eq_false_2 _ (Qcle_not_lt _ _ Hpos)).
    rewrite (bool_decide_eq_true_2 _ Hpos). simpl.
    destruct (Qclt_le_dec t m) as [Htm|Hmt].
    + rewrite (bool_decide_eq_true_2 _ Htm).
      by rewrite (bool_decide_eq_false_2 _ (Qcle_not_lt _ _ (Qclt_le_weak _ _ Htm))).
    + rewrite (bool_decide_eq_false_2 _ (Qcle_not_lt _ _ Hmt)).
      destruct (Qclt_le_dec m t) as [Hlt|Hle].
      * by rewrite (bool_decide_eq_true_2 _ Hlt).
      * rewrite (bool_decide_eq_false_2 _ (Qcle_not_lt _ _ Hle)).
        by apply Qcle_antisym.
Qed.

Lemma Qc_min_nonneg (m t : Qc) : (0 ≤ m)%Qc → (0 ≤ t)%Qc → (0 ≤ Qc_min m t)%Qc.
Proof. intros Hm Ht. unfold Qc_min. by case_bool_decide. Qed.

Lemma nonempty_span (a b : string) : a +:+ " - " +:+ b ≠ "".
Proof. by destruct a. Qed.

Section TimeSpan.
Context `{GoTime, GoFmt, GoSort}.

Lemma step_times s d :
  Agg.minTime (step s d) = Agg.minTime (observe s d)
  ∧ Agg.maxTime (step s d) = Agg.maxTime (observe s d).
Proof. unfold step. repeat case_match; done. Qed.

Lemma times_fold l s :
  Forall (λ d, (0 ≤ GameData.Timestamp d)%Qc) l →
  (0 ≤ Agg.minTime s)%Qc →
  Agg.minTime (fold_left step l s)
  = fold_left (λ m e, Qc_min m (GameData.Timestamp e)) l (Agg.minTime s)
  ∧ Agg.maxTime (fold_left step l s)
    = fold_left (λ m e, Qc_max m (GameData.Timestamp e)) l (Agg.maxTime s)
  ∧ (0 ≤ Agg.minTime (fold_left step l s))%Qc.
Proof.
  revert s. induction l as [|d l IH]; intros s Hall Hs; [done|].
  apply Forall_cons in Hall as [Hd Hall]. cbn [fold_left].
  destruct (step_times s d) as [Hmin Hmax].
  assert (Agg.minTime (step s d) = Qc_min (Agg.minTime s) (GameData.Timestamp d))
    as Hmin'.
  { rewrite Hmin. cbn [observe Agg.minTime]. rewrite min_update.
    by rewrite (bool_decide_eq_true_2 _ Hs). }
  destruct (IH (step s d) Hall) as (-> & -> & Hpos).
  { rewrite Hmin'. by apply Qc_min_nonneg. }
  rewrite Hmin' in Hpos |- *. rewrite Hmax. done.
Qed.

Lemma times_closed d l :
  Forall (λ d, (0 ≤ GameData.Timestamp d)%Qc) (d :: l) →
  Some (Agg.minTime (aggregate (d :: l))) = min_ts (d :: l)
  ∧ Some (Agg.maxTime (aggregate (d :: l))) = max_ts (d :: l)
  ∧ (0 ≤ Agg.minTime (aggregate (d :: l)))%Qc.
Proof.
  intros Hall. pose proof Hall as [Hd Hl]%Forall_cons.
  unfold aggregate. cbn [fold_left min_ts max_ts].
  destruct (step_times Agg.init d) as [Hmin Hmax].
  assert (Agg.minTime (step Agg.init d) = GameData.Timestamp d) as Hmin'.
  { rewrite Hmin. done. }
  assert (Agg.maxTime (step Agg.init d) = GameData.Timestamp d) as Hmax'.
  { rewrite Hmax. cbn [observe Agg.maxTime Agg.init].
    case_bool_decide as Hlt; [done|].
    apply Qcle_antisym; [done|]. by apply Qcnot_lt_le. }
  destruct (times_fold l (step Agg.init d) Hl) as (-> & -> & Hpos).
  { by rewrite Hmin'. }
  rewrite Hmin' in Hpos |- *. by rewrite Hmax'.
Qed.

(** C8, as the code has it.  For a stream whose timestamps are all
    non-negative (Unix seconds at or after the epoch, which is what the
    sentinel -1 for "no timestamp yet" presumes), the TimeSpan of the
    summary is non-empty exactly when the stream has an entry and its
    largest timestamp is strictly greater than its smallest; with no entry,
    one entry or equal timestamps it is the empty string. *)
Theorem time_span_nonempty (l : list GameData.t) (c : string) :
  Forall (λ d, (0 ≤ GameData.Timestamp d)%Qc) l →
  Summary.TimeSpan (Report.Summary (generateReport l c)) ≠ ""
  ↔ ∃ lo hi, min_ts l = Some lo ∧ max_ts l = Some hi ∧ (lo < hi)%Qc.
Proof.
  intros Hall.
  cbn [generateReport Report.Summary summarize Summary.TimeSpan]. unfold time_span.
  destruct l as [|d l].
  - split; [done|]. by intros (lo & hi & ? & _).
  - destruct (times_closed d l Hall) as (Hmin & Hmax & Hpos).
    rewrite <- Hmin, <- Hmax. rewrite (bool_decide_eq_true_2 _ Hpos). simpl.
    case_bool_decide as Hlt; split.
    + intros _. eauto.
    + intros _. apply nonempty_span.
    + done.
    + intros (lo & hi & [= <-] & [= <-] & Hlh). done.
Qed.

End TimeSpan.

(** ** What one entry does to the statistics *)

Lemma get_player_insert m k v : get_player (<[k := v]> m) k = v.
Proof. unfold get_player. by rewrite lookup_insert_eq. Qed.

Lemma get_game_insert m k v : get_game (<[k := v]> m) k = v.
Proof. unfold get_game. by rewrite lookup_insert_eq. Qed.

Lemma get_time_insert m k v : get_time (<[k := v]> m) k = v.
Proof. unfold get_time. by rewrite lookup_insert_eq. Qed.

Section EntryEffects.
Context `{GoTime}.

Lemma observe_bucket_counts s d h :
  bucket_counts (Agg.timeStats (observe s d)) h = bucket_counts (Agg.timeStats s) h.
Proof.
  cbn [observe Agg.timeStats]. unfold bucket_counts, get_time.
  destruct (Agg.timeStats s !! hour_of d) eqn:Hh; [done|].
  rewrite lookup_insert. case_decide as He; [|done].
  subst h. by rewrite Hh.
Qed.

Lemma observe_same_statistics s d : same_statistics s (observe s d).
Proof. repeat split. apply observe_bucket_counts. Qed.

Lemma get_time_observe s d :
  TimeStat.TotalBets (get_time (Agg.timeStats (observe s d)) (hour_of d))
  = TimeStat.TotalBets (get_time (Agg.timeStats s) (hour_of d))
  ∧ TimeStat.TotalBetAmount (get_time (Agg.timeStats (observe s d)) (hour_of d))
    = TimeStat.TotalBetAmount (get_time (Agg.timeStats s) (hour_of d))
  ∧ TimeStat.TotalWins (get_time (Agg.timeStats (observe s d)) (hour_of d))
    = TimeStat.TotalWins (get_time (Agg.timeStats s) (hour_of d))
  ∧ TimeStat.TotalWinAmount (get_time (Agg.timeStats (observe s d)) (hour_of d))
    = TimeStat.TotalWinAmount (get_time (Agg.timeStats s) (hour_of d)).
Proof.
  pose proof (observe_bucket_counts s d (hour_of d)) as Hb.
  unfold bucket_counts in Hb. injection Hb as H1 H2 H3 H4. done.
Qed.

Lemma fate_duplicate_bet l d :
  is_bet d = true → GameData.BetID d ≠ "" →
  (∃ d0, d0 ∈ l ∧ is_bet d0 = true ∧ GameData.BetID d0 = GameData.BetID d) →
  fate l d = DuplicateBet.
Proof.
  intros Hb Hid Hseen%seen_bet_spec. unfold fate.
  by rewrite Hb, Hseen, (bool_decide_eq_true_2 _ Hid).
Qed.

Lemma fate_first_bet l d :
  is_bet d = true →
  (∀ d0, d0 ∈ l → is_bet d0 = true → GameData.BetID d0 ≠ GameData.BetID d) →
  fate l d = CountedBet.
Proof.
  intros Hb Hnew. unfold fate. rewrite Hb.
  destruct (seen_bet l (GameData.BetID d)) eqn:Hs; [|by rewrite andb_false_r].
  apply seen_bet_spec in Hs as (d0 & Hin & Hb0 & He). by destruct (Hnew d0).
Qed.

Lemma fate_duplicate_win l d :
  is_win d = true → GameData.WinID d ≠ "" →
  (∃ d0, d0 ∈ l ∧ is_win d0 = true ∧ GameData.WinID d0 = GameData.WinID d) →
  fate l d = DuplicateWin.
Proof.
  intros Hw Hid Hseen%seen_win_spec. unfold fate.
  destruct (is_bet d) eqn:Hb; [by rewrite (is_bet_not_win _ Hb) in Hw|].
  by rewrite Hw, Hseen, (bool_decide_eq_true_2 _ Hid).
Qed.

Lemma fate_first_win l d :
  is_win d = true →
  (∀ d0, d0 ∈ l → is_win d0 = true → GameData.WinID d0 ≠ GameData.WinID d) →
  fate l d = CountedWin.
Proof.
  intros Hw Hnew. unfold fate.
  destruct (is_bet d) eqn:Hb; [by rewrite (is_bet_not_win _ Hb) in Hw|].
  rewrite Hw.
  destruct (seen_win l (GameData.WinID d)) eqn:Hs; [|by rewrite andb_false_r].
  apply seen_win_spec in Hs as (d0 & Hin & Hw0 & He). by destruct (Hnew d0).
Qed.

Lemma duplicate_bet_effect l d :
  fate l d = DuplicateBet →
  same_statistics (aggregate l) (aggregate (l ++ [d]))
  ∧ Agg.duplicateBets (aggregate (l ++ [d])) = incr (Agg.duplicateBets (aggregate l))
  ∧ Agg.duplicateWins (aggregate (l ++ [d])) = Agg.duplicateWins (aggregate l).
Proof.
  intros Hf. rewrite aggregate_snoc_fate, Hf. cbn zeta.
  split; [|done]. repeat split. apply observe_bucket_counts.
Qed.

Lemma duplicate_win_effect l d :
  fate l d = DuplicateWin →
  same_statistics (aggregate l) (aggregate (l ++ [d]))
  ∧ Agg.duplicateWins (aggregate (l ++ [d])) = incr (Agg.duplicateWins (aggregate l))
  ∧ Agg.duplicateBets (aggregate (l ++ [d])) = Agg.duplicateBets (aggregate l).
Proof.
  intros Hf. rewrite aggregate_snoc_fate, Hf. cbn zeta.
  split; [|done]. repeat split. apply observe_bucket_counts.
Qed.

Lemma counted_bet_effect l d :
  fate l d = CountedBet →
  bet_counted (aggregate l) (aggregate (l ++ [d])) d
  ∧ Agg.duplicateBets (aggregate (l ++ [d])) = Agg.duplicateBets (aggregate l).
Proof.
  intros Hf. rewrite aggregate_snoc_fate, Hf. cbn zeta.
  split; [|done]. unfold bet_counted.
  cbn [count_bet Agg.totalBets Agg.totalBetAmount Agg.PlayerStats
       Agg.GameStats Agg.timeStats].
  rewrite get_player_insert, get_game_insert, get_time_insert.
  destruct (get_time_observe (aggregate l) d) as (Hb & Ha & _).
  cbn [bet_player bet_game bet_time PlayerStat.TotalBets PlayerStat.TotalBetAmount
       PlayerStat.TopBets GameStat.TotalBets GameStat.TotalBetAmount
       TimeStat.TotalBets TimeStat.TotalBetAmount].
  rewrite Hb, Ha. done.
Qed.

Lemma counted_win_effect l d :
  fate l d = CountedWin →
  win_counted (aggregate l) (aggregate (l ++ [d])) d
  ∧ Agg.duplicateWins (aggregate (l ++ [d])) = Agg.duplicateWins (aggregate l).
Proof.
  intros Hf. rewrite aggregate_snoc_fate, Hf. cbn zeta.
  split; [|done]. unfold win_counted.
  cbn [count_win Agg.totalWins Agg.totalWinAmount Agg.PlayerStats
       Agg.GameStats Agg.timeStats].
  rewrite get_player_insert, get_game_insert, get_time_insert.
  destruct (get_time_observe (aggregate l) d) as (_ & _ & Hb & Ha).
  cbn [win_player win_game win_time PlayerStat.TotalWins PlayerStat.TotalWinAmount
       PlayerStat.TopWins GameStat.TotalWins GameStat.TotalWinAmount
       TimeStat.TotalWins TimeStat.TotalWinAmount].
  rewrite Hb, Ha. done.
Qed.

End EntryEffects.

Lemma accepted_bets_positive l :
  Forall (λ x, 0 < x) (GameData.Bet <$> accepted_bets l).
Proof.
  apply Forall_fmap, Forall_forall. intros d Hd.
  apply list_elem_of_filter in Hd as [Hb _]. unfold is_bet in Hb.
  apply andb_prop in Hb as [_ Hpos]. by apply Z.ltb_lt.
Qed.

Lemma accepted_wins_positive l :
  Forall (λ x, 0 < x) (GameData.Win <$> accepted_wins l).
Proof.
  apply Forall_fmap, Forall_forall. intros d Hd.
  apply list_elem_of_filter in Hd as [Hw _]. unfold is_win in Hw.
  apply andb_prop in Hw as [_ Hpos]. by apply Z.ltb_lt.
Qed.

Lemma Zsum_nonneg xs : Forall (λ x, 0 < x) xs → 0 ≤ Zsum xs.
Proof. induction 1 as [|x xs Hx _ IH]; simpl; lia. Qed.

Lemma accepted_sublist l : accepted l `sublist_of` l.
Proof. apply select_sublist. Qed.

(** A counted bet in the words of the specification: kind Bet, positive
    amount, and not judged a duplicate. *)
Lemma counted_bet_spec pre d :
  fate pre d = CountedBet
  ↔ GameData.Message d = "SendBet" ∧ 0 < GameData.Bet d
    ∧ (GameData.BetID d = ""
       ∨ ¬ ∃ d0, d0 ∈ pre ∧ is_bet d0 = true ∧ GameData.BetID d0 = GameData.BetID d).
Proof.
  rewrite <- seen_bet_spec. unfold fate, is_bet at 1.
  destruct (decide (GameData.Message d = "SendBet")) as [Hm|Hm].
  - rewrite (bool_decide_eq_true_2 _ Hm). simpl.
    destruct (0 <? GameData.Bet d) eqn:Hpos.
    + apply Z.ltb_lt in Hpos.
      destruct (decide (GameData.BetID d = "")) as [Hid|Hid].
      * rewrite (bool_decide_eq_false_2 (GameData.BetID d ≠ ""))
          by (intros Hn; by apply Hn).
        simpl. split; [|done]. intros _. auto.
      * rewrite (bool_decide_eq_true_2 _ Hid). simpl.
        destruct (seen_bet pre (GameData.BetID d)); split; try done.
        -- intros (_ & _ & [?|Hn]); [done|]. by destruct Hn.
        -- intros _. split; [done|]. split; [done|]. right. done.
    + apply Z.ltb_ge in Hpos. split.
      * repeat case_match; done.
      * intros (_ & ? & _). lia.
  - rewrite (bool_decide_eq_false_2 _ Hm). simpl. split.
    + repeat case_match; done.
    + by intros (? & _).
Qed.

Section StreamClaims.
Context `{GoTime, GoFmt, GoSort}.

(** C1, as the code has it.  Among the Bet entries with a positive amount
    that carry a given non-empty bet identifier, the first one processed is
    counted once in the global, per-player, per-game and per-hour bet counts
    and amounts and becomes a top-bet candidate; every later one changes no
    statistic at all and adds one to the duplicate-bet counter.  The same
    holds for Win entries with a positive amount and win identifiers.  A Bet
    or Win entry whose amount is not positive changes no statistic, leaves
    both ledgers as they were and is not counted as a duplicate, whatever
    identifier it carries.  For the stream
    [Bet(A,100,"b1"), Bet(A,100,"b1"), Win(A,50,"w1")] the report has 1 bet
    of 100, 1 win of 50, one duplicate bet, and player A has net result -50
    and RTP 50. *)
Theorem first_identifier_counts (l : list GameData.t) (d : GameData.t) :
  (is_bet d = true → GameData.BetID d ≠ "" →
     ((∀ d0, d0 ∈ l → is_bet d0 = true → GameData.BetID d0 ≠ GameData.BetID d) →
        bet_counted (aggregate l) (aggregate (l ++ [d])) d
        ∧ Agg.duplicateBets (aggregate (l ++ [d])) = Agg.duplicateBets (aggregate l))
     ∧ ((∃ d0, d0 ∈ l ∧ is_bet d0 = true ∧ GameData.BetID d0 = GameData.BetID d) →
          same_statistics (aggregate l) (aggregate (l ++ [d]))
          ∧ Agg.duplicateBets (aggregate (l ++ [d]))
            = incr (Agg.duplicateBets (aggregate l))))
  ∧ (is_win d = true → GameData.WinID d ≠ "" →
       ((∀ d0, d0 ∈ l → is_win d0 = true → GameData.WinID d0 ≠ GameData.WinID d) →
          win_counted (aggregate l) (aggregate (l ++ [d])) d
          ∧ Agg.duplicateWins (aggregate (l ++ [d])) = Agg.duplicateWins (aggregate l))
       ∧ ((∃ d0, d0 ∈ l ∧ is_win d0 = true ∧ GameData.WinID d0 = GameData.WinID d) →
            same_statistics (aggregate l) (aggregate (l ++ [d]))
            ∧ Agg.duplicateWins (aggregate (l ++ [d]))
              = incr (Agg.duplicateWins (aggregate l))))
  ∧ ((GameData.Message d = "SendBet" ∧ GameData.Bet d ≤ 0)
     ∨ (GameData.Message d = "SendWin" ∧ GameData.Win d ≤ 0) →
       same_statistics (aggregate l) (aggregate (l ++ [d]))
       ∧ Agg.uniqueBetIDs (aggregate (l ++ [d])) = Agg.uniqueBetIDs (aggregate l)
       ∧ Agg.uniqueWinIDs (aggregate (l ++ [d])) = Agg.uniqueWinIDs (aggregate l)
       ∧ Agg.duplicateBets (aggregate (l ++ [d])) = Agg.duplicateBets (aggregate l)
       ∧ Agg.duplicateWins (aggregate (l ++ [d])) = Agg.duplicateWins (aggregate l))
  ∧ (let r := generateReport duplicate_scenario "USD" in
     Summary.TotalBets (Report.Summary r) = 1
     ∧ Summary.TotalBetAmount (Report.Summary r) = 100
     ∧ Summary.TotalWins (Report.Summary r) = 1
     ∧ Summary.TotalWinAmount (Report.Summary r) = 50
     ∧ Agg.duplicateBets (aggregate duplicate_scenario) = 1
     ∧ PlayerStat.NetResult <$> Report.PlayerStats r !! "A" = Some (-50)
     ∧ PlayerStat.RTP <$> Report.PlayerStats r !! "A" = Some (float64_of_int 50)).
Proof.
  split; [|split; [|split]].
  - intros Hb Hid. split.
    + intros Hfirst. by apply counted_bet_effect, fate_first_bet.
    + intros Hseen.
      destruct (duplicate_bet_effect l d (fate_duplicate_bet l d Hb Hid Hseen))
        as (? & ? & _).
      done.
  - intros Hw Hid. split.
    + intros Hfirst. by apply counted_win_effect, fate_first_win.
    + intros Hseen.
      destruct (duplicate_win_effect l d (fate_duplicate_win l d Hw Hid Hseen))
        as (? & ? & _).
      done.
  - intros Hinert.
    assert (is_bet d = false ∧ is_win d = false) as [Hb Hw].
    { unfold is_bet, is_win. destruct Hinert as [[Hm Ha]|[Hm Ha]]; rewrite Hm.
      - rewrite (proj2 (Z.ltb_ge _ _) Ha), andb_false_r. done.
      - rewrite (proj2 (Z.ltb_ge _ _) Ha), andb_false_r. done. }
    assert (fate l d = Inert) as Hf by (unfold fate; by rewrite Hb, Hw).
    rewrite aggregate_snoc_fate, Hf. cbn zeta.
    split; [apply observe_same_statistics|]. done.
  - vm_compute. repeat split.
Qed.

(** C2, as the code has it.  When an entry is judged a duplicate, no
    global, per-player or per-game statistic, no counter of any hour bucket
    and neither ledger changes, and the duplicate counter of its kind goes up
    by one.  What every entry does before the ledger is consulted still
    happens: its player and game join the unique-player and unique-game
    sets, its balance is appended to the player's balance record, the
    timestamp bounds take its timestamp into account, and its hour bucket
    exists afterwards. *)
Theorem duplicate_frame (l : list GameData.t) (d : GameData.t) :
  fate l d = DuplicateBet ∨ fate l d = DuplicateWin →
  let s := aggregate l in
  let s' := aggregate (l ++ [d]) in
  same_statistics s s'
  ∧ Agg.uniqueBetIDs s' = Agg.uniqueBetIDs s
  ∧ Agg.uniqueWinIDs s' = Agg.uniqueWinIDs s
  ∧ (fate l d = DuplicateBet →
       Agg.duplicateBets s' = incr (Agg.duplicateBets s)
       ∧ Agg.duplicateWins s' = Agg.duplicateWins s)
  ∧ (fate l d = DuplicateWin →
       Agg.duplicateWins s' = incr (Agg.duplicateWins s)
       ∧ Agg.duplicateBets s' = Agg.duplicateBets s)
  ∧ Agg.uniquePlayers s' = <[GameData.PlayerID d := true]> (Agg.uniquePlayers s)
  ∧ Agg.uniqueGames s' = <[GameData.GameID d := true]> (Agg.uniqueGames s)
  ∧ Agg.playerBalances s'
    = <[GameData.PlayerID d :=
          get_balances (Agg.playerBalances s) (GameData.PlayerID d)
            ++ [GameData.Balance d]]> (Agg.playerBalances s)
  ∧ Agg.maxTime s' = Qc_max (Agg.maxTime s) (GameData.Timestamp d)
  ∧ Agg.minTime s'
    = (if bool_decide (0 ≤ Agg.minTime s)%Qc
       then Qc_min (Agg.minTime s) (GameData.Timestamp d)
       else GameData.Timestamp d)
  ∧ dom (Agg.timeStats s') = {[hour_of d]} ∪ dom (Agg.timeStats s).
Proof.
  intros Hdup s s'.
  assert (dom (Agg.timeStats (observe s d)) = {[hour_of d]} ∪ dom (Agg.timeStats s))
    as Hdom.
  { cbn [observe Agg.timeStats].
    destruct (Agg.timeStats s !! hour_of d) eqn:Hh.
    - apply elem_of_dom_2 in Hh. symmetry. apply subseteq_union_1_L.
      by apply singleton_subseteq_l.
    - apply dom_insert_L. }
  assert (Agg.minTime (observe s d)
          = if bool_decide (0 ≤ Agg.minTime s)%Qc
            then Qc_min (Agg.minTime s) (GameData.Timestamp d)
            else GameData.Timestamp d) as Hmin
    by (cbn [observe Agg.minTime]; apply min_update).
  unfold s'. rewrite aggregate_snoc_fate. fold s. cbn zeta.
  destruct Hdup as [Hf|Hf]; rewrite Hf.
  - split; [repeat split; apply observe_bucket_counts|].
    repeat (split; [done|]). done.
  - split; [repeat split; apply observe_bucket_counts|].
    repeat (split; [done|]). done.
Qed.

(** C3, as the code has it.  The summary's TotalBetAmount is the sum, in
    the [int64] arithmetic of the code, of the amounts of the accepted Bet
    entries (message SendBet, positive amount, not judged a duplicate), each
    entry of the stream taken at most once; it is the exact sum whenever
    that is below 2^63.  TotalWinAmount is the same over the accepted Win
    entries.  No entry moves both the bet totals and the win totals. *)
Theorem totals_conservation (l : list GameData.t) (c : string) :
  let sm := Report.Summary (generateReport l c) in
  Summary.TotalBetAmount sm = sum64 (GameData.Bet <$> accepted_bets l)
  ∧ Summary.TotalWinAmount sm = sum64 (GameData.Win <$> accepted_wins l)
  ∧ (Zsum (GameData.Bet <$> accepted_bets l) < 2 ^ 63 →
       Summary.TotalBetAmount sm = Zsum (GameData.Bet <$> accepted_bets l))
  ∧ (Zsum (GameData.Win <$> accepted_wins l) < 2 ^ 63 →
       Summary.TotalWinAmount sm = Zsum (GameData.Win <$> accepted_wins l))
  ∧ accepted_bets l `sublist_of` l
  ∧ accepted_wins l `sublist_of` l
  ∧ (∀ d, d ∈ accepted_bets l → d ∉ accepted_wins l)
  ∧ (∀ pre d,
       (Agg.totalBets (aggregate (pre ++ [d])) = Agg.totalBets (aggregate pre)
        ∧ Agg.totalBetAmount (aggregate (pre ++ [d]))
          = Agg.totalBetAmount (aggregate pre))
       ∨ (Agg.totalWins (aggregate (pre ++ [d])) = Agg.totalWins (aggregate pre)
          ∧ Agg.totalWinAmount (aggregate (pre ++ [d]))
            = Agg.totalWinAmount (aggregate pre))).
Proof.
  destruct (totals_closed l) as [Hb Hw].
  cbn [generateReport Report.Summary summarize Summary.TotalBetAmount
       Summary.TotalWinAmount].
  split; [done|]. split; [done|]. split; [|split].
  - intros Hsmall. rewrite Hb, sum64_Zsum. apply wrap64_small.
    pose proof (Zsum_nonneg _ (accepted_bets_positive l)). unfold in_int64. lia.
  - intros Hsmall. rewrite Hw, sum64_Zsum. apply wrap64_small.
    pose proof (Zsum_nonneg _ (accepted_wins_positive l)). unfold in_int64. lia.
  - split; [|split; [|split]].
    + etrans; [apply sublist_filter | apply accepted_sublist].
    + etrans; [apply sublist_filter | apply accepted_sublist].
    + intros d [Hbet _]%list_elem_of_filter [Hwin _]%list_elem_of_filter.
      by rewrite (is_bet_not_win _ Hbet) in Hwin.
    + intros pre d. rewrite aggregate_snoc_fate. cbn zeta.
      destruct (fate pre d); [right|left|left|left|left]; done.
Qed.

End StreamClaims.

(** ** The two sort routines meet the contract of [sort.Slice] *)

Section SorterLaws.
Context {A : Type} (less : A → A → bool).

Lemma swo_total_precede : StrictWeakOrder less → Total (may_precede less).
Proof.
  intros W x y. unfold may_precede.
  destruct (less y x) eqn:Hyx; [right | by left].
  destruct (less x y) eqn:Hxy; [| done].
  pose proof (swo_trans less W _ _ _ Hxy Hyx) as Hc.
  by rewrite (swo_irrefl less W) in Hc.
Qed.

Lemma swo_trans_precede : StrictWeakOrder less → Transitive (may_precede less).
Proof. intros W x y z Hxy Hyz. exact (swo_incomp less W z y x Hyz Hxy). Qed.

Lemma merge_slice_perm l : merge_slice less l ≡ₚ l.
Proof. apply merge_sort_Permutation. Qed.

Lemma merge_slice_sorted l :
  StrictWeakOrder less → StronglySorted (may_precede less) (merge_slice less l).
Proof.
  intros W. apply (@Sorted_StronglySorted _ _ (swo_trans_precede W)).
  apply (@Sorted_merge_sort _ _ _ (swo_total_precede W)).
Qed.

End SorterLaws.

Lemma merge_sorter_laws : @GoSortLaws merge_sorter.
Proof.
  split; intros A less l.
  - apply merge_slice_perm.
  - apply merge_slice_sorted.
Qed.

(** ** The theorems at concrete streams, in the UTC time zone *)

Section Instances.
#[local] Existing Instance UTC.clock.
#[local] Existing Instance UTC.fmt.
#[local] Existing Instance merge_sorter.

Lemma first_identifier_counts_witness :
  (is_bet replayed_bet = true
   ∧ GameData.BetID replayed_bet ≠ ""
   ∧ (∃ d0, d0 ∈ [first_bet] ∧ is_bet d0 = true
            ∧ GameData.BetID d0 = GameData.BetID replayed_bet)
   ∧ same_statistics (aggregate [first_bet]) (aggregate ([first_bet] ++ [replayed_bet]))
   ∧ Agg.duplicateBets (aggregate ([first_bet] ++ [replayed_bet]))
     = incr (Agg.duplicateBets (aggregate [first_bet])))
  ∧ (GameData.Message (send_bet "A" "g" "r2" 20 "b1" 0 900) = "SendBet"
     ∧ GameData.Bet (send_bet "A" "g" "r2" 20 "b1" 0 900) ≤ 0
     ∧ Agg.uniqueBetIDs (aggregate ([first_bet] ++ [send_bet "A" "g" "r2" 20 "b1" 0 900]))
       = Agg.uniqueBetIDs (aggregate [first_bet])
     ∧ Agg.duplicateBets (aggregate ([first_bet] ++ [send_bet "A" "g" "r2" 20 "b1" 0 900]))
       = Agg.duplicateBets (aggregate [first_bet])).
Proof.
  assert (is_bet replayed_bet = true) as Hb by reflexivity.
  assert (GameData.BetID replayed_bet ≠ "") as Hid by discriminate.
  assert (∃ d0, d0 ∈ [first_bet] ∧ is_bet d0 = true
                ∧ GameData.BetID d0 = GameData.BetID replayed_bet) as Hseen.
  { exists first_bet. split; [apply list_elem_of_here|]. split; reflexivity. }
  assert (GameData.Message (send_bet "A" "g" "r2" 20 "b1" 0 900) = "SendBet") as Hm
    by reflexivity.
  assert (GameData.Bet (send_bet "A" "g" "r2" 20 "b1" 0 900) ≤ 0) as Ha
    by (simpl; lia).
  split.
  - split; [exact Hb|]. split; [exact Hid|]. split; [exact Hseen|].
    destruct (first_identifier_counts [first_bet] replayed_bet) as [Hbet _].
    destruct (Hbet Hb Hid) as [_ Hdup]. exact (Hdup Hseen).
  - split; [exact Hm|]. split; [exact Ha|].
    destruct (first_identifier_counts [first_bet] (send_bet "A" "g" "r2" 20 "b1" 0 900))
      as (_ & _ & Hinert & _).
    destruct (Hinert (or_introl (conj Hm Ha))) as (_ & Hledger & _ & Hdup & _).
    split; [exact Hledger | exact Hdup].
Defined.

(** C1 as stated fails on Bet entries without a positive amount.  In
    [inert_then_bet] the first Bet entry that carries "b1" has amount 0: it
    counts for nothing, and the second entry with the same identifier is
    counted and is no duplicate.  In [bet_then_inert] the later Bet entry with
    the identifier of a counted bet has amount 0 and does not add to the
    duplicate counter. *)
Lemma first_identifier_counterexample :
  (Agg.totalBets (aggregate (take 1 inert_then_bet)) = 0
   ∧ Agg.totalBets (aggregate inert_then_bet) = 1
   ∧ Agg.totalBetAmount (aggregate inert_then_bet) = 100
   ∧ Agg.duplicateBets (aggregate inert_then_bet) = 0)
  ∧ (Agg.totalBets (aggregate bet_then_inert) = 1
     ∧ Agg.duplicateBets (aggregate bet_then_inert) = 0).
Proof. vm_compute. by repeat split. Qed.

Lemma duplicate_frame_witness :
  fate [first_bet] replayed_bet = DuplicateBet
  ∧ same_statistics (aggregate [first_bet]) (aggregate ([first_bet] ++ [replayed_bet]))
  ∧ Agg.uniquePlayers (aggregate ([first_bet] ++ [replayed_bet]))
    = <["B" := true]> (Agg.uniquePlayers (aggregate [first_bet])).
Proof.
  assert (fate [first_bet] replayed_bet = DuplicateBet) as Hf by reflexivity.
  split; [exact Hf|].
  destruct (duplicate_frame [first_bet] replayed_bet (or_introl Hf))
    as (Hsame & _ & _ & _ & _ & Hplayers & _).
  split; [exact Hsame | exact Hplayers].
Defined.

(** C2 as stated fails: [replayed_bet] is judged a duplicate of
    [first_bet], yet processing it adds a player and a game to the unique
    sets, creates a balance record for player B and raises the largest
    timestamp. *)
Lemma duplicate_frame_counterexample :
  fate [first_bet] replayed_bet = DuplicateBet
  ∧ size (Agg.uniquePlayers (aggregate [first_bet])) = 1%nat
  ∧ size (Agg.uniquePlayers (aggregate [first_bet; replayed_bet])) = 2%nat
  ∧ size (Agg.uniqueGames (aggregate [first_bet])) = 1%nat
  ∧ size (Agg.uniqueGames (aggregate [first_bet; replayed_bet])) = 2%nat
  ∧ Agg.playerBalances (aggregate [first_bet]) !! "B" = None
  ∧ Agg.playerBalances (aggregate [first_bet; replayed_bet]) !! "B" = Some [500]
  ∧ (Agg.maxTime (aggregate [first_bet])
     < Agg.maxTime (aggregate [first_bet; replayed_bet]))%Qc.
Proof. vm_compute. by repeat split. Qed.

Lemma totals_conservation_witness :
  Zsum (GameData.Bet <$> accepted_bets duplicate_scenario) < 2 ^ 63
  ∧ Summary.TotalBetAmount (Report.Summary (generateReport duplicate_scenario "USD"))
    = Zsum (GameData.Bet <$> accepted_bets duplicate_scenario).
Proof.
  assert (Zsum (GameData.Bet <$> accepted_bets duplicate_scenario) < 2 ^ 63) as Hs
    by reflexivity.
  split; [exact Hs|].
  destruct (totals_conservation duplicate_scenario "USD") as (_ & _ & Hexact & _).
  exact (Hexact Hs).
Defined.

(** C3 as stated fails when the sum leaves the range of [int64]: the two
    bets of [overflow_stream] are both accepted and add up to 2^63, and the
    summary reports -2^63. *)
Lemma totals_overflow_counterexample :
  accepted_bets overflow_stream = overflow_stream
  ∧ Zsum (GameData.Bet <$> accepted_bets overflow_stream) = 2 ^ 63
  ∧ Summary.TotalBetAmount (Report.Summary (generateReport overflow_stream "USD"))
    = - 2 ^ 63
  ∧ Summary.TotalBetAmount (Report.Summary (generateReport overflow_stream "USD"))
    ≠ Zsum (GameData.Bet <$> accepted_bets overflow_stream).
Proof. vm_compute. by repeat split. Qed.

Lemma rtp_convention_witness :
  match Report.PlayerStats (generateReport duplicate_scenario "USD") !! "A" with
  | Some ps =>
      rtp_rule (PlayerStat.TotalWinAmount ps) (PlayerStat.TotalBetAmount ps)
        (PlayerStat.RTP ps)
      ∧ PlayerStat.TotalWinAmount ps = 50
      ∧ PlayerStat.TotalBetAmount ps = 100
      ∧ float_value (PlayerStat.RTP ps) = Some (50 # 1)%Q
  | None => False
  end.
Proof.
  destruct (Report.PlayerStats (generateReport duplicate_scenario "USD") !! "A")
    as [ps|] eqn:Hps.
  - destruct (rtp_convention duplicate_scenario "USD") as [Hplayers _].
    pose proof (Hplayers "A" ps Hps) as Hrule.
    vm_compute in Hps. injection Hps as <-.
    split; [exact Hrule|]. split; [reflexivity|]. split; reflexivity.
  - vm_compute in Hps. discriminate Hps.
Defined.

Lemma top_lists_sorted_prefix_witness :
  match Report.PlayerStats (generateReport thirteen_bets "USD") !! "A" with
  | Some ps =>
      (length (PlayerStat.TopBets ps) ≤ 5)%nat
      ∧ bets_descending (PlayerStat.TopBets ps)
      ∧ length (of_player "A" (accepted_bets thirteen_bets)) = 13%nat
      ∧ TopBet.Amount <$> PlayerStat.TopBets ps = [100; 100; 11; 10; 9]
  | None => False
  end.
Proof.
  destruct (Report.PlayerStats (generateReport thirteen_bets "USD") !! "A")
    as [ps|] eqn:Hps.
  - destruct (@top_lists_sorted_prefix _ _ _ merge_sorter_laws thirteen_bets "USD" "A" ps Hps)
      as [(_ & _ & _ & Hlen & Hdesc) _].
    vm_compute in Hps. injection Hps as <-.
    split; [exact Hlen|]. split; [exact Hdesc|]. split; reflexivity.
  - vm_compute in Hps. discriminate Hps.
Defined.

(** The thirteen bets of [thirteen_bets] as the library's routine sorts
    them, whatever the generator: the fuel suffices, and the bet of round r2
    comes out before the bet of round r1. *)
Lemma thirteen_bets_sorted (xorshift_Next : Z → Z) :
  (λ bets : list TopBet.t, (TopBet.Amount <$> bets, TopBet.RoundID <$> bets))
    <$> Slice bet_less xorshift_Next
          (top_bet_of <$> of_player "A" (accepted_bets thirteen_bets))
  = Some ([100; 100; 11; 10; 9; 8; 7; 6; 5; 4; 3; 2; 1],
          ["r2"; "r1"; "r13"; "r12"; "r11"; "r10"; "r9"; "r8"; "r7"; "r6"; "r5";
           "r4"; "r3"]).
Proof. vm_compute. reflexivity. Qed.

(** C5 as stated fails on the order of equal amounts.  Player A places
    thirteen bets, the first two of 100 in rounds r1 and r2.  [sort.Slice]
    as the Go library runs it picks the seventh entry as pivot and swaps it
    with the first one, which carries the bet of r1 behind the bet of r2;
    nothing moves it back, and the top bets list r2 before r1. *)
Lemma top_lists_stability_counterexample :
  GameData.RoundID <$> take 2 (of_player "A" (accepted_bets thirteen_bets))
  = ["r1"; "r2"]
  ∧ is_Some (Slice bet_less xorshift64
               (top_bet_of <$> of_player "A" (accepted_bets thirteen_bets)))
  ∧ (λ ps, TopBet.Amount <$> PlayerStat.TopBets ps)
      <$> Report.PlayerStats
            (@generateReport UTC.clock UTC.fmt (pdq_sorter xorshift64)
               thirteen_bets "USD") !! "A"
    = Some [100; 100; 11; 10; 9]
  ∧ (λ ps, TopBet.RoundID <$> PlayerStat.TopBets ps)
      <$> Report.PlayerStats
            (@generateReport UTC.clock UTC.fmt (pdq_sorter xorshift64)
               thirteen_bets "USD") !! "A"
    = Some ["r2"; "r1"; "r13"; "r12"; "r11"].
Proof. vm_compute. by repeat split; eauto. Qed.

Lemma high_rtp_flag_witness :
  match Report.PlayerStats (generateReport high_rtp_stream "USD") !! "P" with
  | Some ps =>
      100 < PlayerStat.TotalBets ps
      ∧ f64_gt (PlayerStat.RTP ps) (float64_of_int 150) = true
      ∧ ∃ e, filter (λ e, SuspiciousEvent.PlayerID e = "P")
               (Report.SuspiciousEvents (generateReport high_rtp_stream "USD")) = [e]
             ∧ SuspiciousEvent.Type_ e = "High RTP"
  | None => False
  end.
Proof.
  destruct (Report.PlayerStats (generateReport high_rtp_stream "USD") !! "P")
    as [ps|] eqn:Hps.
  - destruct high_rtp_flag as [Hrule _].
    destruct (Hrule high_rtp_stream "USD" "P" ps Hps) as (Hyes & _).
    vm_compute in Hps. injection Hps as <-.
    assert (100 < 150) as Hbets by reflexivity.
    assert (f64_gt (float64_of_int 200) (float64_of_int 150) = true) as Hrtp
      by reflexivity.
    split; [exact Hbets|]. split; [exact Hrtp|].
    exact (Hyes (conj Hbets Hrtp)).
  - vm_compute in Hps. discriminate Hps.
Defined.

Lemma game_players_all_entries_witness :
  match Report.GameStats (generateReport bystander_stream "USD") !! "g1" with
  | Some gs => GameStat.Players gs = Z.of_nat (size (players_on_game bystander_stream "g1"))
  | None => False
  end.
Proof.
  destruct (Report.GameStats (generateReport bystander_stream "USD") !! "g1")
    as [gs|] eqn:Hgs.
  - exact (game_players_all_entries bystander_stream "USD" "g1" gs Hgs).
  - vm_compute in Hgs. discriminate Hgs.
Defined.

(** C7 as stated fails: player B only logs in on game g1 and neither bets
    nor wins, so one player transacted on g1, but the report counts two. *)
Lemma game_players_counterexample :
  GameStat.Players <$> Report.GameStats (generateReport bystander_stream "USD") !! "g1"
  = Some 2
  ∧ size (transacting_players bystander_stream "g1") = 1%nat.
Proof. vm_compute. by split. Qed.

Lemma time_span_nonempty_witness :
  Forall (λ d, (0 ≤ GameData.Timestamp d)%Qc) duplicate_scenario
  ∧ (Summary.TimeSpan (Report.Summary (generateReport duplicate_scenario "USD")) ≠ ""
     ↔ ∃ lo hi, min_ts duplicate_scenario = Some lo
                ∧ max_ts duplicate_scenario = Some hi ∧ (lo < hi)%Qc).
Proof.
  assert (Forall (λ d, (0 ≤ GameData.Timestamp d)%Qc) duplicate_scenario) as Hall.
  { repeat constructor; discriminate. }
  split; [exact Hall|].
  exact (time_span_nonempty duplicate_scenario "USD" Hall).
Defined.

(** C8 as stated fails on timestamps before the epoch: the stream has two
    entries, the largest timestamp (10) is greater than the smallest (-5),
    and the time span is empty. *)
Lemma time_span_counterexample :
  length pre_epoch_stream = 2%nat
  ∧ min_ts pre_epoch_stream = Some (Q2Qc (inject_Z (-5)))
  ∧ max_ts pre_epoch_stream = Some (Q2Qc (inject_Z 10))
  ∧ (Q2Qc (inject_Z (-5)) < Q2Qc (inject_Z 10))%Qc
  ∧ Summary.TimeSpan (Report.Summary (generateReport pre_epoch_stream "USD")) = "".
Proof. vm_compute. by repeat split. Qed.

Lemma last_balance_is_last_counted_witness :
  match Report.PlayerStats (generateReport trailing_entry_stream "USD") !! "A" with
  | Some ps =>
      ∃ d, last (of_player "A" (accepted trailing_entry_stream)) = Some d
           ∧ PlayerStat.LastBalance ps = GameData.Balance d
  | None => False
  end.
Proof.
  destruct (Report.PlayerStats (generateReport trailing_entry_stream "USD") !! "A")
    as [ps|] eqn:Hps.
  - exact (last_balance_is_last_counted trailing_entry_stream "USD" "A" ps Hps).
  - vm_compute in Hps. discriminate Hps.
Defined.

(** C9 as stated fails: the last entry processed for player A is the
    login, with balance 500, but the record keeps the balance 900 of the
    bet before it. *)
Lemma last_balance_counterexample :
  GameData.Balance <$> last (of_player "A" trailing_entry_stream) = Some 500
  ∧ PlayerStat.LastBalance
      <$> Report.PlayerStats (generateReport trailing_entry_stream "USD") !! "A"
    = Some 900.
Proof. vm_compute. by split. Qed.

Lemma identifier_fields_witness :
  of_player "W" (accepted win_only_stream) ≠ []
  ∧ (∀ d, d ∈ of_player "W" (accepted win_only_stream) → is_win d = true)
  ∧ ∃ ps, Report.PlayerStats (generateReport win_only_stream "USD") !! "W" = Some ps
          ∧ PlayerStat.PlayerID ps = "".
Proof.
  assert (of_player "W" (accepted win_only_stream)
          = [send_win "W" "g2" "r2" 20 "w1" 50 50]) as Hw by reflexivity.
  assert (of_player "W" (accepted win_only_stream) ≠ []) as Hne
    by (rewrite Hw; discriminate).
  assert (∀ d, d ∈ of_player "W" (accepted win_only_stream) → is_win d = true)
    as Hwins.
  { rewrite Hw. intros d Hd. apply list_elem_of_singleton in Hd. rewrite Hd.
    reflexivity. }
  split; [exact Hne|]. split; [exact Hwins|].
  destruct (identifier_fields win_only_stream "USD") as (_ & _ & _ & _ & _ & _ & Hwin & _).
  exact (Hwin "W" Hne Hwins).
Defined.

End Instances.

(** * Further properties of [generateReport] *)

(** ** Counters *)

Lemma count64_S n : count64 (S n) = incr (count64 n).
Proof.
  unfold count64, incr, add64. rewrite wrap64_add_l. f_equal. lia.
Qed.

Lemma count64_snoc {A} (xs : list A) x :
  count64 (length (xs ++ [x])) = incr (count64 (length xs)).
Proof. rewrite length_app, Nat.add_1_r. apply count64_S. Qed.

Lemma count64_small n : Z.of_nat n < 2 ^ 63 → count64 n = Z.of_nat n.
Proof. intros Hn. apply wrap64_small. unfold in_int64. lia. Qed.

Lemma duplicate_bets_snoc l d :
  duplicate_bets (l ++ [d])
  = duplicate_bets l ++ (if bool_decide (fate l d = DuplicateBet) then [d] else []).
Proof. unfold duplicate_bets. by rewrite select_snoc. Qed.

Lemma duplicate_wins_snoc l d :
  duplicate_wins (l ++ [d])
  = duplicate_wins l ++ (if bool_decide (fate l d = DuplicateWin) then [d] else []).
Proof. unfold duplicate_wins. by rewrite select_snoc. Qed.

Lemma fate_is_bet pre d :
  is_bet d = true ↔ fate pre d = CountedBet ∨ fate pre d = DuplicateBet.
Proof.
  unfold fate. destruct (is_bet d).
  - split; [|done]. intros _. case_match; auto.
  - split; [done|]. repeat case_match; intros [?|?]; done.
Qed.

Lemma fate_is_win pre d :
  is_bet d = false ∧ is_win d = true
  ↔ fate pre d = CountedWin ∨ fate pre d = DuplicateWin.
Proof.
  unfold fate. destruct (is_bet d); [|destruct (is_win d)].
  - split; [by intros [? _]|]. case_match; intros [?|?]; done.
  - split; [|done]. intros _. case_match; auto.
  - split; [by intros [_ ?]|]. intros [?|?]; done.
Qed.

Section Counters.
Context `{GoTime}.

Lemma counters_closed l :
  Agg.totalBets (aggregate l) = count64 (length (accepted_bets l))
  ∧ Agg.totalWins (aggregate l) = count64 (length (accepted_wins l))
  ∧ Agg.duplicateBets (aggregate l) = count64 (length (duplicate_bets l))
  ∧ Agg.duplicateWins (aggregate l) = count64 (length (duplicate_wins l)).
Proof.
  induction l as [|d l (IHb & IHw & IHdb & IHdw)] using rev_ind; [done|].
  rewrite aggregate_snoc_fate, accepted_bets_snoc, accepted_wins_snoc,
    duplicate_bets_snoc, duplicate_wins_snoc.
  cbn zeta.
  destruct (fate l d) eqn:Hf;
    cbn [count_bet count_win skip_duplicate_bet skip_duplicate_win observe
         Agg.totalBets Agg.totalWins Agg.duplicateBets Agg.duplicateWins];
    repeat (case_bool_decide; try done);
    rewrite ?count64_snoc, ?app_nil_r, ?IHb, ?IHw, ?IHdb, ?IHdw; done.
Qed.

End Counters.

Lemma bets_partition l :
  (length (accepted_bets l) + length (duplicate_bets l))%nat
  = length (filter (λ d, is_bet d = true) l).
Proof.
  induction l as [|d l IH] using rev_ind; [done|].
  rewrite accepted_bets_snoc, duplicate_bets_snoc, filter_app, !length_app, <- IH.
  destruct (is_bet d) eqn:Hb.
  - rewrite filter_cons_True by done.
    destruct (proj1 (fate_is_bet l d) Hb) as [Hf|Hf]; rewrite Hf;
      repeat (case_bool_decide; try done); simpl; lia.
  - rewrite filter_cons_False by (by rewrite Hb).
    assert (fate l d ≠ CountedBet ∧ fate l d ≠ DuplicateBet) as [H1 H2].
    { split; intros Hf; assert (is_bet d = true) as Hc
        by (apply (fate_is_bet l d); auto); by rewrite Hb in Hc. }
    rewrite !bool_decide_eq_false_2 by done. simpl. lia.
Qed.

Lemma is_win_not_bet d : is_win d = true → is_bet d = false.
Proof.
  intros Hw. destruct (is_bet d) eqn:Hb; [|done].
  by rewrite (is_bet_not_win _ Hb) in Hw.
Qed.

Lemma wins_partition l :
  (length (accepted_wins l) + length (duplicate_wins l))%nat
  = length (filter (λ d, is_win d = true) l).
Proof.
  induction l as [|d l IH] using rev_ind; [done|].
  rewrite accepted_wins_snoc, duplicate_wins_snoc, filter_app, !length_app, <- IH.
  destruct (is_win d) eqn:Hw.
  - rewrite filter_cons_True by done.
    destruct (proj1 (fate_is_win l d) (conj (is_win_not_bet d Hw) Hw)) as [Hf|Hf];
      rewrite Hf; repeat (case_bool_decide; try done); simpl; lia.
  - rewrite filter_cons_False by (by rewrite Hw).
    assert (fate l d ≠ CountedWin ∧ fate l d ≠ DuplicateWin) as [H1 H2].
    { split; intros Hf; assert (is_bet d = false ∧ is_win d = true) as [_ Hc]
        by (apply (fate_is_win l d); auto); by rewrite Hw in Hc. }
    rewrite !bool_decide_eq_false_2 by done. simpl. lia.
Qed.

(** ** Which identifiers the report knows *)

Section UniqueSets.
Context `{GoTime}.

Lemma step_unique s d :
  Agg.uniquePlayers (step s d) = <[GameData.PlayerID d := true]> (Agg.uniquePlayers s)
  ∧ Agg.uniqueGames (step s d) = <[GameData.GameID d := true]> (Agg.uniqueGames s).
Proof. unfold step. repeat case_match; done. Qed.

Lemma unique_closed l :
  dom (Agg.uniquePlayers (aggregate l)) = all_players l
  ∧ dom (Agg.uniqueGames (aggregate l)) = all_games l.
Proof.
  unfold all_players, all_games.
  induction l as [|d l [IHp IHg]] using rev_ind.
  - split; apply dom_empty_L.
  - rewrite aggregate_snoc. destruct (step_unique (aggregate l) d) as [-> ->].
    rewrite !dom_insert_L, IHp, IHg, !fmap_app, !list_to_set_app_L. simpl.
    rewrite !(right_id_L ∅ (∪)).
    split; apply (comm_L (∪)).
Qed.

Lemma player_keys l p :
  is_Some (Agg.PlayerStats (aggregate l) !! p)
  ↔ ∃ d, d ∈ accepted l ∧ GameData.PlayerID d = p.
Proof.
  rewrite players_closed. unfold player_record, of_player.
  destruct (filter (λ d, GameData.PlayerID d = p) (accepted l)) as [|d evs] eqn:He.
  - split; [by intros [? ?]|]. intros (d & Hin & Hp).
    assert (d ∈ filter (λ d, GameData.PlayerID d = p) (accepted l)) as Hd
      by (by apply list_elem_of_filter).
    rewrite He in Hd. by apply elem_of_nil in Hd.
  - split; [|by eauto]. intros _. exists d.
    assert (d ∈ filter (λ d, GameData.PlayerID d = p) (accepted l)) as Hd
      by (rewrite He; apply list_elem_of_here).
    by apply list_elem_of_filter in Hd as [? ?].
Qed.

Lemma game_keys l g :
  is_Some (Agg.GameStats (aggregate l) !! g)
  ↔ ∃ d, d ∈ accepted l ∧ GameData.GameID d = g.
Proof.
  rewrite games_closed. unfold of_game.
  destruct (filter (λ d, GameData.GameID d = g) (accepted l)) as [|d evs] eqn:He.
  - split; [by intros [? ?]|]. intros (d & Hin & Hp).
    assert (d ∈ filter (λ d, GameData.GameID d = g) (accepted l)) as Hd
      by (by apply list_elem_of_filter).
    rewrite He in Hd. by apply elem_of_nil in Hd.
  - split.
    + intros _. exists d.
      assert (d ∈ filter (λ d, GameData.GameID d = g) (accepted l)) as Hd
        by (rewrite He; apply list_elem_of_here).
      by apply list_elem_of_filter in Hd as [? ?].
    + intros _. by apply game_record_is_Some.
Qed.

End UniqueSets.

Section ReportShape.
Context `{GoTime, GoFmt, GoSort}.

(** X1.  A player has a record in the report exactly when one of its
    entries was counted, and a game likewise: players and games that only
    occur in inert or duplicate entries have no record. *)
Theorem records_exist_iff_counted (l : list GameData.t) (c : string) :
  (∀ p, is_Some (Report.PlayerStats (generateReport l c) !! p)
        ↔ ∃ d, d ∈ accepted l ∧ GameData.PlayerID d = p)
  ∧ (∀ g, is_Some (Report.GameStats (generateReport l c) !! g)
          ↔ ∃ d, d ∈ accepted l ∧ GameData.GameID d = g).
Proof.
  split.
  - intros p. rewrite <- player_keys. cbn [generateReport Report.PlayerStats].
    rewrite lookup_fmap. by rewrite fmap_is_Some.
  - intros g. rewrite <- game_keys. cbn [generateReport Report.GameStats].
    rewrite map_lookup_imap.
    destruct (Agg.GameStats (aggregate l) !! g); simpl; split; intros [? ?]; eauto;
      done.
Qed.

Lemma unique_counts_closed (l : list GameData.t) (c : string) :
  Summary.UniquePlayers (Report.Summary (generateReport l c))
  = Z.of_nat (size (all_players l))
  ∧ Summary.UniqueGames (Report.Summary (generateReport l c))
    = Z.of_nat (size (all_games l)).
Proof.
  destruct (unique_closed l) as [Hp Hg].
  cbn [generateReport Report.Summary summarize Summary.UniquePlayers
       Summary.UniqueGames].
  by rewrite <- Hp, <- Hg, !size_dom.
Qed.

(** X2.  UniquePlayers and UniqueGames of the summary count the distinct
    player and game identifiers over all entries of the stream, inert and
    duplicate ones included; so they are never smaller than the number of
    player and game records. *)
Theorem unique_counts_all_entries (l : list GameData.t) (c : string) :
  let r := generateReport l c in
  Summary.UniquePlayers (Report.Summary r) = Z.of_nat (size (all_players l))
  ∧ Summary.UniqueGames (Report.Summary r) = Z.of_nat (size (all_games l))
  ∧ Z.of_nat (size (Report.PlayerStats r)) ≤ Summary.UniquePlayers (Report.Summary r)
  ∧ Z.of_nat (size (Report.GameStats r)) ≤ Summary.UniqueGames (Report.Summary r).
Proof.
  destruct (unique_counts_closed l c) as [Hp Hg]. cbn zeta.
  rewrite Hp, Hg. split; [done|]. split; [done|].
  cbn [generateReport Report.PlayerStats Report.GameStats].
  rewrite <- !(size_dom (D:=gset string)). split; apply inj_le, subseteq_size.
  - intros p Hin. apply elem_of_dom in Hin. rewrite lookup_fmap, fmap_is_Some in Hin.
    apply player_keys in Hin as (d & Hd & <-).
    unfold all_players. apply elem_of_list_to_set, list_elem_of_fmap.
    exists d. split; [done|]. eapply elem_of_sublist; [done|apply accepted_sublist].
  - intros g Hin. apply elem_of_dom in Hin.
    assert (is_Some (Agg.GameStats (aggregate l) !! g)) as Hs.
    { rewrite map_lookup_imap in Hin.
      destruct (Agg.GameStats (aggregate l) !! g); [eauto|by destruct Hin]. }
    apply game_keys in Hs as (d & Hd & <-).
    unfold all_games. apply elem_of_list_to_set, list_elem_of_fmap.
    exists d. split; [done|]. eapply elem_of_sublist; [done|apply accepted_sublist].
Qed.

(** X3.  Processing more entries never lowers the unique counts: the
    counts for a stream are at most those for any extension of it. *)
Theorem unique_counts_monotone (l more : list GameData.t) (c : string) :
  Summary.UniquePlayers (Report.Summary (generateReport l c))
  ≤ Summary.UniquePlayers (Report.Summary (generateReport (l ++ more) c))
  ∧ Summary.UniqueGames (Report.Summary (generateReport l c))
    ≤ Summary.UniqueGames (Report.Summary (generateReport (l ++ more) c)).
Proof.
  destruct (unique_counts_closed l c) as (-> & ->).
  destruct (unique_counts_closed (l ++ more) c) as (-> & ->).
  unfold all_players, all_games. rewrite !fmap_app, !list_to_set_app_L.
  split; apply inj_le, subseteq_size, union_subseteq_l.
Qed.

End ReportShape.

(** ** Every entry is accounted for once *)

Section Accounting.
Context `{GoTime, GoFmt, GoSort}.

(** X4.  Every Bet entry with a positive amount is either counted in
    TotalBets or counted as a duplicate, never both and never neither, and
    the same holds for Win entries: as long as the stream has fewer than 2^63
    entries, TotalBets plus the duplicate-bet counter is the number of
    positive-amount SendBet entries, and TotalWins plus the duplicate-win
    counter is the number of positive-amount SendWin entries. *)
Theorem counters_account_for_every_entry (l : list GameData.t) (c : string) :
  Z.of_nat (length l) < 2 ^ 63 →
  Summary.TotalBets (Report.Summary (generateReport l c))
    + Agg.duplicateBets (aggregate l)
  = Z.of_nat (length (filter (λ d, is_bet d = true) l))
  ∧ Summary.TotalWins (Report.Summary (generateReport l c))
      + Agg.duplicateWins (aggregate l)
    = Z.of_nat (length (filter (λ d, is_win d = true) l)).
Proof.
  intros Hlen.
  destruct (counters_closed l) as (Hb & Hw & Hdb & Hdw).
  cbn [generateReport Report.Summary summarize Summary.TotalBets Summary.TotalWins].
  rewrite Hb, Hw, Hdb, Hdw, <- bets_partition, <- wins_partition.
  pose proof (bets_partition l) as Hpb. pose proof (wins_partition l) as Hpw.
  pose proof (length_filter (λ d, is_bet d = true) l) as Hfb.
  pose proof (length_filter (λ d, is_win d = true) l) as Hfw.
  rewrite !count64_small by lia. lia.
Qed.

(** X5.  An entry without an identifier is never treated as a duplicate:
    a positive-amount Bet entry whose bet identifier is empty is counted,
    whatever came before it, and leaves the bet ledger as it was; likewise
    for a positive-amount Win entry with an empty win identifier. *)
Theorem empty_identifier_always_counted (l : list GameData.t) (d : GameData.t) :
  (is_bet d = true → GameData.BetID d = "" →
     bet_counted (aggregate l) (aggregate (l ++ [d])) d
     ∧ Agg.duplicateBets (aggregate (l ++ [d])) = Agg.duplicateBets (aggregate l)
     ∧ Agg.uniqueBetIDs (aggregate (l ++ [d])) = Agg.uniqueBetIDs (aggregate l))
  ∧ (is_win d = true → GameData.WinID d = "" →
       win_counted (aggregate l) (aggregate (l ++ [d])) d
       ∧ Agg.duplicateWins (aggregate (l ++ [d])) = Agg.duplicateWins (aggregate l)
       ∧ Agg.uniqueWinIDs (aggregate (l ++ [d])) = Agg.uniqueWinIDs (aggregate l)).
Proof.
  split.
  - intros Hb Hid.
    assert (fate l d = CountedBet) as Hf.
    { unfold fate. rewrite Hb, Hid. done. }
    destruct (counted_bet_effect l d Hf) as [Hc Hdup].
    split; [done|]. split; [done|].
    rewrite aggregate_snoc_fate, Hf. cbn zeta. cbn [count_bet Agg.uniqueBetIDs].
    unfold record_id. by rewrite Hid.
  - intros Hw Hid.
    assert (fate l d = CountedWin) as Hf.
    { unfold fate. rewrite (is_win_not_bet _ Hw), Hw, Hid. done. }
    destruct (counted_win_effect l d Hf) as [Hc Hdup].
    split; [done|]. split; [done|].
    rewrite aggregate_snoc_fate, Hf. cbn zeta. cbn [count_win Agg.uniqueWinIDs].
    unfold record_id. by rewrite Hid.
Qed.

(** X6.  An entry that is neither a SendBet with a positive bet nor a
    SendWin with a positive win changes no bet or win statistic, neither
    ledger and neither duplicate counter; it still joins the unique-player
    and unique-game sets. *)
Theorem inert_entry_changes_no_statistic (l : list GameData.t) (d : GameData.t) :
  is_bet d = false → is_win d = false →
  same_statistics (aggregate l) (aggregate (l ++ [d]))
  ∧ Agg.uniqueBetIDs (aggregate (l ++ [d])) = Agg.uniqueBetIDs (aggregate l)
  ∧ Agg.uniqueWinIDs (aggregate (l ++ [d])) = Agg.uniqueWinIDs (aggregate l)
  ∧ Agg.duplicateBets (aggregate (l ++ [d])) = Agg.duplicateBets (aggregate l)
  ∧ Agg.duplicateWins (aggregate (l ++ [d])) = Agg.duplicateWins (aggregate l)
  ∧ GameData.PlayerID d ∈ dom (Agg.uniquePlayers (aggregate (l ++ [d])))
  ∧ GameData.GameID d ∈ dom (Agg.uniqueGames (aggregate (l ++ [d]))).
Proof.
  intros Hb Hw.
  assert (fate l d = Inert) as Hf by (unfold fate; by rewrite Hb, Hw).
  rewrite aggregate_snoc_fate, Hf. cbn zeta.
  split; [apply observe_same_statistics|].
  repeat (split; [done|]).
  cbn [observe Agg.uniquePlayers Agg.uniqueGames]. rewrite !dom_insert_L.
  split; apply elem_of_union_l, elem_of_singleton; done.
Qed.

End Accounting.

(** ** Totals per player, per game and per hour *)

Lemma filter_comm {A} (P Q : A → Prop) `{∀ x, Decision (P x)} `{∀ x, Decision (Q x)}
    (l : list A) :
  filter P (filter Q l) = filter Q (filter P l).
Proof.
  induction l as [|x l IH]; [done|].
  destruct (decide (P x)) as [HP|HP]; destruct (decide (Q x)) as [HQ|HQ].
  - rewrite (filter_cons_True Q), !(filter_cons_True P), (filter_cons_True Q) by done.
    by rewrite IH.
  - rewrite (filter_cons_False Q), (filter_cons_True P), (filter_cons_False Q) by done.
    done.
  - rewrite (filter_cons_True Q), !(filter_cons_False P) by done. done.
  - rewrite (filter_cons_False Q), (filter_cons_False P) by done. done.
Qed.

Lemma filter_ext_in {A} (P Q : A → Prop) `{∀ x, Decision (P x)} `{∀ x, Decision (Q x)}
    (l : list A) :
  (∀ x, x ∈ l → (P x ↔ Q x)) → filter P l = filter Q l.
Proof.
  induction l as [|x l IH]; intros Hext; [done|].
  assert (filter P l = filter Q l) as IH'.
  { apply IH. intros y Hy. apply Hext. by apply list_elem_of_further. }
  destruct (decide (P x)) as [HP|HP].
  - rewrite (filter_cons_True P), (filter_cons_True Q), IH'; [done| |done].
    apply Hext; [apply list_elem_of_here|done].
  - rewrite (filter_cons_False P), (filter_cons_False Q), IH'; [done| |done].
    intros HQ. apply HP, Hext; [apply list_elem_of_here|done].
Qed.

(** Among counted entries, the wins are the entries that are not bets. *)
Lemma accepted_not_bet_is_win (P : GameData.t → Prop) `{∀ x, Decision (P x)} l :
  filter (λ d, is_bet d ≠ true) (filter P (accepted l)) = filter P (accepted_wins l).
Proof.
  unfold accepted_wins. rewrite (filter_comm (λ d, is_bet d ≠ true) P). f_equal.
  apply filter_ext_in. intros d Hd.
  destruct (accepted_kind l d Hd) as [Hb|[Hb Hw]].
  - rewrite Hb, (is_bet_not_win _ Hb). split; [done|discriminate].
  - rewrite Hb, Hw. done.
Qed.

Lemma accepted_is_bet (P : GameData.t → Prop) `{∀ x, Decision (P x)} l :
  filter (λ d, is_bet d = true) (filter P (accepted l)) = filter P (accepted_bets l).
Proof. unfold accepted_bets. apply filter_comm. Qed.

Lemma filter_snoc_True {A} (P : A → Prop) `{∀ x, Decision (P x)} l x :
  P x → filter P (l ++ [x]) = filter P l ++ [x].
Proof. intros HP. rewrite filter_app. f_equal. by rewrite filter_cons_True. Qed.

Lemma filter_snoc_False {A} (P : A → Prop) `{∀ x, Decision (P x)} l x :
  ¬ P x → filter P (l ++ [x]) = filter P l.
Proof.
  intros HP. rewrite filter_app, filter_cons_False by done. apply app_nil_r.
Qed.

Section Totals.
Context `{GoTime}.

Lemma player_totals_closed evs :
  let ps := fold_left player_entry evs PlayerStat.zero in
  PlayerStat.TotalBets ps = count64 (length (filter (λ d, is_bet d = true) evs))
  ∧ PlayerStat.TotalBetAmount ps
    = sum64 (GameData.Bet <$> filter (λ d, is_bet d = true) evs)
  ∧ PlayerStat.TotalWins ps = count64 (length (filter (λ d, is_bet d ≠ true) evs))
  ∧ PlayerStat.TotalWinAmount ps
    = sum64 (GameData.Win <$> filter (λ d, is_bet d ≠ true) evs).
Proof.
  induction evs as [|d evs IH] using rev_ind; [done|].
  cbn zeta in *. destruct IH as (IH1 & IH2 & IH3 & IH4).
  rewrite fold_left_app. cbn [fold_left].
  destruct (is_bet d) eqn:Hb.
  - assert (player_entry (fold_left player_entry evs PlayerStat.zero) d
            = bet_player (fold_left player_entry evs PlayerStat.zero) d) as ->
      by (unfold player_entry at 1; by rewrite Hb).
    rewrite (filter_snoc_True (λ d, is_bet d = true)) by done.
    rewrite (filter_snoc_False (λ d, is_bet d ≠ true)) by (rewrite Hb; auto).
    rewrite fmap_snoc, sum64_snoc, count64_snoc.
    cbn [bet_player PlayerStat.TotalBets PlayerStat.TotalBetAmount
         PlayerStat.TotalWins PlayerStat.TotalWinAmount].
    by rewrite IH1, IH2, IH3, IH4.
  - assert (player_entry (fold_left player_entry evs PlayerStat.zero) d
            = win_player (fold_left player_entry evs PlayerStat.zero) d) as ->
      by (unfold player_entry at 1; by rewrite Hb).
    rewrite (filter_snoc_False (λ d, is_bet d = true)) by (by rewrite Hb).
    rewrite (filter_snoc_True (λ d, is_bet d ≠ true)) by (by rewrite Hb).
    rewrite fmap_snoc, sum64_snoc, count64_snoc.
    cbn [win_player PlayerStat.TotalBets PlayerStat.TotalBetAmount
         PlayerStat.TotalWins PlayerStat.TotalWinAmount].
    by rewrite IH1, IH2, IH3, IH4.
Qed.

Lemma game_totals_closed evs :
  let gs := default GameStat.zero (game_record evs) in
  GameStat.TotalBets gs = count64 (length (filter (λ d, is_bet d = true) evs))
  ∧ GameStat.TotalBetAmount gs
    = sum64 (GameData.Bet <$> filter (λ d, is_bet d = true) evs)
  ∧ GameStat.TotalWins gs = count64 (length (filter (λ d, is_bet d ≠ true) evs))
  ∧ GameStat.TotalWinAmount gs
    = sum64 (GameData.Win <$> filter (λ d, is_bet d ≠ true) evs).
Proof.
  induction evs as [|d evs IH] using rev_ind; [done|].
  cbn zeta in *. destruct IH as (IH1 & IH2 & IH3 & IH4).
  rewrite game_record_snoc. unfold game_entry.
  destruct (is_bet d) eqn:Hb.
  - rewrite (filter_snoc_True (λ d, is_bet d = true)) by done.
    rewrite (filter_snoc_False (λ d, is_bet d ≠ true)) by (rewrite Hb; auto).
    rewrite fmap_snoc, sum64_snoc, count64_snoc.
    change (default GameStat.zero (Some (bet_game (game_record evs) d)))
      with (bet_game (game_record evs) d).
    cbn [bet_game GameStat.TotalBets GameStat.TotalBetAmount
         GameStat.TotalWins GameStat.TotalWinAmount].
    by rewrite IH1, IH2, IH3, IH4.
  - rewrite (filter_snoc_False (λ d, is_bet d = true)) by (by rewrite Hb).
    rewrite (filter_snoc_True (λ d, is_bet d ≠ true)) by (by rewrite Hb).
    rewrite fmap_snoc, sum64_snoc, count64_snoc.
    change (default GameStat.zero
              (Some (win_game (default GameStat.zero (game_record evs)) d)))
      with (win_game (default GameStat.zero (game_record evs)) d).
    cbn [win_game GameStat.TotalBets GameStat.TotalBetAmount
         GameStat.TotalWins GameStat.TotalWinAmount].
    by rewrite IH1, IH2, IH3, IH4.
Qed.

End Totals.

Section Hours.
Context `{GoTime}.

Lemma observe_lookup s d h :
  Agg.timeStats (observe s d) !! h
  = if decide (hour_of d = h)
    then Some (default (TimeStat.mk h 0 0 0 0) (Agg.timeStats s !! h))
    else Agg.timeStats s !! h.
Proof.
  cbn [observe Agg.timeStats]. case_decide as Hh.
  - subst h. destruct (Agg.timeStats s !! hour_of d) eqn:Ht; [done|].
    by rewrite lookup_insert_eq.
  - destruct (Agg.timeStats s !! hour_of d) eqn:Ht; [done|].
    by rewrite lookup_insert_ne.
Qed.

Lemma time_step l d h :
  Agg.timeStats (aggregate (l ++ [d])) !! h
  = if decide (hour_of d = h)
    then Some (touch (fate l d) d
                 (default (TimeStat.mk h 0 0 0 0) (Agg.timeStats (aggregate l) !! h)))
    else Agg.timeStats (aggregate l) !! h.
Proof.
  rewrite aggregate_snoc_fate. cbn zeta.
  pose proof (observe_lookup (aggregate l) d h) as Ho.
  destruct (fate l d);
    cbn [count_bet count_win skip_duplicate_bet skip_duplicate_win Agg.timeStats touch];
    try exact Ho.
  - case_decide as Hh.
    + subst h. rewrite lookup_insert_eq. unfold get_time. by rewrite Ho.
    + by rewrite lookup_insert_ne.
  - case_decide as Hh.
    + subst h. rewrite lookup_insert_eq. unfold get_time. by rewrite Ho.
    + by rewrite lookup_insert_ne.
Qed.

Lemma in_hour_snoc h l d :
  in_hour h (l ++ [d]) = in_hour h l ++ (if decide (hour_of d = h) then [d] else []).
Proof.
  unfold in_hour. case_decide.
  - by apply filter_snoc_True.
  - rewrite app_nil_r. by apply filter_snoc_False.
Qed.

Lemma bucket_default_ok l h :
  bucket_ok l h
    (default (TimeStat.mk h 0 0 0 0) (Agg.timeStats (aggregate l) !! h)).
Proof.
  induction l as [|d l IH] using rev_ind; [by repeat split|].
  destruct IH as (IH0 & IH1 & IH2 & IH3 & IH4). unfold bucket_ok.
  rewrite time_step, accepted_bets_snoc, accepted_wins_snoc.
  case_decide as Hh.
  - cbn [default from_option id].
    destruct (fate l d) eqn:Hf; cbn [touch];
      repeat (case_bool_decide; try done);
      rewrite ?app_nil_r, ?in_hour_snoc, ?decide_True by done;
      rewrite ?fmap_snoc, ?sum64_snoc, ?count64_snoc;
      cbn [bet_time win_time TimeStat.Hour TimeStat.TotalBets TimeStat.TotalBetAmount
           TimeStat.TotalWins TimeStat.TotalWinAmount];
      rewrite ?IH1, ?IH2, ?IH3, ?IH4; done.
  - repeat (case_bool_decide; try done);
      rewrite ?app_nil_r, ?in_hour_snoc, ?decide_False, ?app_nil_r by done; done.
Qed.

Lemma time_dom l :
  dom (Agg.timeStats (aggregate l)) = list_to_set (hour_of <$> l).
Proof.
  induction l as [|d l IH] using rev_ind; [apply dom_empty_L|].
  rewrite fmap_app, list_to_set_app_L, <- IH. simpl. rewrite (right_id_L ∅ (∪)).
  apply set_eq. intros h.
  rewrite elem_of_dom, time_step, elem_of_union, elem_of_singleton, elem_of_dom.
  case_decide as Hh.
  - split; [auto|eauto].
  - split; [auto|]. intros [?|Hd]; [done|]. by destruct Hh.
Qed.

Lemma time_lookup_ok l h t :
  Agg.timeStats (aggregate l) !! h = Some t → bucket_ok l h t.
Proof.
  intros Ht. pose proof (bucket_default_ok l h) as Hok. by rewrite Ht in Hok.
Qed.

End Hours.

Lemma hours_are_keys (L : list (Z * TimeStat.t)) :
  Forall (λ kv, TimeStat.Hour kv.2 = kv.1) L →
  TimeStat.Hour <$> (snd <$> L) = fst <$> L.
Proof.
  induction 1 as [|[k t] L Hk _ IH]; [done|].
  rewrite !fmap_cons, IH. simpl in *. by rewrite Hk.
Qed.

Lemma sorted_distinct_strict (L : list TimeStat.t) :
  StronglySorted (λ a b, TimeStat.Hour a ≤ TimeStat.Hour b) L →
  NoDup (TimeStat.Hour <$> L) →
  StronglySorted (λ a b, TimeStat.Hour a < TimeStat.Hour b) L.
Proof.
  induction 1 as [|x L HL IH Hx]; intros Hnd; constructor.
  - apply IH. rewrite fmap_cons in Hnd. by apply NoDup_cons in Hnd as [_ ?].
  - rewrite fmap_cons in Hnd. apply NoDup_cons in Hnd as [Hnotin _].
    apply Forall_forall. intros y Hy.
    rewrite Forall_forall in Hx. specialize (Hx y Hy).
    destruct (decide (TimeStat.Hour x = TimeStat.Hour y)) as [He|Hne]; [|lia].
    destruct Hnotin. rewrite He. apply list_elem_of_fmap. eauto.
Qed.

Lemma hour_less_swo : StrictWeakOrder hour_less.
Proof. unfold hour_less. split; intros; rewrite ?Z.ltb_lt, ?Z.ltb_ge in *; lia. Qed.

Lemma flat_map_nil {A B} (f : A → list B) (L : list A) :
  (∀ x, x ∈ L → f x = []) → flat_map f L = [].
Proof.
  induction L as [|x L IH]; intros Hf; [done|]. simpl.
  rewrite (Hf x) by apply list_elem_of_here. apply IH.
  intros y Hy. apply Hf. by apply list_elem_of_further.
Qed.

Section RecordTotals.
Context `{GoTime, GoFmt, GoSort}.

(** X7.  In every player record of the report the bet count and bet
    amount are those of the player's accepted bets, the win count and win
    amount those of the player's accepted wins (counts and sums in the
    64-bit arithmetic of the code), and NetResult is the win amount minus the
    bet amount; every game record holds the same four totals over the
    accepted entries of the game. *)
Theorem record_totals (l : list GameData.t) (c : string) :
  (∀ p ps, Report.PlayerStats (generateReport l c) !! p = Some ps →
     PlayerStat.TotalBets ps = count64 (length (of_player p (accepted_bets l)))
     ∧ PlayerStat.TotalBetAmount ps
       = sum64 (GameData.Bet <$> of_player p (accepted_bets l))
     ∧ PlayerStat.TotalWins ps = count64 (length (of_player p (accepted_wins l)))
     ∧ PlayerStat.TotalWinAmount ps
       = sum64 (GameData.Win <$> of_player p (accepted_wins l))
     ∧ PlayerStat.NetResult ps
       = sub64 (PlayerStat.TotalWinAmount ps) (PlayerStat.TotalBetAmount ps))
  ∧ (∀ g gs, Report.GameStats (generateReport l c) !! g = Some gs →
       GameStat.TotalBets gs = count64 (length (of_game g (accepted_bets l)))
       ∧ GameStat.TotalBetAmount gs
         = sum64 (GameData.Bet <$> of_game g (accepted_bets l))
       ∧ GameStat.TotalWins gs = count64 (length (of_game g (accepted_wins l)))
       ∧ GameStat.TotalWinAmount gs
         = sum64 (GameData.Win <$> of_game g (accepted_wins l))).
Proof.
  split.
  - intros p ps' (ps & Hps & ->)%report_player.
    rewrite players_closed in Hps.
    assert (ps = fold_left player_entry (of_player p (accepted l)) PlayerStat.zero)
      as -> by (rewrite <- player_record_default, Hps; done).
    destruct (player_totals_closed (of_player p (accepted l))) as (T1 & T2 & T3 & T4).
    unfold of_player in *.
    rewrite accepted_is_bet in T1, T2. rewrite accepted_not_bet_is_win in T3, T4.
    cbn [finalize_player PlayerStat.TotalBets PlayerStat.TotalBetAmount
         PlayerStat.TotalWins PlayerStat.TotalWinAmount PlayerStat.NetResult].
    by rewrite T1, T2, T3, T4.
  - intros g gs' (gs & Hgs & ->)%report_game.
    rewrite games_closed in Hgs.
    destruct (game_totals_closed (of_game g (accepted l))) as (T1 & T2 & T3 & T4).
    rewrite Hgs in T1, T2, T3, T4. cbn [default from_option id] in T1, T2, T3, T4.
    unfold of_game in *.
    rewrite accepted_is_bet in T1, T2. rewrite accepted_not_bet_is_win in T3, T4.
    cbn [finalize_game GameStat.TotalBets GameStat.TotalBetAmount
         GameStat.TotalWins GameStat.TotalWinAmount].
    by rewrite T1, T2, T3, T4.
Qed.

(** X8.  A player with at most 100 accepted bets is never flagged: when
    no player of the stream has more than 100 accepted bets, the report has
    no suspicious event, whatever the RTP values are. *)
Theorem no_flag_below_volume (l : list GameData.t) (c : string) :
  (∀ p, (length (of_player p (accepted_bets l)) ≤ 100)%nat) →
  Report.SuspiciousEvents (generateReport l c) = [].
Proof.
  intros Hvol. cbn [generateReport Report.SuspiciousEvents].
  apply flat_map_nil. intros [p ps'] Hin. apply elem_of_map_to_list in Hin.
  rewrite lookup_fmap in Hin.
  destruct (Agg.PlayerStats (aggregate l) !! p) as [ps|] eqn:Hps; [|done].
  injection Hin as <-. rewrite players_closed in Hps.
  assert (ps = fold_left player_entry (of_player p (accepted l)) PlayerStat.zero)
    as -> by (rewrite <- player_record_default, Hps; done).
  destruct (player_totals_closed (of_player p (accepted l))) as (T1 & _).
  specialize (Hvol p).
  unfold detect. cbn [fst snd finalize_player PlayerStat.TotalBets].
  unfold of_player in *. rewrite accepted_is_bet in T1.
  rewrite T1, count64_small by lia.
  rewrite (proj2 (Z.ltb_ge _ _)) by lia. done.
Qed.

End RecordTotals.

Section HourClaims.
Context `{GoTime, GoFmt, GoSort}.
Context {laws : GoSortLaws}.

Lemma time_stats_elem l c t :
  t ∈ Report.TimeStats (generateReport l c)
  ↔ ∃ h, Agg.timeStats (aggregate l) !! h = Some t.
Proof.
  cbn [generateReport Report.TimeStats]. rewrite sort_Slice_perm.
  rewrite list_elem_of_fmap. split.
  - intros ([h t'] & -> & Hin). exists h. by apply elem_of_map_to_list.
  - intros (h & Hh). exists (h, t). split; [done|]. by apply elem_of_map_to_list.
Qed.

Lemma time_stats_strictly_sorted l c :
  StronglySorted (λ a b, TimeStat.Hour a < TimeStat.Hour b)
    (Report.TimeStats (generateReport l c)).
Proof.
  apply sorted_distinct_strict.
  - cbn [generateReport Report.TimeStats].
    eapply StronglySorted_impl; [|apply (sort_Slice_sorted hour_less), hour_less_swo].
    unfold hour_less. intros x y Hxy. apply Z.ltb_ge in Hxy. done.
  - cbn [generateReport Report.TimeStats]. rewrite sort_Slice_perm.
    rewrite hours_are_keys; [apply NoDup_fst_map_to_list|].
    apply Forall_forall. intros [h t] Hin. apply elem_of_map_to_list in Hin.
    by destruct (time_lookup_ok l h t Hin).
Qed.

Lemma time_stats_bucket l c t :
  t ∈ Report.TimeStats (generateReport l c) → bucket_ok l (TimeStat.Hour t) t.
Proof.
  intros (h & Ht)%time_stats_elem.
  pose proof (time_lookup_ok l h t Ht) as Hok.
  destruct Hok as [Hk Hrest]. rewrite Hk. by split.
Qed.

Lemma time_stats_hour l c h :
  (∃ t, t ∈ Report.TimeStats (generateReport l c) ∧ TimeStat.Hour t = h)
  ↔ ∃ d, d ∈ l ∧ hour_of d = h.
Proof.
  split.
  - intros (t & (h' & Ht)%time_stats_elem & Hh).
    destruct (time_lookup_ok l h' t Ht) as [Hk _].
    assert (h ∈ dom (Agg.timeStats (aggregate l))) as Hd.
    { apply elem_of_dom. rewrite <- Hh, Hk. eauto. }
    rewrite time_dom in Hd. apply elem_of_list_to_set, list_elem_of_fmap in Hd.
    destruct Hd as (d & -> & Hd). eauto.
  - intros (d & Hd & Hh).
    assert (h ∈ dom (Agg.timeStats (aggregate l))) as Hdom.
    { rewrite time_dom. apply elem_of_list_to_set, list_elem_of_fmap. eauto. }
    apply elem_of_dom in Hdom as [t Ht]. exists t. split.
    + apply time_stats_elem. eauto.
    + by destruct (time_lookup_ok l h t Ht).
Qed.

(** X9.  TimeStats lists the hour buckets in strictly ascending order of
    hour, so no hour occurs twice, and it has a record for exactly the hours
    that some entry of the stream falls into, whether or not that entry was
    counted. *)
Theorem time_stats_ascending (l : list GameData.t) (c : string) :
  StronglySorted (λ a b, TimeStat.Hour a < TimeStat.Hour b)
    (Report.TimeStats (generateReport l c))
  ∧ ∀ h, (∃ t, t ∈ Report.TimeStats (generateReport l c) ∧ TimeStat.Hour t = h)
         ↔ ∃ d, d ∈ l ∧ hour_of d = h.
Proof.
  split; [apply time_stats_strictly_sorted|]. intros h. apply time_stats_hour.
Qed.

(** X10.  Each record of TimeStats holds, for its hour, the number and the
    summed amount of the accepted bets and of the accepted wins whose
    timestamp falls into that hour of the day, over the whole stream and
    regardless of the date. *)
Theorem hour_bucket_totals (l : list GameData.t) (c : string) (t : TimeStat.t) :
  t ∈ Report.TimeStats (generateReport l c) →
  TimeStat.TotalBets t = count64 (length (in_hour (TimeStat.Hour t) (accepted_bets l)))
  ∧ TimeStat.TotalBetAmount t
    = sum64 (GameData.Bet <$> in_hour (TimeStat.Hour t) (accepted_bets l))
  ∧ TimeStat.TotalWins t
    = count64 (length (in_hour (TimeStat.Hour t) (accepted_wins l)))
  ∧ TimeStat.TotalWinAmount t
    = sum64 (GameData.Win <$> in_hour (TimeStat.Hour t) (accepted_wins l)).
Proof.
  intros Ht. by destruct (time_stats_bucket l c t Ht) as (_ & T1 & T2 & T3 & T4).
Qed.

Lemma accepted_inert (l : list GameData.t) :
  Forall (λ d, is_bet d = false ∧ is_win d = false) l → accepted l = [].
Proof.
  intros Hl. destruct (accepted l) as [|d ds] eqn:He; [done|].
  assert (d ∈ accepted l) as Hd by (rewrite He; apply list_elem_of_here).
  assert (d ∈ l) as Hin by (eapply elem_of_sublist; [done|apply accepted_sublist]).
  rewrite Forall_forall in Hl. destruct (Hl d Hin) as [Hb Hw].
  destruct (accepted_kind l d Hd) as [Hb'|[_ Hw']]; congruence.
Qed.

(** The report of the empty stream. *)
Lemma report_of_empty_stream (c : string) :
  generateReport [] c
  = {| Report.Summary := Summary.mk 0 0 0 0 0 f64_zero 0 0 "";
       Report.PlayerStats := ∅;
       Report.GameStats := ∅;
       Report.TimeStats := [];
       Report.SuspiciousEvents := [] |}.
Proof.
  unfold generateReport. cbn [aggregate fold_left Agg.init Agg.PlayerStats
    Agg.GameStats Agg.timeStats].
  rewrite fmap_empty, map_imap_empty, !map_to_list_empty. cbn [fmap list_fmap flat_map].
  rewrite (proj1 (Permutation_nil_r _) (sort_Slice_perm hour_less [])). done.
Qed.

(** X11.  A stream without a SendBet entry of positive bet and without a
    SendWin entry of positive win, such as a log of session messages only,
    gives a report whose totals, net result and RTP are 0, with no player
    record, no game record and no suspicious event, and whose hour records
    all have zero counters; the empty stream is one such stream. *)
Theorem report_without_counted_entries (l : list GameData.t) (c : string) :
  Forall (λ d, is_bet d = false ∧ is_win d = false) l →
  let r := generateReport l c in
  Summary.TotalBets (Report.Summary r) = 0
  ∧ Summary.TotalWins (Report.Summary r) = 0
  ∧ Summary.TotalBetAmount (Report.Summary r) = 0
  ∧ Summary.TotalWinAmount (Report.Summary r) = 0
  ∧ Summary.NetResult (Report.Summary r) = 0
  ∧ Summary.RTP (Report.Summary r) = f64_zero
  ∧ Report.PlayerStats r = ∅
  ∧ Report.GameStats r = ∅
  ∧ Report.SuspiciousEvents r = []
  ∧ Forall (λ t, TimeStat.TotalBets t = 0 ∧ TimeStat.TotalBetAmount t = 0
                 ∧ TimeStat.TotalWins t = 0 ∧ TimeStat.TotalWinAmount t = 0)
      (Report.TimeStats r).
Proof.
  intros Hl r. pose proof (accepted_inert l Hl) as Hacc.
  assert (accepted_bets l = []) as Hab by (unfold accepted_bets; by rewrite Hacc).
  assert (accepted_wins l = []) as Haw by (unfold accepted_wins; by rewrite Hacc).
  destruct (counters_closed l) as (Cb & Cw & _ & _).
  destruct (totals_closed l) as (Tb & Tw).
  rewrite Hab in Cb, Tb. rewrite Haw in Cw, Tw.
  assert (Agg.PlayerStats (aggregate l) = ∅) as Hps.
  { apply map_empty. intros p. rewrite players_closed. unfold of_player.
    by rewrite Hacc. }
  assert (Agg.GameStats (aggregate l) = ∅) as Hgs.
  { apply map_empty. intros g. rewrite games_closed. unfold of_game.
    by rewrite Hacc. }
  subst r.
  cbn [generateReport Report.Summary Report.PlayerStats Report.GameStats
       Report.SuspiciousEvents summarize Summary.TotalBets Summary.TotalWins
       Summary.TotalBetAmount Summary.TotalWinAmount Summary.NetResult Summary.RTP].
  rewrite Cb, Cw, Tb, Tw, Hps, Hgs.
  rewrite fmap_empty, map_imap_empty, map_to_list_empty.
  repeat (split; [done|]).
  apply Forall_forall. intros t Ht.
  destruct (time_stats_bucket l c t Ht) as (_ & T1 & T2 & T3 & T4).
  unfold in_hour in *. rewrite Hab in T1, T2. rewrite Haw in T3, T4.
  done.
Qed.

Lemma in_hour_length l h :
  (length (in_hour h (accepted_bets l)) ≤ length l)%nat.
Proof.
  unfold in_hour, accepted_bets.
  etrans; [apply length_filter|]. etrans; [apply length_filter|].
  apply sublist_length, accepted_sublist.
Qed.

Lemma hourly_activity_elem (r : Report.t) (c : string) (ln : HourLine.t) :
  ln ∈ hourly_activity r c
  ↔ ∃ t, t ∈ Report.TimeStats r ∧ 0 < TimeStat.TotalBets t
         ∧ ln = HourLine.mk (TimeStat.Hour t) (TimeStat.TotalBets t)
                  (TimeStat.TotalWins t)
                  (formatCurrency (TimeStat.TotalBetAmount t)) c.
Proof.
  unfold hourly_activity. rewrite list_elem_of_In, in_flat_map. split.
  - intros (t & Ht%list_elem_of_In & Hln). exists t. split; [done|].
    destruct (0 <? TimeStat.TotalBets t) eqn:Hpos; [|by destruct Hln].
    apply Z.ltb_lt in Hpos. split; [done|]. by destruct Hln as [<-|[]].
  - intros (t & Ht & Hpos & ->). exists t. split; [by apply list_elem_of_In|].
    rewrite (proj2 (Z.ltb_lt _ _) Hpos). by left.
Qed.

Lemma hourly_activity_sorted (r : Report.t) (c : string) :
  StronglySorted (λ a b, TimeStat.Hour a < TimeStat.Hour b) (Report.TimeStats r) →
  StronglySorted (λ a b, HourLine.Hour a < HourLine.Hour b) (hourly_activity r c).
Proof.
  unfold hourly_activity.
  induction (Report.TimeStats r) as [|t ts IH]; intros Hs; [constructor|].
  apply StronglySorted_cons in Hs as [Ht Hs]. cbn [flat_map].
  set (rest := flat_map _ ts) in *.
  assert (Forall (λ ln, TimeStat.Hour t < HourLine.Hour ln) rest) as Hrest.
  { apply Forall_forall. intros ln Hln. unfold rest in Hln.
    apply list_elem_of_In, in_flat_map in Hln as (t' & Ht'%list_elem_of_In & Hln).
    rewrite Forall_forall in Ht. specialize (Ht t' Ht').
    destruct (0 <? TimeStat.TotalBets t'); [|by destruct Hln].
    by destruct Hln as [<-|[]]. }
  destruct (0 <? TimeStat.TotalBets t).
  - cbn [app]. apply StronglySorted_cons. split; [done|by apply IH].
  - by apply IH.
Qed.

(** X20.  The hourly section of the printed report has a line for exactly
    the hours in which a bet was counted, in ascending order of hour, and the
    line shows the number of bets counted in that hour; an hour in which only
    wins were counted is not printed (for a stream of fewer than 2^63
    entries, so that no counter wraps around). *)
Theorem hourly_activity_shows_bet_hours (l : list GameData.t) (c : string) :
  Z.of_nat (length l) < 2 ^ 63 →
  let lines := hourly_activity (generateReport l c) c in
  StronglySorted (λ a b, HourLine.Hour a < HourLine.Hour b) lines
  ∧ (∀ h, (∃ ln, ln ∈ lines ∧ HourLine.Hour ln = h)
          ↔ ∃ d, d ∈ accepted_bets l ∧ hour_of d = h)
  ∧ Forall (λ ln, HourLine.Bets ln
                  = Z.of_nat (length (in_hour (HourLine.Hour ln) (accepted_bets l))))
      lines.
Proof.
  intros Hlen lines. subst lines.
  assert (∀ t, t ∈ Report.TimeStats (generateReport l c) →
            TimeStat.TotalBets t
            = Z.of_nat (length (in_hour (TimeStat.Hour t) (accepted_bets l)))) as Hbets.
  { intros t Ht. destruct (time_stats_bucket l c t Ht) as (_ & T1 & _).
    rewrite T1. apply count64_small.
    pose proof (in_hour_length l (TimeStat.Hour t)). lia. }
  split; [apply hourly_activity_sorted, time_stats_strictly_sorted|]. split.
  - intros h. split.
    + intros (ln & (t & Ht & Hpos & ->)%hourly_activity_elem & Hh).
      cbn [HourLine.Hour] in Hh. rewrite (Hbets t Ht), Hh in Hpos.
      destruct (in_hour h (accepted_bets l)) as [|d ds] eqn:Hd; [simpl in Hpos; lia|].
      assert (d ∈ in_hour h (accepted_bets l)) as Hin
        by (rewrite Hd; apply list_elem_of_here).
      apply list_elem_of_filter in Hin as [Hhour Hin]. eauto.
    + intros (d & Hd & Hh).
      assert (d ∈ l) as Hdl.
      { apply list_elem_of_filter in Hd as [_ Hd].
        eapply elem_of_sublist; [done|apply accepted_sublist]. }
      destruct (proj2 (time_stats_hour l c h)) as (t & Ht & Hth); [eauto|].
      eexists. split.
      * apply hourly_activity_elem. exists t. split; [done|]. split; [|done].
        rewrite (Hbets t Ht), Hth.
        assert (d ∈ in_hour h (accepted_bets l)) as Hin
          by (by apply list_elem_of_filter).
        destruct (in_hour h (accepted_bets l)); [by apply elem_of_nil in Hin|].
        simpl. lia.
      * done.
  - apply Forall_forall.
    intros ln (t & Ht & Hpos & ->)%hourly_activity_elem.
    cbn [HourLine.Bets HourLine.Hour]. by apply Hbets.
Qed.

End HourClaims.

(** * Printing amounts *)

Lemma string_app_cons c (s1 s2 : string) : String c s1 +:+ s2 = String c (s1 +:+ s2).
Proof. reflexivity. Qed.

Lemma string_app_assoc (s1 s2 s3 : string) : (s1 +:+ s2) +:+ s3 = s1 +:+ (s2 +:+ s3).
Proof.
  induction s1 as [|c s1 IH]; [done|]. rewrite !string_app_cons. by f_equal.
Qed.

Lemma string_app_length (s1 s2 : string) :
  String.length (s1 +:+ s2) = (String.length s1 + String.length s2)%nat.
Proof.
  induction s1 as [|c s1 IH]; [done|]. rewrite string_app_cons. simpl. by f_equal.
Qed.

Lemma commas_from_app n i s1 s2 :
  commas_from n i (s1 +:+ s2)
  = commas_from n i s1 +:+ commas_from n (i + Z.of_nat (String.length s1)) s2.
Proof.
  revert i. induction s1 as [|c s1 IH]; intros i.
  - simpl. by rewrite Z.add_0_r.
  - change (String c s1 +:+ s2) with (String c (s1 +:+ s2)).
    cbn [commas_from String.length].
    rewrite IH. replace (i + 1 + Z.of_nat (String.length s1))
      with (i + Z.of_nat (S (String.length s1))) by lia.
    by destruct ((0 <? i) && ((n - i) mod 3 =? 0)).
Qed.

Lemma commas_from_period n i s : commas_from (n + 3) i s = commas_from n i s.
Proof.
  revert i. induction s as [|c s IH]; intros i; [done|].
  cbn [commas_from]. rewrite IH.
  replace ((n + 3 - i) mod 3) with ((n - i) mod 3); [done|].
  replace (n + 3 - i) with (n - i + 1 * 3) by lia. by rewrite Z.mod_add.
Qed.

Lemma commas_from_shift n i s :
  0 < i → commas_from (n + 1) (i + 1) s = commas_from n i s.
Proof.
  revert i. induction s as [|c s IH]; intros i Hi; [done|].
  cbn [commas_from]. rewrite IH by lia.
  replace (n + 1 - (i + 1)) with (n - i) by lia.
  rewrite (proj2 (Z.ltb_lt 0 i)), (proj2 (Z.ltb_lt 0 (i + 1))) by lia. done.
Qed.

(** A numeral of at most three bytes goes through the loop unchanged, so
    the early return of line 698 does not change the result. *)
Lemma commas_from_short s :
  (String.length s ≤ 3)%nat → commas_from (Z.of_nat (String.length s)) 0 s = s.
Proof.
  destruct s as [|a [|b [|c [|d s]]]]; intros Hlen; try done.
  simpl in Hlen. lia.
Qed.

Lemma formatCurrency_loop amount :
  formatCurrency amount
  = commas_from (Z.of_nat (String.length (FormatInt amount))) 0 (FormatInt amount).
Proof.
  unfold formatCurrency. cbn zeta.
  destruct (Z.of_nat (String.length (FormatInt amount)) <=? 3) eqn:Hn; [|done].
  apply Z.leb_le in Hn. rewrite commas_from_short; [done|lia].
Qed.

Lemma strip_commas_from n i s : strip_commas (commas_from n i s) = strip_commas s.
Proof.
  revert i. induction s as [|c s IH]; intros i; [done|].
  cbn [commas_from].
  destruct ((0 <? i) && ((n - i) mod 3 =? 0)); cbn [strip_commas];
    rewrite ?Ascii.eqb_refl; cbn [strip_commas]; by rewrite IH.
Qed.

Lemma pretty_N_char_not_comma x : Ascii.eqb (pretty_N_char x) ","%char = false.
Proof. unfold pretty_N_char. by repeat case_match. Qed.

Lemma strip_pretty_N_go x s :
  strip_commas (pretty_N_go x s) = pretty_N_go x (strip_commas s).
Proof.
  revert s. induction (N.lt_wf_0 x) as [x _ IH]; intros s.
  assert (x = 0 ∨ 0 < x)%N as [->|Hx] by lia; [by rewrite !pretty_N_go_0|].
  rewrite (pretty_N_go_step x s), (pretty_N_go_step x (strip_commas s)) by done.
  rewrite IH by (by apply N.div_lt).
  cbn [strip_commas]. by rewrite pretty_N_char_not_comma.
Qed.

Lemma strip_FormatInt n : strip_commas (FormatInt n) = FormatInt n.
Proof.
  unfold FormatInt, pretty, pretty_Z, pretty, pretty_positive, pretty, pretty_N.
  destruct n as [|p|p]; [done|..].
  - rewrite decide_False by done. by rewrite strip_pretty_N_go.
  - rewrite decide_False by done.
    change ("-" +:+ pretty_N_go (N.pos p) "")
      with (String "-"%char (pretty_N_go (N.pos p) "")).
    cbn [strip_commas]. change (Ascii.eqb "-" ",") with false. cbn iota.
    by rewrite strip_pretty_N_go.
Qed.

Lemma pretty_N_go_app x s : pretty_N_go x s = pretty_N_go x "" +:+ s.
Proof.
  revert s. induction (N.lt_wf_0 x) as [x _ IH]; intros s.
  assert (x = 0 ∨ 0 < x)%N as [->|Hx] by lia; [by rewrite !pretty_N_go_0|].
  rewrite (pretty_N_go_step x s), (pretty_N_go_step x "") by done.
  rewrite (IH _ (N.div_lt x 10 Hx eq_refl) (String _ s)).
  rewrite (IH _ (N.div_lt x 10 Hx eq_refl) (String _ "")).
  by rewrite string_app_assoc.
Qed.

Lemma FormatInt_pos n : 0 < n → FormatInt n = pretty_N_go (Z.to_N n) "".
Proof.
  destruct n as [|p|p]; try lia. intros _.
  unfold FormatInt, pretty, pretty_Z, pretty, pretty_positive, pretty, pretty_N.
  by rewrite decide_False.
Qed.

Lemma FormatInt_neg n : n < 0 → FormatInt n = "-" +:+ FormatInt (- n).
Proof. destruct n as [|p|p]; try lia. done. Qed.

Lemma pretty_N_go_step_Z n s :
  0 < n →
  pretty_N_go (Z.to_N n) s
  = pretty_N_go (Z.to_N (n / 10)) (String (pretty_N_char (Z.to_N (n mod 10))) s).
Proof.
  intros Hn. rewrite pretty_N_go_step by lia.
  rewrite Z2N.inj_div, Z2N.inj_mod by lia. done.
Qed.

Lemma FormatInt_thousands q r :
  0 < q → 0 ≤ r < 1000 → FormatInt (1000 * q + r) = FormatInt q +:+ digits3 r.
Proof.
  intros Hq Hr. rewrite !FormatInt_pos by lia.
  rewrite (pretty_N_go_step_Z (1000 * q + r)) by lia.
  assert ((1000 * q + r) / 10 = 100 * q + r / 10) as ->.
  { replace (1000 * q + r) with (r + (100 * q) * 10) by lia.
    rewrite Z.div_add by lia. lia. }
  assert ((1000 * q + r) mod 10 = r mod 10) as ->.
  { replace (1000 * q + r) with (r + (100 * q) * 10) by lia.
    by rewrite Z.mod_add by lia. }
  pose proof (Z.div_pos r 10 ltac:(lia) ltac:(lia)) as Hr10.
  rewrite (pretty_N_go_step_Z (100 * q + r / 10)) by lia.
  assert ((100 * q + r / 10) / 10 = 10 * q + r / 100) as ->.
  { replace (100 * q + r / 10) with (r / 10 + (10 * q) * 10) by lia.
    rewrite Z.div_add by lia. rewrite Z.div_div by lia.
    change (10 * 10) with 100. lia. }
  assert ((100 * q + r / 10) mod 10 = (r / 10) mod 10) as ->.
  { replace (100 * q + r / 10) with (r / 10 + (10 * q) * 10) by lia.
    by rewrite Z.mod_add by lia. }
  pose proof (Z.div_pos r 100 ltac:(lia) ltac:(lia)) as Hr100.
  assert (r / 100 < 10) as Hr100' by (apply Z.div_lt_upper_bound; lia).
  rewrite (pretty_N_go_step_Z (10 * q + r / 100)) by lia.
  assert ((10 * q + r / 100) / 10 = q) as ->.
  { replace (10 * q + r / 100) with (r / 100 + q * 10) by lia.
    rewrite Z.div_add, Z.div_small by lia. lia. }
  assert ((10 * q + r / 100) mod 10 = r / 100) as ->.
  { replace (10 * q + r / 100) with (r / 100 + q * 10) by lia.
    rewrite Z.mod_add, Z.mod_small by lia. done. }
  apply pretty_N_go_app.
Qed.

Lemma FormatInt_nonempty n : (1 ≤ String.length (FormatInt n))%nat.
Proof.
  assert (∀ x s, (0 < x)%N → (1 ≤ String.length (pretty_N_go x s))%nat) as Hgo.
  { intros x s Hx. rewrite pretty_N_go_step, pretty_N_go_app by done.
    rewrite string_app_length. simpl. lia. }
  destruct n as [|p|p]; [simpl; lia|..].
  - rewrite FormatInt_pos by lia. apply Hgo. lia.
  - rewrite FormatInt_neg by lia. simpl. lia.
Qed.

Lemma FormatInt_small_length a :
  0 ≤ a < 1000 → (String.length (FormatInt a) ≤ 3)%nat.
Proof.
  intros Ha. destruct (decide (a = 0)) as [->|Hne]; [simpl; lia|].
  rewrite FormatInt_pos, pretty_N_go_step_Z by lia.
  destruct (decide (a / 10 = 0)) as [->|Hq1]; [simpl; lia|].
  assert (0 < a / 10 < 100) as Hb.
  { split; [pose proof (Z.div_pos a 10); lia | apply Z.div_lt_upper_bound; lia]. }
  rewrite pretty_N_go_step_Z by lia.
  destruct (decide (a / 10 / 10 = 0)) as [->|Hq2]; [simpl; lia|].
  assert (0 < a / 10 / 10 < 10) as Hc.
  { split; [pose proof (Z.div_pos (a / 10) 10); lia
           | apply Z.div_lt_upper_bound; lia]. }
  rewrite pretty_N_go_step_Z by lia.
  rewrite (Z.div_small (a / 10 / 10) 10) by lia. simpl. lia.
Qed.

(** X12.  Taking the commas out of a formatted amount gives back its
    decimal numeral: formatting only inserts commas, it never drops or alters
    a digit or the sign. *)
Theorem formatCurrency_only_adds_commas (amount : Z) :
  strip_commas (formatCurrency amount) = FormatInt amount.
Proof. by rewrite formatCurrency_loop, strip_commas_from, strip_FormatInt. Qed.

(** X13.  Non-negative amounts are grouped in thousands from the right: an
    amount below 1000 is printed as its numeral, and for a larger amount the
    output is the formatted quotient by 1000, a comma, and the three digits
    of the remainder. *)
Theorem formatCurrency_groups_of_three :
  (∀ a, 0 ≤ a < 1000 → formatCurrency a = FormatInt a)
  ∧ (∀ q r, 0 < q → 0 ≤ r < 1000 →
       formatCurrency (1000 * q + r) = formatCurrency q +:+ "," +:+ digits3 r).
Proof.
  split.
  - intros a Ha. unfold formatCurrency. cbn zeta.
    pose proof (FormatInt_small_length a Ha) as Hlen.
    rewrite (proj2 (Z.leb_le _ 3)) by lia. done.
  - intros q r Hq Hr.
    rewrite (formatCurrency_loop (1000 * q + r)), (formatCurrency_loop q).
    rewrite FormatInt_thousands by done.
    pose proof (FormatInt_nonempty q) as Hne.
    rewrite string_app_length, commas_from_app.
    change (String.length (digits3 r)) with 3%nat.
    replace (Z.of_nat (String.length (FormatInt q) + 3))
      with (Z.of_nat (String.length (FormatInt q)) + 3) by lia.
    rewrite commas_from_period. f_equal.
    unfold digits3. cbn [commas_from].
    set (p := Z.of_nat (String.length (FormatInt q))).
    replace (p + 3 - (0 + p)) with 3 by lia.
    replace (p + 3 - (0 + p + 1)) with 2 by lia.
    replace (p + 3 - (0 + p + 1 + 1)) with 1 by lia.
    rewrite (proj2 (Z.ltb_lt 0 (0 + p))) by lia.
    change (3 mod 3 =? 0) with true. change (2 mod 3 =? 0) with false.
    change (1 mod 3 =? 0) with false. rewrite !andb_false_r. done.
Qed.

(** X14.  A negative amount is printed as a minus sign followed by the
    formatted absolute value, except that a comma also follows the minus sign
    when the number of digits is a multiple of three: -1234 gives "-1,234"
    but -500 gives "-,500". *)
Theorem formatCurrency_negative (amount : Z) :
  amount < 0 →
  formatCurrency amount
  = "-" +:+ (if Z.of_nat (String.length (FormatInt (- amount))) mod 3 =? 0
             then "," else "")
        +:+ formatCurrency (- amount).
Proof.
  intros Hneg.
  rewrite (formatCurrency_loop amount), (formatCurrency_loop (- amount)).
  rewrite (FormatInt_neg amount) by done.
  pose proof (FormatInt_nonempty (- amount)) as Hne.
  destruct (FormatInt (- amount)) as [|c D] eqn:HD; [simpl in Hne; lia|].
  set (m := Z.of_nat (String.length (String c D))).
  change ("-" +:+ String c D) with (String "-"%char (String c D)).
  replace (Z.of_nat (String.length (String "-"%char (String c D)))) with (m + 1)
    by (unfold m; cbn [String.length]; lia).
  cbn [commas_from].
  change (0 <? 0) with false. change (0 <? 0 + 1) with true. cbn [andb].
  replace (m + 1 - (0 + 1)) with m by lia.
  replace (0 + 1 + 1) with (1 + 1) by lia.
  rewrite (commas_from_shift m 1 D) by lia.
  replace (0 + 1) with 1 by lia.
  by destruct (m mod 3 =? 0).
Qed.

(** * Reading and decoding *)

Section ReadingFacts.
Context {Any E : Type} `{GoIO Any E}.

Lemma parse_from_app acc (l1 l2 : list (LogEntry.t Any)) :
  parse_from acc (l1 ++ l2)
  = match parse_from acc l1 with
    | Ok gd => parse_from gd l2
    | Err e => Err e
    end.
Proof.
  revert acc. induction l1 as [|x l1 IH]; intros acc; [done|].
  cbn [app parse_from]. case_bool_decide; [apply IH|].
  destruct (Unmarshal_GameData (LogEntry.Line x)); [apply IH|done].
Qed.

Lemma parse_from_ok acc (logs : list (LogEntry.t Any)) gd :
  parse_from acc logs = Ok gd
  ↔ ∃ new, gd = acc ++ new
           ∧ Forall2 (λ e d, Unmarshal_GameData (LogEntry.Line e) = Ok d)
               (filter (λ e, LogEntry.Line e ≠ "") logs) new.
Proof.
  revert acc. induction logs as [|x logs IH]; intros acc.
  - cbn [parse_from]. rewrite filter_nil. split.
    + intros [= <-]. exists []. by rewrite app_nil_r.
    + intros (new & -> & ->%Forall2_nil_inv_l). by rewrite app_nil_r.
  - cbn [parse_from]. case_bool_decide as Hline.
    + rewrite filter_cons_False by (intros Hn; by apply Hn). apply IH.
    + rewrite filter_cons_True by done.
      destruct (Unmarshal_GameData (LogEntry.Line x)) as [d|e] eqn:Hx.
      * rewrite IH. split.
        -- intros (new & -> & Hnew). exists (d :: new).
           split; [by rewrite <- app_assoc|]. by constructor.
        -- intros (new & -> & Hnew).
           apply Forall2_cons_inv_l in Hnew as (d' & new' & Hd & Hnew & ->).
           rewrite Hx in Hd. injection Hd as <-.
           exists new'. split; [by rewrite <- app_assoc|done].
      * split; [done|]. intros (new & _ & Hnew).
        apply Forall2_cons_inv_l in Hnew as (d' & new' & Hd & _).
        by rewrite Hx in Hd.
Qed.

(** X15.  [parseGameData] succeeds exactly when every entry with a
    non-empty line decodes, and then returns the decoded lines in the order
    of the log; entries whose line is empty are skipped without being handed
    to the decoder. *)
Theorem parseGameData_decodes_nonempty_lines (logs : list (LogEntry.t Any))
    (gameData : list GameData.t) :
  parseGameData logs = Ok gameData
  ↔ Forall2 (λ e d, Unmarshal_GameData (LogEntry.Line e) = Ok d)
      (filter (λ e, LogEntry.Line e ≠ "") logs) gameData.
Proof.
  unfold parseGameData. rewrite parse_from_ok. split.
  - by intros (new & -> & Hnew).
  - intros Hnew. by exists gameData.
Qed.

(** X16.  Decoding stops at the first line that does not decode: the
    result is that line's error, wrapped as "unmarshaling", however many
    lines were decoded before it and whatever follows it. *)
Theorem parseGameData_fails_fast (before after : list (LogEntry.t Any))
    (bad : LogEntry.t Any) (decoded : list GameData.t) (e : Error E) :
  parseGameData before = Ok decoded →
  LogEntry.Line bad ≠ "" →
  Unmarshal_GameData (LogEntry.Line bad) = Err e →
  parseGameData (before ++ bad :: after) = Err (Wrap "unmarshaling" e).
Proof.
  unfold parseGameData. intros Hbefore Hline Hbad.
  rewrite parse_from_app, Hbefore. cbn [parse_from].
  rewrite bool_decide_eq_false_2 by done. by rewrite Hbad.
Qed.

Lemma read_fold_closed (fileNames : list string) (acc : list (LogEntry.t Any)) :
  fold_left
    (λ allLogs fileName,
       match readLogsEntry fileName with
       | Err _ => allLogs
       | Ok logs => allLogs ++ logs
       end) fileNames acc
  = acc ++ readable_logs fileNames.
Proof.
  revert acc. unfold readable_logs.
  induction fileNames as [|f fs IH]; intros acc.
  - simpl. by rewrite app_nil_r.
  - cbn [fold_left omap list_omap]. rewrite IH.
    destruct (readLogsEntry f) as [logs|e]; [|done].
    cbn [concat]. by rewrite app_assoc.
Qed.

(** X17.  [readMultipleLogFiles] never fails: it returns the entries of
    the files that could be read and parsed, concatenated in the order of the
    file names, and a file that could not be read changes nothing, wherever
    it stands in the list. *)
Theorem readMultipleLogFiles_skips_unreadable (fileNames : list string) :
  readMultipleLogFiles fileNames = Ok (readable_logs fileNames)
  ∧ ∀ before after bad e,
      fileNames = before ++ bad :: after →
      readLogsEntry bad = Err e →
      readMultipleLogFiles fileNames = readMultipleLogFiles (before ++ after).
Proof.
  assert (∀ fs, readMultipleLogFiles fs = Ok (readable_logs fs)) as Hclosed.
  { intros fs. unfold readMultipleLogFiles. by rewrite read_fold_closed. }
  split; [apply Hclosed|].
  intros before after bad e -> Hbad. rewrite !Hclosed. f_equal.
  unfold readable_logs. rewrite !omap_app. cbn [omap list_omap].
  by rewrite Hbad.
Qed.

Lemma detect_currency_empty (gameData : list GameData.t) :
  detect_currency gameData = ""
  ↔ Forall (λ d, GameData.Currency d = "") gameData.
Proof.
  induction gameData as [|d gd IH]; [by split|].
  cbn [detect_currency]. case_bool_decide as Hc.
  - split; [done|]. intros [Hd _]%Forall_cons. done.
  - rewrite IH. split.
    + intros Hgd. constructor; [|done].
      destruct (decide (GameData.Currency d = "")); [done|by destruct Hc].
    + by intros [_ ?]%Forall_cons.
Qed.

Lemma detect_currency_first (gameData : list GameData.t) :
  detect_currency gameData ≠ "" →
  ∃ pre d post,
    gameData = pre ++ d :: post
    ∧ Forall (λ d, GameData.Currency d = "") pre
    ∧ GameData.Currency d = detect_currency gameData.
Proof.
  induction gameData as [|d gd IH]; [done|].
  cbn [detect_currency]. case_bool_decide as Hc.
  - intros _. exists [], d, gd. by repeat split.
  - intros (pre & d' & post & -> & Hpre & Hd)%IH.
    exists (d :: pre), d', post. split; [done|]. split; [|done].
    constructor; [|done].
    destruct (decide (GameData.Currency d = "")); [done|by destruct Hc].
Qed.

Section Run.
Context `{GoTime, GoFmt, GoSort}.

(** X18.  When [run] gets as far as printing, the report is the one of
    all decoded entries of all readable files, and the currency it prints is
    not empty: it is the currency of the first decoded entry that has one,
    every entry before it having none. *)
Theorem run_reports_first_currency (report : Report.t) (currency : string) :
  run = Ok (report, currency) →
  ∃ files gameData,
    findJSONFiles = Ok files
    ∧ files ≠ []
    ∧ parseGameData (readable_logs files) = Ok gameData
    ∧ report = generateReport gameData currency
    ∧ currency ≠ ""
    ∧ ∃ pre d post,
        gameData = pre ++ d :: post
        ∧ Forall (λ d, GameData.Currency d = "") pre
        ∧ GameData.Currency d = currency.
Proof.
  unfold run. destruct findJSONFiles as [files|e]; [|done].
  case_bool_decide as Hlen; [done|].
  unfold readMultipleLogFiles. rewrite read_fold_closed. cbn [app].
  destruct (parseGameData (readable_logs files)) as [gameData|e] eqn:Hparse; [|done].
  cbn zeta. case_bool_decide as Hcur; [done|].
  intros [= <- <-]. exists files, gameData.
  split; [done|]. split; [by destruct files|]. split; [done|]. split; [done|].
  split; [done|]. by apply detect_currency_first.
Qed.

(** X19.  Without a currency there is no report: when files were found
    and decoded but no decoded entry carries a currency, in particular when
    the logs hold no entry at all, [run] ends with the currency error and
    [generateReport] is never reached. *)
Theorem run_needs_currency (files : list string) (gameData : list GameData.t) :
  findJSONFiles = Ok files →
  files ≠ [] →
  parseGameData (readable_logs files) = Ok gameData →
  Forall (λ d, GameData.Currency d = "") gameData →
  run = Err (Errorf no_currency_message).
Proof.
  intros Hfiles Hne Hparse Hnone. unfold run. rewrite Hfiles.
  rewrite bool_decide_eq_false_2 by (by destruct files).
  unfold readMultipleLogFiles. rewrite read_fold_closed. cbn [app].
  rewrite Hparse. cbn zeta.
  by rewrite bool_decide_eq_true_2 by (by apply detect_currency_empty).
Qed.

End Run.
End ReadingFacts.

(** * Dates in file names *)

Lemma split_dots_cons (s : string) : ∃ p ps, split_dots s = p :: ps.
Proof.
  induction s as [|c s (p & ps & IH)]; cbn [split_dots]; [by eauto|].
  destruct (Ascii.eqb c "."); [by eauto|]. rewrite IH. by eauto.
Qed.

Lemma join_dots_cons (p q : string) (ps : list string) :
  join_dots (p :: q :: ps) = p +:+ "." +:+ join_dots (q :: ps).
Proof. done. Qed.

Lemma join_split_dots (s : string) : join_dots (split_dots s) = s.
Proof.
  induction s as [|c s IH]; [done|]. cbn [split_dots].
  destruct (split_dots_cons s) as (p & ps & Hs). rewrite Hs in IH |- *.
  destruct (Ascii.eqb c ".") eqn:Hc.
  - apply Ascii.eqb_eq in Hc as ->. rewrite join_dots_cons, IH. done.
  - destruct ps as [|q ps].
    + cbn [join_dots] in IH |- *. by rewrite IH.
    + rewrite join_dots_cons in IH |- *. rewrite string_app_cons, IH. done.
Qed.

Lemma length_split_dots (s : string) : length (split_dots s) = S (count_dots s).
Proof.
  induction s as [|c s IH]; [done|]. cbn [split_dots count_dots].
  destruct (split_dots_cons s) as (p & ps & Hs). rewrite Hs in IH |- *.
  destruct (Ascii.eqb c "."); cbn [length] in *; lia.
Qed.

Lemma split_dots_dotless (s : string) :
  Forall (λ p, count_dots p = 0%nat) (split_dots s).
Proof.
  induction s as [|c s IH]; [by repeat constructor|]. cbn [split_dots].
  destruct (split_dots_cons s) as (p & ps & Hs). rewrite Hs in IH |- *.
  apply Forall_cons in IH as [Hp Hps].
  destruct (Ascii.eqb c ".") eqn:Hc.
  - by repeat constructor.
  - constructor; [|done]. cbn [count_dots]. by rewrite Hc, Hp.
Qed.

Lemma count_dots_app (a b : string) :
  count_dots (a +:+ b) = (count_dots a + count_dots b)%nat.
Proof.
  induction a as [|c a IH]; [done|].
  rewrite string_app_cons. cbn [count_dots]. rewrite IH. lia.
Qed.

Lemma contains_dot_count (s : string) :
  contains_dot s = false → count_dots s = 0%nat.
Proof.
  induction s as [|c s IH]; [done|]. cbn [contains_dot count_dots].
  destruct (Ascii.eqb c "."); [done|]. intros Hs. by rewrite IH.
Qed.

Section FileNames.
Context `{GoPath}.

(** X21.  [extractDateFromFilename] cuts the base name before its third
    dot: a base name with fewer than two dots is returned as it is, and
    otherwise the result has exactly two dots and is the whole base name or
    is followed in it by a dot; so "26.12.2025(1).json" gives
    "26.12.2025(1)", not the date alone. *)
Theorem extractDateFromFilename_cuts_third_dot (filename : string) :
  let base := filepath_Base filename in
  let date := extractDateFromFilename filename in
  ((count_dots base < 2)%nat → date = base)
  ∧ ((2 ≤ count_dots base)%nat →
       count_dots date = 2%nat
       ∧ (date = base ∨ ∃ rest, base = date +:+ "." +:+ rest)).
Proof.
  intros base date. subst date. unfold extractDateFromFilename. fold base.
  destruct (contains_dot base) eqn:Hdot.
  2: { apply contains_dot_count in Hdot. split; [done|]. lia. }
  cbn zeta.
  pose proof (length_split_dots base) as Hlen.
  pose proof (join_split_dots base) as Hjoin.
  pose proof (split_dots_dotless base) as Hless.
  destruct (split_dots base) as [|p0 [|p1 [|p2 ps]]]; cbn [length] in Hlen;
    try (split; [done|lia]).
  split; [lia|]. intros _.
  apply Forall_cons in Hless as [H0 Hless].
  apply Forall_cons in Hless as [H1 Hless].
  apply Forall_cons in Hless as [H2 _].
  split.
  - rewrite !count_dots_app, H0, H1, H2. done.
  - rewrite !join_dots_cons in Hjoin. destruct ps as [|p3 ps].
    + left. done.
    + right. exists (join_dots (p3 :: ps)). rewrite join_dots_cons in Hjoin.
      rewrite <- Hjoin. by rewrite !string_app_assoc.
Qed.

End FileNames.

(** * The further theorems at concrete inputs *)

Section FurtherInstances.
#[local] Existing Instance UTC.clock.
#[local] Existing Instance UTC.fmt.
#[local] Existing Instance merge_sorter.

Lemma counters_account_for_every_entry_witness :
  Z.of_nat (length duplicate_scenario) < 2 ^ 63
  ∧ Summary.TotalBets (Report.Summary (generateReport duplicate_scenario "USD"))
      + Agg.duplicateBets (aggregate duplicate_scenario)
    = Z.of_nat (length (filter (λ d, is_bet d = true) duplicate_scenario)).
Proof.
  assert (Z.of_nat (length duplicate_scenario) < 2 ^ 63) as Hlen by (vm_compute; reflexivity).
  split; [exact Hlen|].
  exact (proj1 (counters_account_for_every_entry duplicate_scenario "USD" Hlen)).
Defined.

Lemma empty_identifier_always_counted_witness :
  is_bet (send_bet "A" "g" "r2" 20 "" 100 800) = true
  ∧ GameData.BetID (send_bet "A" "g" "r2" 20 "" 100 800) = ""
  ∧ Agg.duplicateBets
      (aggregate ([send_bet "A" "g" "r1" 10 "" 100 900]
                    ++ [send_bet "A" "g" "r2" 20 "" 100 800]))
    = Agg.duplicateBets (aggregate [send_bet "A" "g" "r1" 10 "" 100 900]).
Proof.
  assert (is_bet (send_bet "A" "g" "r2" 20 "" 100 800) = true) as Hb by reflexivity.
  assert (GameData.BetID (send_bet "A" "g" "r2" 20 "" 100 800) = "") as Hid
    by reflexivity.
  split; [exact Hb|]. split; [exact Hid|].
  destruct (empty_identifier_always_counted
              [send_bet "A" "g" "r1" 10 "" 100 900]
              (send_bet "A" "g" "r2" 20 "" 100 800)) as [Hbet _].
  exact (proj1 (proj2 (Hbet Hb Hid))).
Defined.

Lemma inert_entry_changes_no_statistic_witness :
  is_bet (other_entry "Login" "B" "g1" 20 500) = false
  ∧ is_win (other_entry "Login" "B" "g1" 20 500) = false
  ∧ same_statistics (aggregate [first_bet])
      (aggregate ([first_bet] ++ [other_entry "Login" "B" "g1" 20 500])).
Proof.
  assert (is_bet (other_entry "Login" "B" "g1" 20 500) = false) as Hb by reflexivity.
  assert (is_win (other_entry "Login" "B" "g1" 20 500) = false) as Hw by reflexivity.
  split; [exact Hb|]. split; [exact Hw|].
  exact (proj1 (inert_entry_changes_no_statistic [first_bet]
                  (other_entry "Login" "B" "g1" 20 500) Hb Hw)).
Defined.

Lemma record_totals_witness :
  match Report.PlayerStats (generateReport duplicate_scenario "USD") !! "A" with
  | Some ps =>
      PlayerStat.TotalBets ps
      = count64 (length (of_player "A" (accepted_bets duplicate_scenario)))
      ∧ PlayerStat.TotalBetAmount ps
        = sum64 (GameData.Bet <$> of_player "A" (accepted_bets duplicate_scenario))
  | None => False
  end.
Proof.
  destruct (Report.PlayerStats (generateReport duplicate_scenario "USD") !! "A")
    as [ps|] eqn:Hps.
  - destruct (record_totals duplicate_scenario "USD") as [Hplayers _].
    destruct (Hplayers "A" ps Hps) as (T1 & T2 & _).
    split; [exact T1 | exact T2].
  - vm_compute in Hps. discriminate Hps.
Defined.

Lemma no_flag_below_volume_witness :
  (∀ p, (length (of_player p (accepted_bets lucky_stream)) ≤ 100)%nat)
  ∧ Report.SuspiciousEvents (generateReport lucky_stream "USD") = [].
Proof.
  assert (∀ p, (length (of_player p (accepted_bets lucky_stream)) ≤ 100)%nat) as Hvol.
  { intros p. etrans; [apply length_filter|]. vm_compute. lia. }
  split; [exact Hvol|].
  exact (no_flag_below_volume lucky_stream "USD" Hvol).
Defined.

Lemma time_stats_ascending_witness :
  GoSortLaws
  ∧ StronglySorted (λ a b, TimeStat.Hour a < TimeStat.Hour b)
      (Report.TimeStats (generateReport two_hours_stream "USD")).
Proof.
  split; [exact merge_sorter_laws|].
  exact (proj1 (time_stats_ascending (laws := merge_sorter_laws) two_hours_stream "USD")).
Defined.

Lemma hour_bucket_totals_witness :
  match Report.TimeStats (generateReport two_hours_stream "USD") with
  | t :: _ =>
      t ∈ Report.TimeStats (generateReport two_hours_stream "USD")
      ∧ TimeStat.TotalBets t
        = count64 (length (in_hour (TimeStat.Hour t) (accepted_bets two_hours_stream)))
  | [] => False
  end.
Proof.
  destruct (Report.TimeStats (generateReport two_hours_stream "USD"))
    as [|t ts] eqn:Hts.
  - vm_compute in Hts. discriminate Hts.
  - assert (t ∈ t :: ts) as Hin by apply list_elem_of_here.
    split; [exact Hin|]. rewrite <- Hts in Hin.
    exact (proj1 (hour_bucket_totals (laws := merge_sorter_laws)
                    two_hours_stream "USD" t Hin)).
Defined.

Lemma report_without_counted_entries_witness :
  Forall (λ d, is_bet d = false ∧ is_win d = false) pre_epoch_stream
  ∧ Report.PlayerStats (generateReport pre_epoch_stream "USD") = ∅.
Proof.
  assert (Forall (λ d, is_bet d = false ∧ is_win d = false) pre_epoch_stream)
    as Hl by (repeat constructor).
  split; [exact Hl|].
  destruct (report_without_counted_entries (laws := merge_sorter_laws)
              pre_epoch_stream "USD" Hl)
    as (_ & _ & _ & _ & _ & _ & Hps & _).
  exact Hps.
Defined.

Lemma hourly_activity_shows_bet_hours_witness :
  Z.of_nat (length two_hours_stream) < 2 ^ 63
  ∧ ((∃ ln, ln ∈ hourly_activity (generateReport two_hours_stream "USD") "USD"
            ∧ HourLine.Hour ln = 1)
     ↔ ∃ d, d ∈ accepted_bets two_hours_stream ∧ hour_of d = 1).
Proof.
  assert (Z.of_nat (length two_hours_stream) < 2 ^ 63) as Hlen
    by (vm_compute; reflexivity).
  split; [exact Hlen|].
  destruct (hourly_activity_shows_bet_hours (laws := merge_sorter_laws)
              two_hours_stream "USD" Hlen) as (_ & Hhours & _).
  exact (Hhours 1).
Defined.

Lemma formatCurrency_groups_of_three_witness :
  0 < 1234 ∧ 0 ≤ 5 < 1000
  ∧ formatCurrency (1000 * 1234 + 5) = formatCurrency 1234 +:+ "," +:+ digits3 5.
Proof.
  assert (0 < 1234) as Hq by lia. assert (0 ≤ 5 < 1000) as Hr by lia.
  split; [exact Hq|]. split; [exact Hr|].
  exact (proj2 formatCurrency_groups_of_three 1234 5 Hq Hr).
Defined.

Lemma formatCurrency_negative_witness :
  -500 < 0
  ∧ formatCurrency (-500)
    = "-" +:+ (if Z.of_nat (String.length (FormatInt (- -500))) mod 3 =? 0
               then "," else "")
          +:+ formatCurrency (- -500).
Proof.
  assert (-500 < 0) as Hneg by lia.
  split; [exact Hneg|]. exact (formatCurrency_negative (-500) Hneg).
Defined.

Lemma extractDateFromFilename_cuts_third_dot_witness :
  (2 ≤ count_dots (@filepath_Base plain_base "26.12.2025(1).json"))%nat
  ∧ count_dots (@extractDateFromFilename plain_base "26.12.2025(1).json") = 2%nat.
Proof.
  assert (2 ≤ count_dots (@filepath_Base plain_base "26.12.2025(1).json"))%nat
    as Hdots by (vm_compute; lia).
  split; [exact Hdots|].
  destruct (@extractDateFromFilename_cuts_third_dot plain_base "26.12.2025(1).json")
    as [_ Hcut].
  exact (proj1 (Hcut Hdots)).
Defined.

Section Disk.
#[local] Existing Instance sample_dir.

Lemma parseGameData_fails_fast_witness :
  parseGameData [log_line "bet"] = Ok [send_bet "A" "g" "r1" 10 "b1" 100 900]
  ∧ LogEntry.Line (log_line "garbage") ≠ ""
  ∧ Unmarshal_GameData (LogEntry.Line (log_line "garbage"))
    = Err (Cause "invalid character")
  ∧ parseGameData ([log_line "bet"] ++ log_line "garbage" :: [log_line "win"])
    = Err (Wrap "unmarshaling" (Cause "invalid character")).
Proof.
  assert (parseGameData [log_line "bet"] = Ok [send_bet "A" "g" "r1" 10 "b1" 100 900])
    as Hbefore by reflexivity.
  assert (LogEntry.Line (log_line "garbage") ≠ "") as Hline by discriminate.
  assert (Unmarshal_GameData (LogEntry.Line (log_line "garbage"))
          = Err (Cause "invalid character")) as Hbad by reflexivity.
  split; [exact Hbefore|]. split; [exact Hline|]. split; [exact Hbad|].
  exact (parseGameData_fails_fast [log_line "bet"] [log_line "win"]
           (log_line "garbage") _ _ Hbefore Hline Hbad).
Defined.

Lemma readMultipleLogFiles_skips_unreadable_witness :
  readLogsEntry "locked.json" = Err (Wrap "reading file" (Cause "open failed"))
  ∧ readMultipleLogFiles ["day1.json"; "locked.json"; "day2.json"]
    = readMultipleLogFiles (["day1.json"] ++ ["day2.json"]).
Proof.
  assert (readLogsEntry "locked.json" = Err (Wrap "reading file" (Cause "open failed")))
    as Hbad by reflexivity.
  split; [exact Hbad|].
  destruct (readMultipleLogFiles_skips_unreadable
              ["day1.json"; "locked.json"; "day2.json"]) as [_ Hskip].
  exact (Hskip ["day1.json"] ["day2.json"] "locked.json" _ eq_refl Hbad).
Defined.

Lemma run_reports_first_currency_witness :
  match run with
  | Ok (report, currency) =>
      run = Ok (report, currency)
      ∧ currency ≠ ""
      ∧ ∃ files gameData,
          parseGameData (readable_logs files) = Ok gameData
          ∧ report = generateReport gameData currency
  | Err _ => False
  end.
Proof.
  destruct run as [[report currency]|e] eqn:Hrun.
  - split; [reflexivity|].
    destruct (run_reports_first_currency report currency Hrun)
      as (files & gameData & _ & _ & Hparse & Hreport & Hcur & _).
    split; [exact Hcur|]. exists files, gameData. split; [exact Hparse | exact Hreport].
  - vm_compute in Hrun. discriminate Hrun.
Defined.

End Disk.

Section IdleDisk.
#[local] Existing Instance idle_dir.

Lemma run_needs_currency_witness :
  findJSONFiles = Ok ["idle.json"]
  ∧ ["idle.json"] ≠ []
  ∧ parseGameData (readable_logs ["idle.json"]) = Ok [login_entry]
  ∧ Forall (λ d, GameData.Currency d = "") [login_entry]
  ∧ run = Err (Errorf no_currency_message).
Proof.
  assert (findJSONFiles = Ok ["idle.json"]) as Hfiles by reflexivity.
  assert (["idle.json"] ≠ ([] : list string)) as Hne by discriminate.
  assert (parseGameData (readable_logs ["idle.json"]) = Ok [login_entry]) as Hparse
    by reflexivity.
  assert (Forall (λ d, GameData.Currency d = "") [login_entry]) as Hnone
    by (repeat constructor).
  split; [exact Hfiles|]. split; [exact Hne|]. split; [exact Hparse|].
  split; [exact Hnone|].
  exact (run_needs_currency ["idle.json"] [login_entry] Hfiles Hne Hparse Hnone).
Defined.

End IdleDisk.
End FurtherInstances.
